(** * The Azure storage driver of the image-registry operator

    A shallow embedding of the storage-provisioning code of
    [pkg/storage/azure] (the driver: [assureStorageAccount],
    [assureContainer], [CreateStorage], [RemoveStorage], [StorageExists],
    [generateAccountName], ...) and of [ConfigurePrivateDNS] from
    [pkg/storage/azure/azureclient].

    Conventions of the embedding.
    - A Go [string] is a [string] of bytes.
    - A Go [(T, error)] return is a [res T]; the functions whose returned
      tuple the claims speak about ([assureStorageAccount],
      [assureContainer], [RemoveStorage]) also get their Go-shaped tuple.
    - Everything the driver calls outside of the package (the Azure SDK
      clients, the secret lister, the random source, library constructors)
      is a [Call]; the [World] answers calls and may change by answering.
      Every function returns, next to its result, the new world and the
      list of calls it issued, in the order of issue.
    - [fmt.Errorf] and [fmt.Sprintf] are kept symbolic ([Errorf],
      [Sprintf]): a format and its arguments.
    - A pointer that the code dereferences without a nil check
      ([cr.Spec.Storage.Azure], [result.NameAvailable], the fields of SDK
      replies) is modelled by its pointee. *)

From stdpp Require Import base strings gmap list.
From Stdlib Require Import Ascii ZArith Lia.

Set Warnings "-register-all".

Open Scope string_scope.
Open Scope list_scope.

(** ** Go strings *)

Module GoString.

Definition code (c : ascii) : nat := Ascii.nat_of_ascii c.

Definition is_digit (c : ascii) : bool :=
  (48 <=? code c)%nat && (code c <=? 57)%nat.
Definition is_upper (c : ascii) : bool :=
  (65 <=? code c)%nat && (code c <=? 90)%nat.
Definition is_lower (c : ascii) : bool :=
  (97 <=? code c)%nat && (code c <=? 122)%nat.

(** The character class [0-9A-Za-z]. A byte of a multi-byte rune, or an
    invalid byte, is at least 128 and so outside of the class, as the
    rune it belongs to is for the regular expression. *)
Definition is_alnum (c : ascii) : bool :=
  is_digit c || is_upper c || is_lower c.

Definition lower_alnum (c : ascii) : bool := is_digit c || is_lower c.

Fixpoint filter (p : ascii -> bool) (s : string) : string :=
  match s with
  | EmptyString => EmptyString
  | String c s' => if p c then String c (filter p s') else filter p s'
  end.

Fixpoint map (f : ascii -> ascii) (s : string) : string :=
  match s with
  | EmptyString => EmptyString
  | String c s' => String (f c) (map f s')
  end.

Fixpoint all (p : ascii -> bool) (s : string) : bool :=
  match s with
  | EmptyString => true
  | String c s' => p c && all p s'
  end.

(** [s[:n]] for [n <= len(s)]. *)
Fixpoint take (n : nat) (s : string) : string :=
  match n, s with
  | S n', String c s' => String c (take n' s')
  | _, _ => EmptyString
  end.

Definition lower_char (c : ascii) : ascii :=
  if is_upper c then Ascii.ascii_of_nat (code c + 32) else c.

(** [strings.ToLower] on the bytes below 128; the driver applies it to
    names made of such bytes. *)
Definition ToLower (s : string) : string := map lower_char s.

(** [strings.Replace(s, old, new, -1)] for one-byte [old] and [new]. *)
Definition ReplaceAll (old new : ascii) (s : string) : string :=
  map (fun c => if Ascii.eqb c old then new else c) s.

(** The last element of [strings.Split(s, sep)] for a one-byte [sep]:
    what follows the last [sep], or all of [s]. *)
Fixpoint last_segment_from (sep : ascii) (acc s : string) : string :=
  match s with
  | EmptyString => acc
  | String c s' =>
      if Ascii.eqb c sep then last_segment_from sep s' s'
      else last_segment_from sep acc s'
  end.
Definition last_segment (sep : ascii) (s : string) : string :=
  last_segment_from sep s s.

(** [strings.HasSuffix]. *)
Fixpoint has_suffix (suffix s : string) : bool :=
  String.eqb s suffix
  || match s with
     | EmptyString => false
     | String _ s' => has_suffix suffix s'
     end.

End GoString.

(** [storageAccountInvalidCharRe.ReplaceAllString(s, "")] with
    [storageAccountInvalidCharRe = `[^0-9A-Za-z]`]. *)
Definition storageAccountInvalidCharRe_strip (s : string) : string :=
  GoString.filter GoString.is_alnum s.

(** ** Errors *)

Inductive fmtarg (E : Type) : Type :=
| ArgString (s : string)
| ArgInt (n : Z)
| ArgError (e : E).
Arguments ArgString {E} s.
Arguments ArgInt {E} n.
Arguments ArgError {E} e.

(** The dynamic types of the [error] values the driver tells apart, and
    one constructor for all the others. *)
Inductive error : Type :=
| ResponseError (StatusCode : Z) (ErrorCode : string) (text : string)
    (* *azcore.ResponseError *)
| DetailedError (StatusCode : Z) (text : string)
    (* autorest.DetailedError *)
| StorageError (ServiceCode : string) (text : string)
    (* azblob.StorageError *)
| StatusError (isNotFound : bool) (text : string)
    (* an API error of the cluster; [isNotFound] is [errors.IsNotFound] *)
| OtherError (text : string)
| Errorf (format : string) (args : list (fmtarg error))
    (* fmt.Errorf *)
| errDoesNotExist (Err : error).
    (* the driver's own *errDoesNotExist *)

(** [fmt.Sprintf]. *)
Inductive message : Type :=
| Sprintf (format : string) (args : list (fmtarg error)).

Definition Literal (s : string) : message := Sprintf s [].

Inductive res (A : Type) : Type :=
| Ok (a : A)
| Err (e : error).
Arguments Ok {A} a.
Arguments Err {A} e.

Definition is_ok {A} (r : res A) : bool :=
  match r with Ok _ => true | Err _ => false end.

(** A long-running operation: [BeginX] may fail, and then
    [PollUntilDone] may. *)
Inductive poller (A : Type) : Type :=
| BeginFailed (e : error)
| PollFailed (e : error)
| Done (a : A).
Arguments BeginFailed {A} e.
Arguments PollFailed {A} e.
Arguments Done {A} a.

(** [storageAccountsClient.Create], [future.WaitForCompletionRef] and
    [future.Result]. *)
Inductive future : Type :=
| CreateFailed (e : error)
| WaitFailed (e : error)
| ResultFailed (e : error)
| Completed.

(** ** Data *)

(** [imageregistryv1]: the part of the registry's configuration resource
    that the driver reads and writes. *)
Module imageregistryv1.

Record ImageRegistryConfigStorageAzure : Type := {
  AccountName : string;
  Container : string;
  CloudName : string
}.

Definition set_AccountName (v : string) (c : ImageRegistryConfigStorageAzure) :=
  {| AccountName := v; Container := Container c; CloudName := CloudName c |}.
Definition set_Container (v : string) (c : ImageRegistryConfigStorageAzure) :=
  {| AccountName := AccountName c; Container := v; CloudName := CloudName c |}.
Definition set_CloudName (v : string) (c : ImageRegistryConfigStorageAzure) :=
  {| AccountName := AccountName c; Container := Container c; CloudName := v |}.

(** [ImageRegistryConfigStorage], without the other storage back ends. *)
Record ImageRegistryConfigStorage : Type := {
  ManagementState : string;
  Azure : ImageRegistryConfigStorageAzure
}.

Definition StorageManagementStateManaged : string := "Managed".
Definition StorageManagementStateUnmanaged : string := "Unmanaged".

Inductive ConditionStatus : Type :=
| ConditionTrue
| ConditionFalse
| ConditionUnknown.

(** One write to the condition [defaults.StorageExists], the only
    condition type the driver writes. *)
Record ConditionUpdate : Type := {
  Status : ConditionStatus;
  Reason : string;
  Message : message
}.

(** [Config]: [Spec.Storage], [Status.Storage], and the writes made to the
    condition sink, oldest first. *)
Record Config : Type := {
  Spec_Storage : ImageRegistryConfigStorage;
  Status_Storage : ImageRegistryConfigStorage;
  Conditions : list ConditionUpdate
}.

End imageregistryv1.

Module configv1.

Record AzureResourceTag : Type := { Key : string; Value : string }.

Record AzurePlatformStatus : Type := {
  CloudName : string;
  ResourceTags : list AzureResourceTag
}.

Record PlatformStatus : Type := {
  Type_ : string;
  Azure : option AzurePlatformStatus
}.

Definition AzurePlatformType : string := "Azure".

(** [Infrastructure.Status]. *)
Record Infrastructure : Type := {
  InfrastructureName : string;
  Status_PlatformStatus : option PlatformStatus
}.

End configv1.

(** [autorestazure.Environment], the fields in use. *)
Record Environment : Type := {
  ResourceManagerEndpoint : string;
  ActiveDirectoryEndpoint : string;
  TokenAudience : string;
  StorageEndpointSuffix : string
}.

(** [corev1.Secret]. *)
Record Secret : Type := {
  Namespace : string;
  Name : string;
  Data : gmap string string
}.

(** [armnetwork.PrivateEndpoint]: its name and the resource identifiers of
    [Properties.NetworkInterfaces]. *)
Record PrivateEndpoint : Type := {
  pe_Name : string;
  pe_NetworkInterfaces : list string
}.

(** [armnetwork.Interface]: its name and the private addresses of
    [Properties.IPConfigurations]. *)
Record Interface : Type := {
  nic_Name : string;
  nic_IPConfigurations : list string
}.

(** ** The world outside of the driver *)

Inductive SecretName : Type :=
| ImageRegistryPrivateConfigurationUser
| CloudCredentialsName.

Inductive ArmClient : Type :=
| PrivateEndpointsClient
| PrivateZonesClient
| RecordSetsClient
| PrivateDNSZoneGroupsClient
| VirtualNetworkLinksClient
| InterfacesClient.

(** The calls that leave the package, each with the type of its reply. The
    request bodies keep the fields that the driver computes. *)
Inductive Call : Type -> Type :=
(* the cluster *)
| SecretsGet (name : SecretName) : Call (res Secret)
| GetValueFromSecret (sec : Secret) (key : string) : Call (res string)
| GetInfrastructure : Call (res configv1.Infrastructure)
| GenerateStorageName (additionalInfo : string) : Call (res string)
(* libraries *)
| RandString (n : nat) : Call string
| EnvironmentFromName (name : string) : Call (res Environment)
| NewClientSecretCredential (tenantID clientID clientSecret : string)
  : Call (res unit)
| NewArmClient (kind : ArmClient) (subscriptionID : string) : Call (res unit)
| NewSharedKeyCredential (accountName key : string) : Call (res unit)
| UrlParse (rawURL : string) : Call (res unit)
(* storage accounts *)
| CheckNameAvailability (name : string) : Call (res bool)
| AccountsCreate (resourceGroup accountName location : string)
    (tags : gmap string string) : Call future
| PrimaryKeyGet (resourceGroup accountName : string) : Call (res string)
| AccountsDelete (resourceGroup accountName : string) : Call (res unit)
(* network and private DNS *)
| PrivateEndpointsCreateOrUpdate (resourceGroup name location : string)
    (subnetID privateLinkServiceID : string) (tags : gmap string string)
  : Call (poller PrivateEndpoint)
| PrivateZonesCreateOrUpdate (resourceGroup zone location : string)
    (tags : gmap string string) : Call (poller unit)
| InterfacesGet (resourceGroup name : string) : Call (res Interface)
| RecordSetsCreateOrUpdate (resourceGroup zone relativeName : string)
    (ttl : Z) (address : string) : Call (res unit)
| PrivateDNSZoneGroupsCreateOrUpdate
    (resourceGroup privateEndpoint group : string)
    (configName zoneID : string) : Call (poller unit)
| VirtualNetworkLinksCreateOrUpdate
    (resourceGroup zone link location vnetID : string)
    (tags : gmap string string) : Call (poller unit)
(* blob containers *)
| ContainerGetProperties (serviceURL accountName key container : string)
  : Call (res unit)
| ContainerCreate (serviceURL accountName key container : string)
  : Call (res unit)
| ContainerDelete (serviceURL accountName key container : string)
  : Call (res unit).

(** A world answers every call and moves on. [PublicCloud] is the
    library's constant [autorestazure.PublicCloud]. *)
Class World (W : Type) : Type := {
  perform : forall R, Call R -> W -> R * W;
  PublicCloud : Environment
}.
Arguments perform {W _ R} c w.

Inductive Event : Type :=
| Ev {R : Type} (c : Call R) (r : R).

(** The kinds of calls that the properties tell apart. *)
Inductive Kind : Type :=
| KLocal            (* the cluster and the libraries: no provider request *)
| KCheckNameAvailability
| KAccountsCreate
| KPrimaryKeyGet
| KAccountsDelete
| KPrivateEndpointCreate
| KPrivateZoneCreate
| KInterfacesGet
| KRecordSetCreate
| KZoneGroupCreate
| KVirtualNetworkLinkCreate
| KContainerGetProperties
| KContainerCreate
| KContainerDelete.

#[global] Instance Kind_eq_dec : EqDecision Kind.
Proof. solve_decision. Defined.

Definition call_kind {R} (c : Call R) : Kind :=
  match c with
  | CheckNameAvailability _ => KCheckNameAvailability
  | AccountsCreate _ _ _ _ => KAccountsCreate
  | PrimaryKeyGet _ _ => KPrimaryKeyGet
  | AccountsDelete _ _ => KAccountsDelete
  | PrivateEndpointsCreateOrUpdate _ _ _ _ _ _ => KPrivateEndpointCreate
  | PrivateZonesCreateOrUpdate _ _ _ _ => KPrivateZoneCreate
  | InterfacesGet _ _ => KInterfacesGet
  | RecordSetsCreateOrUpdate _ _ _ _ _ => KRecordSetCreate
  | PrivateDNSZoneGroupsCreateOrUpdate _ _ _ _ _ => KZoneGroupCreate
  | VirtualNetworkLinksCreateOrUpdate _ _ _ _ _ _ => KVirtualNetworkLinkCreate
  | ContainerGetProperties _ _ _ _ => KContainerGetProperties
  | ContainerCreate _ _ _ _ => KContainerCreate
  | ContainerDelete _ _ _ _ => KContainerDelete
  | _ => KLocal
  end.

(** Whether the reply reports success. *)
Definition reply_ok {R} (c : Call R) : R -> bool :=
  match c in Call R return R -> bool with
  | SecretsGet _ => is_ok
  | GetValueFromSecret _ _ => is_ok
  | GetInfrastructure => is_ok
  | GenerateStorageName _ => is_ok
  | RandString _ => fun _ => true
  | EnvironmentFromName _ => is_ok
  | NewClientSecretCredential _ _ _ => is_ok
  | NewArmClient _ _ => is_ok
  | NewSharedKeyCredential _ _ => is_ok
  | UrlParse _ => is_ok
  | CheckNameAvailability _ => is_ok
  | AccountsCreate _ _ _ _ =>
      fun f => match f with Completed => true | _ => false end
  | PrimaryKeyGet _ _ => is_ok
  | AccountsDelete _ _ => is_ok
  | PrivateEndpointsCreateOrUpdate _ _ _ _ _ _ =>
      fun p => match p with Done _ => true | _ => false end
  | PrivateZonesCreateOrUpdate _ _ _ _ =>
      fun p => match p with Done _ => true | _ => false end
  | InterfacesGet _ _ => is_ok
  | RecordSetsCreateOrUpdate _ _ _ _ _ => is_ok
  | PrivateDNSZoneGroupsCreateOrUpdate _ _ _ _ _ =>
      fun p => match p with Done _ => true | _ => false end
  | VirtualNetworkLinksCreateOrUpdate _ _ _ _ _ _ =>
      fun p => match p with Done _ => true | _ => false end
  | ContainerGetProperties _ _ _ _ => is_ok
  | ContainerCreate _ _ _ _ => is_ok
  | ContainerDelete _ _ _ _ => is_ok
  end.

Definition ev_kind (e : Event) : Kind :=
  match e with Ev c _ => call_kind c end.

Definition ev_ok (e : Event) : bool :=
  match e with Ev c r => reply_ok c r end.

(** The kinds of the calls of a trace, in order, and of those that
    succeeded. *)
Definition kinds (t : list Event) : list Kind := List.map ev_kind t.
Definition kinds_ok (t : list Event) : list Kind :=
  List.map ev_kind (List.filter ev_ok t).

Definition is_request (k : Kind) : bool :=
  match k with KLocal => false | _ => true end.

(** The provider requests of a trace. *)
Definition requests (t : list Event) : list Kind :=
  List.filter is_request (kinds t).

(** ** Computations *)

Section Monad.
Context {W : Type} `{!World W}.

(** A computation runs in a world and yields a result or an error, the
    world it leaves, and the calls it made. *)
Definition M (A : Type) : Type := W -> res A * W * list Event.

Definition ret {A} (a : A) : M A := fun w => (Ok a, w, []).
Definition fail {A} (e : error) : M A := fun w => (Err e, w, []).

Definition bind {A B} (m : M A) (k : A -> M B) : M B :=
  fun w =>
    match m w with
    | (Ok a, w1, t1) =>
        match k a w1 with
        | (r, w2, t2) => (r, w2, t1 ++ t2)
        end
    | (Err e, w1, t1) => (Err e, w1, t1)
    end.

(** A call, whatever it replies. *)
Definition call {R} (c : Call R) : M R :=
  fun w => match perform c w with (r, w') => (Ok r, w', [Ev c r]) end.

(** [x, err := f(...); if err != nil { return ..., wrap(err) }]. *)
Definition or_fail {A} (wrap : error -> error) (m : M (res A)) : M A :=
  bind m (fun r => match r with Ok a => ret a | Err e => fail (wrap e) end).

(** A call whose error is returned as it is. *)
Definition try {A} (c : Call (res A)) : M A := or_fail id (call c).

(** [BeginX] then [PollUntilDone]. *)
Definition await {A} (on_begin on_poll : error -> error)
    (c : Call (poller A)) : M A :=
  bind (call c) (fun p =>
    match p with
    | BeginFailed e => fail (on_begin e)
    | PollFailed e => fail (on_poll e)
    | Done a => ret a
    end).

(** The result of a computation as a value: [x, err := f(...)]. *)
Definition attempt {A} (m : M A) : M (res A) :=
  fun w => match m w with (r, w', t) => (Ok r, w', t) end.

End Monad.

Notation "x <- m ;; k" := (bind m (fun x => k))
  (at level 100, m at next level, right associativity,
   format "'[v' x  <-  m  ;;  '/' k ']'").
Notation "m ;;; k" := (bind m (fun _ => k))
  (at level 100, right associativity,
   format "'[v' m  ;;;  '/' k ']'").

Definition is_empty (s : string) : bool :=
  match s with EmptyString => true | String _ _ => false end.

(** ** The driver: package [azure] *)

Module azure.
Import imageregistryv1.

Definition storageExistsReasonNotConfigured : string := "StorageNotConfigured".
Definition storageExistsReasonConfigError : string := "ConfigError".
Definition storageExistsReasonUserManaged : string := "UserManaged".
Definition storageExistsReasonAzureError : string := "AzureError".
Definition storageExistsReasonContainerNotFound : string := "ContainerNotFound".
Definition storageExistsReasonContainerExists : string := "ContainerExists".
Definition storageExistsReasonContainerDeleted : string := "ContainerDeleted".
Definition storageExistsReasonAccountDeleted : string := "AccountDeleted".

(** [Azure] holds configuration used to reach Azure's endpoints. *)
Record Azure : Type := {
  SubscriptionID : string;
  ClientID : string;
  ClientSecret : string;
  TenantID : string;
  ResourceGroup : string;
  Region : string;
  AccountKey : string
}.

(** The driver: [Config], and whether an [authorizer] was injected. The
    listers are part of the world; the injected senders do not change
    what the driver does. *)
Record driver : Type := {
  Config : ImageRegistryConfigStorageAzure;
  authorizer : bool
}.

Definition with_Config (c : ImageRegistryConfigStorageAzure) (d : driver) :=
  {| Config := c; authorizer := authorizer d |}.

(** Modelled from the spec: [util.UpdateCondition], of
    [pkg/storage/util], is not part of the sources at hand. The spec has
    the status object as an in-memory condition sink that takes one
    (status, reason, message) triple per update; the sink keeps the
    triples in the order of writing. *)
Definition UpdateCondition (cr : imageregistryv1.Config) (status : ConditionStatus)
    (reason : string) (msg : message) : imageregistryv1.Config :=
  {| Spec_Storage := Spec_Storage cr;
     Status_Storage := Status_Storage cr;
     Conditions := Conditions cr ++
       [{| Status := status; Reason := reason; Message := msg |}] |}.

Definition set_Spec_ManagementState (v : string) (cr : imageregistryv1.Config) : imageregistryv1.Config :=
  {| Spec_Storage :=
       {| ManagementState := v; imageregistryv1.Azure := imageregistryv1.Azure (Spec_Storage cr) |};
     Status_Storage := Status_Storage cr;
     Conditions := Conditions cr |}.

(** [cr.Spec.Storage.Azure = c]. *)
Definition set_Spec_Azure (c : ImageRegistryConfigStorageAzure)
    (cr : imageregistryv1.Config) : imageregistryv1.Config :=
  {| Spec_Storage :=
       {| ManagementState := ManagementState (Spec_Storage cr);
          imageregistryv1.Azure := c |};
     Status_Storage := Status_Storage cr;
     Conditions := Conditions cr |}.

(** [cr.Status.Storage.Azure = c]. *)
Definition set_Status_Azure (c : ImageRegistryConfigStorageAzure)
    (cr : imageregistryv1.Config) : imageregistryv1.Config :=
  {| Spec_Storage := Spec_Storage cr;
     Status_Storage :=
       {| ManagementState := ManagementState (Status_Storage cr);
          imageregistryv1.Azure := c |};
     Conditions := Conditions cr |}.

(** [cr.Status.Storage = ImageRegistryConfigStorage{Azure: c}]. *)
Definition set_Status_Storage (c : ImageRegistryConfigStorageAzure)
    (cr : imageregistryv1.Config) : imageregistryv1.Config :=
  {| Spec_Storage := Spec_Storage cr;
     Status_Storage := {| ManagementState := ""; imageregistryv1.Azure := c |};
     Conditions := Conditions cr |}.

(** [errors.IsNotFound]. *)
Definition IsNotFound (e : error) : bool :=
  match e with StatusError b _ => b | _ => false end.

Definition formatSubnetID (subscriptionID resourceGroupName vnetName subnetName : string) : string :=
  "/subscriptions/" +:+ subscriptionID +:+ "/resourceGroups/" +:+ resourceGroupName
    +:+ "/providers/Microsoft.Network/virtualNetworks/" +:+ vnetName
    +:+ "/subnets/" +:+ subnetName.

Definition formatPrivateLinkResourceID (subscriptionID resourceGroupName storageAccountName : string) : string :=
  "/subscriptions/" +:+ subscriptionID +:+ "/resourceGroups/" +:+ resourceGroupName
    +:+ "/providers/Microsoft.Storage/storageAccounts/" +:+ storageAccountName.

Definition formatPrivateDNSZoneID (subscriptionID resourceGroupName privateZoneName : string) : string :=
  "/subscriptions/" +:+ subscriptionID +:+ "/resourceGroups/" +:+ resourceGroupName
    +:+ "/providers/Microsoft.Network/privateDnsZones/" +:+ privateZoneName.

Definition formatVNetID (subscriptionID resourceGroupName vnetName : string) : string :=
  "/subscriptions/" +:+ subscriptionID +:+ "/resourceGroups/" +:+ resourceGroupName
    +:+ "/providers/Microsoft.Network/virtualNetworks/" +:+ vnetName.

Section Driver.
Context {W : Type} `{!World W}.

Definition data (sec : Secret) (key : string) : string :=
  default "" (Data sec !! key).

(** [GetConfig] reads the user's secret and, when there is none, the
    cluster-wide credentials. *)
Definition GetConfig : M Azure :=
  r <- call (SecretsGet ImageRegistryPrivateConfigurationUser) ;;
  match r with
  | Err err =>
      if negb (IsNotFound err) then
        fail (Errorf "unable to get user provided secrets: %s" [ArgError err])
      else
        sec <- or_fail
                 (fun e => Errorf "unable to get cluster minted credentials: %s" [ArgError e])
                 (call (SecretsGet CloudCredentialsName)) ;;
        ret {| SubscriptionID := data sec "azure_subscription_id";
               ClientID := data sec "azure_client_id";
               ClientSecret := data sec "azure_client_secret";
               TenantID := data sec "azure_tenant_id";
               ResourceGroup := data sec "azure_resourcegroup";
               Region := data sec "azure_region";
               AccountKey := "" |}
  | Ok sec =>
      key <- try (GetValueFromSecret sec "REGISTRY_STORAGE_AZURE_ACCOUNTKEY") ;;
      if is_empty key then
        fail (Errorf
                ("the secret %s/%s has an empty value for " +:+
                 "REGISTRY_STORAGE_AZURE_ACCOUNTKEY; the secret should be removed so that " +:+
                 "the operator can use cluster-wide secrets or it should contain a valid " +:+
                 "storage account access key")
                [ArgString (Namespace sec); ArgString (Name sec)])
      else
        ret {| SubscriptionID := ""; ClientID := ""; ClientSecret := "";
               TenantID := ""; ResourceGroup := ""; Region := "";
               AccountKey := key |}
  end.

Definition getEnvironmentByName (name : string) : M Environment :=
  if is_empty name then ret PublicCloud
  else try (EnvironmentFromName name).

(** [generateAccountName] returns a name that can be used for an Azure
    Storage Account. *)
Definition generateAccountName (infrastructureName : string) : M string :=
  let prefix := "imageregistry" +:+ storageAccountInvalidCharRe_strip infrastructureName in
  let prefix :=
    if (24 - 5 <? String.length prefix)%nat
    then GoString.take (24 - 5) prefix else prefix in
  suffix <- call (RandString 5) ;;
  let prefix := prefix +:+ suffix in
  ret (GoString.ToLower prefix).

(** [url.Parse] of the blob service address; the parsed address stands
    for the service afterwards. *)
Definition getBlobServiceURL (environment : Environment) (accountName : string) : M string :=
  let raw := "https://" +:+ accountName +:+ ".blob." +:+ StorageEndpointSuffix environment in
  try (UrlParse raw) ;;; ret raw.

Definition accountExists (accountName : string) : M bool :=
  try (CheckNameAvailability accountName).

Definition createPrivateEndpoint
    (resourceGroupName privateEndpointName accountName location subscriptionID cloudName : string)
    (tagset : gmap string string) : M PrivateEndpoint :=
  let vnetName := "fmissi-ms799-vnet" in
  let subnetName := "fmissi-ms799-worker-subnet" in
  let subnetID := formatSubnetID subscriptionID resourceGroupName vnetName subnetName in
  let privateLinkResource :=
    formatPrivateLinkResourceID subscriptionID resourceGroupName accountName in
  await
    (fun err => Errorf "failed to start creating private endpoint: %s" [ArgError err])
    (fun err => Errorf "failed to finish creating private endpoint: %s" [ArgError err])
    (PrivateEndpointsCreateOrUpdate resourceGroupName privateEndpointName location
       subnetID privateLinkResource tagset).

Definition createRecordSet (privateEndpoint : PrivateEndpoint)
    (resourceGroupName accountName privateZoneName : string) : M unit :=
  let relativeRecordSetName := accountName in
  match pe_NetworkInterfaces privateEndpoint with
  | [] =>
      fail (Errorf "private endpoint %s did not have any network interfaces"
              [ArgString (pe_Name privateEndpoint)])
  | nic :: _ =>
      let nicName := GoString.last_segment "/" nic in
      respNIC <- try (InterfacesGet resourceGroupName nicName) ;;
      match nic_IPConfigurations respNIC with
      | [] =>
          fail (Errorf "network interface %s did not have any IP configurations"
                  [ArgString (nic_Name respNIC)])
      | nicAddress :: _ =>
          or_fail
            (fun err => Errorf "failed to create record set: %s" [ArgError err])
            (call (RecordSetsCreateOrUpdate resourceGroupName privateZoneName
                     relativeRecordSetName 10 nicAddress))
      end
  end.

Definition createPrivateDNSZoneGroup
    (subscriptionID resourceGroupName privateEndpointName privateZoneName : string) : M unit :=
  let privateZoneID :=
    formatPrivateDNSZoneID subscriptionID resourceGroupName privateZoneName in
  let groupName := GoString.ReplaceAll "." "-" privateZoneName in
  await
    (fun err => Errorf "failed to start creating private DNS zone group: %s" [ArgError err])
    (fun err => Errorf "failed to finish creating private DNS zone group: %s" [ArgError err])
    (PrivateDNSZoneGroupsCreateOrUpdate resourceGroupName privateEndpointName groupName
       "privatelink-blob-core-windows-net" privateZoneID).

Definition createVirtualNetworkLink
    (subscriptionID resourceGroupName privateZoneName vnetName : string)
    (tagset : gmap string string) : M unit :=
  let virtualNetworkLinkName := "whatever123" in
  let location := "global" in
  let vnetID := formatVNetID subscriptionID resourceGroupName vnetName in
  await id id
    (VirtualNetworkLinksCreateOrUpdate resourceGroupName privateZoneName
       virtualNetworkLinkName location vnetID tagset).

Definition createPrivateDNSZone
    (resourceGroupName cloudName privateZoneName : string)
    (tagset : gmap string string) : M unit :=
  let location := "global" in
  await id id
    (PrivateZonesCreateOrUpdate resourceGroupName privateZoneName location tagset).

(** The kind and the property block of the request depend on
    [cloudName] alone and are not among the arguments of the call. *)
Definition createStorageAccount
    (resourceGroupName accountName location cloudName : string)
    (tagset : gmap string string) : M unit :=
  f <- call (AccountsCreate resourceGroupName accountName location tagset) ;;
  match f with
  | CreateFailed err =>
      fail (Errorf "failed to start creating storage account: %s" [ArgError err])
  | WaitFailed err =>
      fail (Errorf "failed to finish creating storage account: %s" [ArgError err])
  | ResultFailed err =>
      fail (Errorf "failed to create storage account: %s" [ArgError err])
  | Completed => ret tt
  end.

(** [primaryKey] is the package's cache of account keys; its [get] is a
    call. *)
Definition getAccountPrimaryKey (resourceGroupName accountName : string) : M string :=
  r <- call (PrimaryKeyGet resourceGroupName accountName) ;;
  match r with
  | Err err =>
      let wrappedErr :=
        Errorf "failed to get keys for the storage account %s: %s"
          [ArgString accountName; ArgError err] in
      match err with
      | DetailedError StatusCode _ =>
          if (StatusCode =? 404)%Z then fail (errDoesNotExist wrappedErr)
          else fail wrappedErr
      | _ => fail wrappedErr
      end
  | Ok key => ret key
  end.

(** The container's address: the service and the container's name. *)
Definition getStorageContainer (environment : Environment)
    (accountName key containerName : string) : M string :=
  try (NewSharedKeyCredential accountName key) ;;;
  getBlobServiceURL environment accountName.

Definition createStorageContainer (environment : Environment)
    (accountName key containerName : string) : M unit :=
  u <- getStorageContainer environment accountName key containerName ;;
  try (ContainerCreate u accountName key containerName).

Definition deleteStorageContainer (environment : Environment)
    (accountName key containerName : string) : M unit :=
  u <- getStorageContainer environment accountName key containerName ;;
  try (ContainerDelete u accountName key containerName).

(** [authorizer(cfg, environment)]. *)
Definition new_authorizer (cfg : Azure) (environment : Environment) : M unit :=
  try (NewClientSecretCredential (TenantID cfg) (ClientID cfg) (ClientSecret cfg)).

Definition storageAccountsClient (d : driver) (cfg : Azure)
    (environment : Environment) : M unit :=
  if authorizer d then ret tt else new_authorizer cfg environment.

(** [privateEndpointsClient], [privateZonesClient], [recordSetsClient],
    [privateZoneGroupsClient], [vnetLinksClient] and
    [interfacesClient] differ in the client they build. *)
Definition armClient (kind : ArmClient) (cfg : Azure)
    (environment : Environment) : M unit :=
  try (NewClientSecretCredential (TenantID cfg) (ClientID cfg) (ClientSecret cfg)) ;;;
  try (NewArmClient kind (SubscriptionID cfg)).

Definition privateEndpointsClient := armClient PrivateEndpointsClient.
Definition privateZonesClient := armClient PrivateZonesClient.
Definition recordSetsClient := armClient RecordSetsClient.
Definition privateZoneGroupsClient := armClient PrivateDNSZoneGroupsClient.
Definition vnetLinksClient := armClient VirtualNetworkLinksClient.
Definition interfacesClient := armClient InterfacesClient.

Definition getKey (d : driver) (cfg : Azure) (environment : Environment) : M string :=
  if negb (is_empty (AccountKey cfg)) then ret (AccountKey cfg)
  else
    storageAccountsClient d cfg environment ;;;
    getAccountPrimaryKey (ResourceGroup cfg) (AccountName (Config d)).

(** [containerExists] determines whether or not an azure container
    exists. *)
Definition containerExists (environment : Environment)
    (accountName key containerName : string) : M bool :=
  if is_empty accountName || is_empty containerName then ret false
  else
    try (NewSharedKeyCredential accountName key) ;;;
    u <- getBlobServiceURL environment accountName ;;
    r <- call (ContainerGetProperties u accountName key containerName) ;;
    match r with
    | Err (StorageError code text) =>
        if String.eqb code "ContainerNotFound" then ret false
        else
          fail (Errorf "unable to get the storage container %s: %s"
                  [ArgString containerName; ArgError (StorageError code text)])
    | Err err =>
        fail (Errorf "unable to get the storage container %s: %s"
                [ArgString containerName; ArgError err])
    | Ok _ => ret true
    end.

(** [StorageExists] checks if the storage container exists and is
    accessible. *)
Definition StorageExists (d : driver) (cr : imageregistryv1.Config)
  : M (bool * option error * imageregistryv1.Config) :=
  if is_empty (AccountName (Config d)) || is_empty (Container (Config d)) then
    ret (false, None,
         UpdateCondition cr ConditionFalse storageExistsReasonNotConfigured
           (Literal "Storage is not configured"))
  else
    r <- attempt GetConfig ;;
    match r with
    | Err err =>
        ret (false, Some err,
             UpdateCondition cr ConditionUnknown storageExistsReasonConfigError
               (Sprintf "Unable to get configuration: %s" [ArgError err]))
    | Ok cfg =>
    r <- attempt (getEnvironmentByName (CloudName (Config d))) ;;
    match r with
    | Err err =>
        ret (false, Some err,
             UpdateCondition cr ConditionUnknown storageExistsReasonConfigError
               (Sprintf "Unable to get cloud environment: %s" [ArgError err]))
    | Ok environment =>
    r <- attempt (getKey d cfg environment) ;;
    match r with
    | Err err =>
        ret (false, Some err,
             UpdateCondition cr ConditionUnknown storageExistsReasonAzureError
               (Sprintf "Unable to get storage account key: %s" [ArgError err]))
    | Ok key =>
    r <- attempt (containerExists environment (AccountName (Config d)) key
                    (Container (Config d))) ;;
    match r with
    | Err err =>
        ret (false, Some err,
             UpdateCondition cr ConditionUnknown storageExistsReasonAzureError
               (Sprintf "%s" [ArgError err]))
    | Ok false =>
        ret (false, None,
             UpdateCondition cr ConditionFalse storageExistsReasonContainerNotFound
               (Sprintf "Could not find storage container %s"
                  [ArgString (Container (Config d))]))
    | Ok true =>
        ret (true, None,
             UpdateCondition cr ConditionTrue storageExistsReasonContainerExists
               (Literal "Storage container exists"))
    end end end end.

(** The ownership tag of the cluster and then the user's resource
    tags, a later tag replacing an earlier one of the same key. *)
Definition tagset_of (infra : configv1.Infrastructure) : gmap string string :=
  let tagset : gmap string string :=
    {[ "kubernetes.io_cluster." +:+ configv1.InfrastructureName infra := "owned" ]} in
  match configv1.Status_PlatformStatus infra with
  | Some ps =>
      match configv1.Azure ps with
      | Some az =>
          foldl (fun m tag => <[configv1.Key tag := configv1.Value tag]> m)
            tagset (configv1.ResourceTags az)
      | None => tagset
      end
  | None => tagset
  end.

(** [assureStorageAccount] makes sure there is a storage account in
    place and apply any provided tags. If no storage account name is
    provided it attempts to generate one. Returns the account name and
    whether the account was created. *)
Definition assureStorageAccount (d : driver) (cfg : Azure)
    (infra : configv1.Infrastructure) : M (string * bool) :=
  environment <- getEnvironmentByName (CloudName (Config d)) ;;
  storageAccountsClient d cfg environment ;;;
  resolved <-
    (if is_empty (AccountName (Config d)) then
       accountName <- generateAccountName (configv1.InfrastructureName infra) ;;
       ret (true, accountName)
     else ret (false, AccountName (Config d))) ;;
  let accountNameGenerated : bool := fst resolved in
  let accountName : string := snd resolved in
  NameAvailable <- accountExists accountName ;;
  if accountNameGenerated && negb NameAvailable then
    fail (Errorf "create storage account failed, name not available" [])
  else
    let tagset := tagset_of infra in
    if NameAvailable then
      createStorageAccount (ResourceGroup cfg) accountName (Region cfg)
        (CloudName (Config d)) tagset ;;;
      privateEndpointsClient cfg environment ;;;
      privateZonesClient cfg environment ;;;
      recordSetsClient cfg environment ;;;
      privateZoneGroupsClient cfg environment ;;;
      vnetLinksClient cfg environment ;;;
      interfacesClient cfg environment ;;;
      privateEndpointName <- generateAccountName (configv1.InfrastructureName infra) ;;
      privateEndpoint <-
        createPrivateEndpoint (ResourceGroup cfg) privateEndpointName accountName
          (Region cfg) (SubscriptionID cfg) (CloudName (Config d)) tagset ;;
      let privateZoneName := "privatelink.blob.core.windows.net" in
      createPrivateDNSZone (ResourceGroup cfg) (CloudName (Config d))
        privateZoneName tagset ;;;
      createRecordSet privateEndpoint (ResourceGroup cfg) accountName
        privateZoneName ;;;
      createPrivateDNSZoneGroup (SubscriptionID cfg) (ResourceGroup cfg)
        (pe_Name privateEndpoint) privateZoneName ;;;
      let vnetName := "fmissi-ms799-vnet" in
      createVirtualNetworkLink (SubscriptionID cfg) (ResourceGroup cfg)
        privateZoneName vnetName tagset ;;;
      ret (accountName, true)
    else
      ret (accountName, false).

(** [assureContainer] makes sure we have a container in place. Returns
    the container name and whether the container was created. *)
Definition assureContainer (d : driver) (cfg : Azure) : M (string * bool) :=
  environment <- getEnvironmentByName (CloudName (Config d)) ;;
  storageAccountsClient d cfg environment ;;;
  key <- getAccountPrimaryKey (ResourceGroup cfg) (AccountName (Config d)) ;;
  if is_empty (Container (Config d)) then
    containerName <- try (GenerateStorageName "") ;;
    createStorageContainer environment (AccountName (Config d)) key containerName ;;;
    ret (containerName, true)
  else
    exists_ <- containerExists environment (AccountName (Config d)) key
                 (Container (Config d)) ;;
    if exists_ : bool then ret (Container (Config d), false)
    else
      createStorageContainer environment (AccountName (Config d)) key
        (Container (Config d)) ;;;
      ret (Container (Config d), true).

(** The tuple that [assureStorageAccount] and [assureContainer] return:
    every error comes with the empty name and [false]. *)
Definition returned {A B} (out : res (string * bool) * A * B)
  : string * bool * option error :=
  match out.1.1 with
  | Ok (name, created) => (name, created, None)
  | Err err => ("", false, Some err)
  end.

(** [processUPI] verifies if user provided configuration is complete
    and updates conditions and status appropriately. *)
Definition processUPI (d : driver) (cr : imageregistryv1.Config)
  : imageregistryv1.Config :=
  if is_empty (AccountName (Config d)) then
    UpdateCondition cr ConditionFalse storageExistsReasonNotConfigured
      (Literal "Storage account key is provided, but account name is not specified")
  else if is_empty (Container (Config d)) then
    UpdateCondition cr ConditionFalse storageExistsReasonNotConfigured
      (Literal "Storage account is provided, but container is not specified")
  else
    let cr :=
      if is_empty (ManagementState (Spec_Storage cr))
      then set_Spec_ManagementState StorageManagementStateUnmanaged cr
      else cr in
    let cr := set_Status_Storage (Config d) cr in
    UpdateCondition cr ConditionTrue storageExistsReasonUserManaged
      (Literal "Storage is managed by the user").

(** [d.Config.CloudName] from the platform status, when neither a cloud
    nor an account is configured. *)
Definition resolve_CloudName (d : driver) (infra : configv1.Infrastructure) : driver :=
  if is_empty (CloudName (Config d)) && is_empty (AccountName (Config d)) then
    match configv1.Status_PlatformStatus infra with
    | Some platformStatus =>
        if String.eqb (configv1.Type_ platformStatus) configv1.AzurePlatformType then
          match configv1.Azure platformStatus with
          | Some az => with_Config (set_CloudName (configv1.CloudName az) (Config d)) d
          | None => d
          end
        else d
    | None => d
    end
  else d.

(** [CreateStorage] attempts to create a storage account and a storage
    container. It returns its error, and leaves the driver and the
    resource as returned. *)
Definition CreateStorage (d : driver) (cr : imageregistryv1.Config)
  : M (option error * driver * imageregistryv1.Config) :=
  r <- attempt GetConfig ;;
  match r with
  | Err err =>
      ret (Some err, d,
           UpdateCondition cr ConditionUnknown storageExistsReasonConfigError
             (Sprintf "Unable to get configuration: %s" [ArgError err]))
  | Ok cfg =>
  if negb (is_empty (AccountKey cfg)) then
    ret (None, d, processUPI d cr)
  else
  r <- call GetInfrastructure ;;
  match r with
  | Err err =>
      ret (Some err, d,
           UpdateCondition cr ConditionUnknown storageExistsReasonConfigError
             (Sprintf "Unable to get infrastructure: %s" [ArgError err]))
  | Ok infra =>
  let d := resolve_CloudName d infra in
  r <- attempt (assureStorageAccount d cfg infra) ;;
  match r with
  | Err err =>
      ret (Some err, d,
           UpdateCondition cr ConditionUnknown storageExistsReasonAzureError
             (Sprintf "Unable to process storage account: %s" [ArgError err]))
  | Ok (storageAccountName, storageAccountCreated) =>
  let d := with_Config (set_AccountName storageAccountName (Config d)) d in
  r <- attempt (assureContainer d cfg) ;;
  match r with
  | Err err =>
      ret (Some err, d,
           UpdateCondition cr ConditionUnknown storageExistsReasonAzureError
             (Sprintf "Unable to process storage container: %s" [ArgError err]))
  | Ok (containerName, containerCreated) =>
  let d := with_Config (set_Container containerName (Config d)) d in
  let cr :=
    if is_empty (ManagementState (Spec_Storage cr)) then
      if storageAccountCreated || containerCreated
      then set_Spec_ManagementState StorageManagementStateManaged cr
      else set_Spec_ManagementState StorageManagementStateUnmanaged cr
    else cr in
  let cr := set_Spec_Azure (Config d) cr in
  let cr := set_Status_Storage (Config d) cr in
  ret (None, d,
       UpdateCondition cr ConditionTrue storageExistsReasonContainerExists
         (Literal "Storage container exists"))
  end end end end.

(** [cr.Spec.Storage.Azure.AccountName = ""] and
    [cr.Status.Storage.Azure.AccountName = ""]. *)
Definition clear_AccountName (cr : imageregistryv1.Config) : imageregistryv1.Config :=
  set_Status_Azure (set_AccountName "" (imageregistryv1.Azure (Status_Storage cr)))
    (set_Spec_Azure (set_AccountName "" (imageregistryv1.Azure (Spec_Storage cr))) cr).

(** [cr.Spec.Storage.Azure.Container = ""] and
    [cr.Status.Storage.Azure.Container = ""]. *)
Definition clear_Container (cr : imageregistryv1.Config) : imageregistryv1.Config :=
  set_Status_Azure (set_Container "" (imageregistryv1.Azure (Status_Storage cr)))
    (set_Spec_Azure (set_Container "" (imageregistryv1.Azure (Spec_Storage cr))) cr).

(** The end of [RemoveStorage]: the account is deleted, with or
    without a container branch before it. *)
Definition deleteAccount (d : driver) (cfg : Azure) (cr : imageregistryv1.Config)
  : M (bool * option error * driver * imageregistryv1.Config) :=
  r <- call (AccountsDelete (ResourceGroup cfg) (AccountName (Config d))) ;;
  match r with
  | Err err =>
      ret (false, Some err, d,
           UpdateCondition cr ConditionFalse storageExistsReasonAzureError
             (Sprintf "Unable to delete storage account: %s" [ArgError err]))
  | Ok _ =>
      let d := with_Config (set_AccountName "" (Config d)) d in
      let cr := clear_AccountName cr in
      ret (false, None, d,
           UpdateCondition cr ConditionFalse storageExistsReasonAccountDeleted
             (Literal "Storage account has been deleted"))
  end.

(** [RemoveStorage] deletes the storage medium that was created. It
    returns [retry] and its error, and leaves the driver and the
    resource as returned. *)
Definition RemoveStorage (d : driver) (cr : imageregistryv1.Config)
  : M (bool * option error * driver * imageregistryv1.Config) :=
  if negb (String.eqb (ManagementState (Spec_Storage cr)) StorageManagementStateManaged) then
    ret (false, None, d, cr)
  else if is_empty (AccountName (Config d)) then
    ret (false, None, d,
         UpdateCondition cr ConditionFalse storageExistsReasonNotConfigured
           (Literal "Storage is not configured"))
  else
  r <- attempt GetConfig ;;
  match r with
  | Err err =>
      ret (false, Some err, d,
           UpdateCondition cr ConditionUnknown storageExistsReasonConfigError
             (Sprintf "Unable to get configuration: %s" [ArgError err]))
  | Ok cfg =>
  r <- attempt (getEnvironmentByName (CloudName (Config d))) ;;
  match r with
  | Err err =>
      ret (false, Some err, d,
           UpdateCondition cr ConditionUnknown storageExistsReasonConfigError
             (Sprintf "Unable to get cloud environment: %s" [ArgError err]))
  | Ok environment =>
  r <- attempt (storageAccountsClient d cfg environment) ;;
  match r with
  | Err err =>
      ret (false, Some err, d,
           UpdateCondition cr ConditionUnknown storageExistsReasonAzureError
             (Sprintf "Unable to get accounts client: %s" [ArgError err]))
  | Ok _ =>
  if negb (is_empty (Container (Config d))) then
    r <- attempt (getAccountPrimaryKey (ResourceGroup cfg) (AccountName (Config d))) ;;
    match r with
    | Err (errDoesNotExist e) =>
        let err := errDoesNotExist e in
        let d := with_Config (set_AccountName "" (Config d)) d in
        let cr := clear_AccountName cr in
        ret (false, None, d,
             UpdateCondition cr ConditionFalse storageExistsReasonContainerNotFound
               (Sprintf "Container has been already deleted: %s" [ArgError err]))
    | Err err =>
        ret (false, Some err, d,
             UpdateCondition cr ConditionUnknown storageExistsReasonAzureError
               (Sprintf "Unable to get account primary keys: %s" [ArgError err]))
    | Ok key =>
    r <- attempt (deleteStorageContainer environment (AccountName (Config d)) key
                    (Container (Config d))) ;;
    match r with
    | Err err =>
        ret (false, Some err, d,
             UpdateCondition cr ConditionUnknown storageExistsReasonAzureError
               (Sprintf "Unable to delete storage container: %s" [ArgError err]))
    | Ok _ =>
        let d := with_Config (set_Container "" (Config d)) d in
        let cr := clear_Container cr in
        let cr :=
          UpdateCondition cr ConditionFalse storageExistsReasonContainerDeleted
            (Literal "Storage container has been deleted") in
        deleteAccount d cfg cr
    end end
  else
    deleteAccount d cfg cr
  end end end.

End Driver.
End azure.

(** ** The client: package [azureclient] *)

Module azureclient.

Definition targetSubResource : string := "blob".
Definition defaultPrivateZoneName : string := "privatelink.blob.core.windows.net".
Definition defaultPrivateZoneLocation : string := "global".
Definition defaultRecordSetTTL : Z := 10.

(** [Client], without its credentials and client options. *)
Record Client : Type := {
  tagset : gmap string string;
  subscriptionID : string;
  resourceGroupName : string
}.

Section Client.
Context {W : Type} `{!World W}.

Definition createPrivateDNSZone (c : Client) (name location : string) : M unit :=
  try (NewArmClient PrivateZonesClient (subscriptionID c)) ;;;
  await id id
    (PrivateZonesCreateOrUpdate (resourceGroupName c) name location (tagset c)).

Definition getNICAddress (c : Client) (privateEndpoint : PrivateEndpoint) : M string :=
  try (NewArmClient InterfacesClient (subscriptionID c)) ;;;
  match pe_NetworkInterfaces privateEndpoint with
  | [] =>
      fail (Errorf "private endpoint %s did not have any network interfaces"
              [ArgString (pe_Name privateEndpoint)])
  | nicRef :: _ =>
      let nicName := GoString.last_segment "/" nicRef in
      nic <- try (InterfacesGet (resourceGroupName c) nicName) ;;
      match nic_IPConfigurations nic with
      | [] =>
          fail (Errorf "network interface %s did not have any IP configurations"
                  [ArgString (nic_Name nic)])
      | nicAddress :: _ => ret nicAddress
      end
  end.

Definition createRecordSet (c : Client) (privateEndpoint : PrivateEndpoint)
    (privateZoneName relativeRecordSetName : string) : M unit :=
  or_fail (fun err => Errorf "failed to get record sets client: %s" [ArgError err])
    (call (NewArmClient RecordSetsClient (subscriptionID c))) ;;;
  nicAddress <- getNICAddress c privateEndpoint ;;
  try (RecordSetsCreateOrUpdate (resourceGroupName c) privateZoneName
         relativeRecordSetName defaultRecordSetTTL nicAddress).

Definition createPrivateDNSZoneGroup (c : Client)
    (privateEndpointName privateZoneName : string) : M unit :=
  or_fail
    (fun err => Errorf "failed to get private dns zone groups client: %q" [ArgError err])
    (call (NewArmClient PrivateDNSZoneGroupsClient (subscriptionID c))) ;;;
  let privateZoneID :=
    azure.formatPrivateDNSZoneID (subscriptionID c) (resourceGroupName c) privateZoneName in
  let groupName := GoString.ReplaceAll "." "-" privateZoneName in
  await id id
    (PrivateDNSZoneGroupsCreateOrUpdate (resourceGroupName c) privateEndpointName
       groupName groupName privateZoneID).

Definition createVirtualNetworkLink (c : Client)
    (linkName vnetName privateZoneName privateZoneLocation : string) : M unit :=
  or_fail
    (fun err => Errorf "failed to get virtual network links client: %s" [ArgError err])
    (call (NewArmClient VirtualNetworkLinksClient (subscriptionID c))) ;;;
  let vnetID := azure.formatVNetID (subscriptionID c) (resourceGroupName c) vnetName in
  await id id
    (VirtualNetworkLinksCreateOrUpdate (resourceGroupName c) privateZoneName linkName
       privateZoneLocation vnetID (tagset c)).

(** The error is an [azcore.ResponseError] whose [ErrorCode] is
    [Conflict]. *)
Definition is_conflict (err : error) : bool :=
  match err with
  | ResponseError _ ErrorCode _ => String.eqb ErrorCode "Conflict"
  | _ => false
  end.

(** [ConfigurePrivateDNS] creates a private DNS zone, a record set (A)
    and a private DNS zone group for the given private endpoint. It
    also links the DNS zone with the given VNet by creating a virtual
    network link. *)
Definition ConfigurePrivateDNS (c : Client) (privateEndpoint : PrivateEndpoint)
    (vnetName storageAccountName : string) : M unit :=
  createPrivateDNSZone c defaultPrivateZoneName defaultPrivateZoneLocation ;;;
  createRecordSet c privateEndpoint defaultPrivateZoneName storageAccountName ;;;
  createPrivateDNSZoneGroup c (pe_Name privateEndpoint) defaultPrivateZoneName ;;;
  r <- attempt (createVirtualNetworkLink c storageAccountName vnetName
                  defaultPrivateZoneName defaultPrivateZoneLocation) ;;
  match r with
  | Err err => if negb (is_conflict err) then fail err else ret tt
  | Ok _ => ret tt
  end.

End Client.
End azureclient.

(** ** A provider in memory

    A world for running the driver: the accounts and containers that
    exist, a counter for the random source, and the failures to inject,
    each consumed by the first request of its kind. The provider tells
    the truth about its containers: a look-up takes no injected failure. *)

Module Sim.

Record state : Type := {
  accounts : list string;
  containers : list (string * string);
  draws : nat;
  user_key : option string;
  faults : list (Kind * error)
}.

Definition suffixes : list string := ["bcdfg"; "hjklm"; "npqrs"; "tvwxz"; "24567"].
Definition draw (n : nat) : string :=
  List.nth (n mod 5) suffixes "89bcd".

Fixpoint take_fault (k : Kind) (fs : list (Kind * error))
  : option (error * list (Kind * error)) :=
  match fs with
  | [] => None
  | (k', e) :: fs' =>
      if decide (k = k') then Some (e, fs')
      else match take_fault k fs' with
           | Some (e', rest) => Some (e', (k', e) :: rest)
           | None => None
           end
  end.

Definition mem (x : string) (l : list string) : bool :=
  List.existsb (String.eqb x) l.
Definition mem2 (x : string * string) (l : list (string * string)) : bool :=
  List.existsb (fun y => String.eqb x.1 y.1 && String.eqb x.2 y.2) l.

Definition with_accounts (a : list string) (s : state) : state :=
  {| accounts := a; containers := containers s; draws := draws s;
     user_key := user_key s; faults := faults s |}.
Definition with_containers (c : list (string * string)) (s : state) : state :=
  {| accounts := accounts s; containers := c; draws := draws s;
     user_key := user_key s; faults := faults s |}.
Definition with_draws (n : nat) (s : state) : state :=
  {| accounts := accounts s; containers := containers s; draws := n;
     user_key := user_key s; faults := faults s |}.
Definition with_faults (f : list (Kind * error)) (s : state) : state :=
  {| accounts := accounts s; containers := containers s; draws := draws s;
     user_key := user_key s; faults := f |}.

Definition credentials : Secret :=
  {| Namespace := "openshift-image-registry";
     Name := "installer-cloud-credentials";
     Data := {[ "azure_subscription_id" := "sub";
                "azure_client_id" := "client";
                "azure_client_secret" := "secret";
                "azure_tenant_id" := "tenant";
                "azure_resourcegroup" := "rg";
                "azure_region" := "westeurope" ]} |}.

Definition user_secret (key : string) : Secret :=
  {| Namespace := "openshift-image-registry";
     Name := "image-registry-private-configuration-user";
     Data := {[ "REGISTRY_STORAGE_AZURE_ACCOUNTKEY" := key ]} |}.

Definition infrastructure : configv1.Infrastructure :=
  {| configv1.InfrastructureName := "ci-ln-x7";
     configv1.Status_PlatformStatus :=
       Some {| configv1.Type_ := "Azure";
               configv1.Azure :=
                 Some {| configv1.CloudName := "";
                         configv1.ResourceTags :=
                           [{| configv1.Key := "team"; configv1.Value := "registry" |}] |} |} |}.

Definition public : Environment :=
  {| ResourceManagerEndpoint := "https://management.azure.com/";
     ActiveDirectoryEndpoint := "https://login.microsoftonline.com/";
     TokenAudience := "https://management.azure.com/";
     StorageEndpointSuffix := "core.windows.net" |}.

(** The reply of a call that meets no injected failure. *)
Definition answer {R} (c : Call R) (s : state) : R * state :=
  match c in Call R return R * state with
  | SecretsGet ImageRegistryPrivateConfigurationUser =>
      match user_key s with
      | Some key => (Ok (user_secret key), s)
      | None => (Err (StatusError true "secret not found"), s)
      end
  | SecretsGet CloudCredentialsName => (Ok credentials, s)
  | GetValueFromSecret sec key =>
      match Data sec !! key with
      | Some v => (Ok v, s)
      | None => (Err (OtherError "secret does not contain the key"), s)
      end
  | GetInfrastructure => (Ok infrastructure, s)
  | GenerateStorageName _ =>
      (Ok ("ci-ln-x7-image-registry-" +:+ draw (draws s)), with_draws (S (draws s)) s)
  | RandString _ => (draw (draws s), with_draws (S (draws s)) s)
  | EnvironmentFromName name =>
      if String.eqb name "AzurePublicCloud" then (Ok public, s)
      else (Err (OtherError "no cloud environment of that name"), s)
  | NewClientSecretCredential _ _ secret =>
      if is_empty secret then (Err (OtherError "secret can't be empty string"), s)
      else (Ok tt, s)
  | NewArmClient _ _ => (Ok tt, s)
  | NewSharedKeyCredential _ _ => (Ok tt, s)
  | UrlParse _ => (Ok tt, s)
  | CheckNameAvailability name => (Ok (negb (mem name (accounts s))), s)
  | AccountsCreate _ name _ _ =>
      (Completed, if mem name (accounts s) then s else with_accounts (name :: accounts s) s)
  | PrimaryKeyGet _ name =>
      if mem name (accounts s) then (Ok "a2V5", s)
      else (Err (DetailedError 404 "ResourceNotFound"), s)
  | AccountsDelete _ name =>
      (Ok tt,
       with_containers
         (List.filter (fun c => negb (String.eqb c.1 name)) (containers s))
         (with_accounts (List.filter (fun a => negb (String.eqb a name)) (accounts s)) s))
  | PrivateEndpointsCreateOrUpdate rg name _ _ _ _ =>
      (Done {| pe_Name := name;
               pe_NetworkInterfaces :=
                 ["/subscriptions/sub/resourceGroups/" +:+ rg +:+
                  "/providers/Microsoft.Network/networkInterfaces/" +:+ name +:+ "-nic"] |}, s)
  | PrivateZonesCreateOrUpdate _ _ _ _ => (Done tt, s)
  | InterfacesGet _ name =>
      (Ok {| nic_Name := name; nic_IPConfigurations := ["10.0.0.4"] |}, s)
  | RecordSetsCreateOrUpdate _ _ _ _ _ => (Ok tt, s)
  | PrivateDNSZoneGroupsCreateOrUpdate _ _ _ _ _ => (Done tt, s)
  | VirtualNetworkLinksCreateOrUpdate _ _ _ _ _ _ => (Done tt, s)
  | ContainerGetProperties _ account _ container =>
      if mem2 (account, container) (containers s) then (Ok tt, s)
      else (Err (StorageError "ContainerNotFound" "The specified container does not exist."), s)
  | ContainerCreate _ account _ container =>
      if mem2 (account, container) (containers s)
      then (Err (StorageError "ContainerAlreadyExists" "The specified container already exists."), s)
      else (Ok tt, with_containers ((account, container) :: containers s) s)
  | ContainerDelete _ account _ container =>
      if mem2 (account, container) (containers s)
      then (Ok tt,
            with_containers
              (List.filter
                 (fun c => negb (String.eqb c.1 account && String.eqb c.2 container))
                 (containers s)) s)
      else (Err (StorageError "ContainerNotFound" "The specified container does not exist."), s)
  end.

(** The reply of a call that fails with [e], at its first stage. *)
Definition refuse {R} (c : Call R) (e : error) : option R :=
  match c in Call R return option R with
  | CheckNameAvailability _ => Some (Err e)
  | AccountsCreate _ _ _ _ => Some (CreateFailed e)
  | PrimaryKeyGet _ _ => Some (Err e)
  | AccountsDelete _ _ => Some (Err e)
  | PrivateEndpointsCreateOrUpdate _ _ _ _ _ _ => Some (BeginFailed e)
  | PrivateZonesCreateOrUpdate _ _ _ _ => Some (BeginFailed e)
  | InterfacesGet _ _ => Some (Err e)
  | RecordSetsCreateOrUpdate _ _ _ _ _ => Some (Err e)
  | PrivateDNSZoneGroupsCreateOrUpdate _ _ _ _ _ => Some (BeginFailed e)
  | VirtualNetworkLinksCreateOrUpdate _ _ _ _ _ _ => Some (BeginFailed e)
  | ContainerCreate _ _ _ _ => Some (Err e)
  | ContainerDelete _ _ _ _ => Some (Err e)
  | _ => None
  end.

Definition respond {R} (c : Call R) (s : state) : R * state :=
  match take_fault (call_kind c) (faults s) with
  | Some (e, rest) =>
      match refuse c e with
      | Some r => (r, with_faults rest s)
      | None => answer c s
      end
  | None => answer c s
  end.

#[global] Instance world : World state :=
  {| perform := fun R c s => respond c s; PublicCloud := public |}.

Definition empty : state :=
  {| accounts := []; containers := []; draws := 0; user_key := None; faults := [] |}.

(** A provider that has the given accounts and containers. *)
Definition having (a : list string) (c : list (string * string)) : state :=
  {| accounts := a; containers := c; draws := 0; user_key := None; faults := [] |}.

(** What [GetConfig] reads from [credentials]. *)
Definition cfg : azure.Azure :=
  {| azure.SubscriptionID := "sub"; azure.ClientID := "client";
     azure.ClientSecret := "secret"; azure.TenantID := "tenant";
     azure.ResourceGroup := "rg"; azure.Region := "westeurope";
     azure.AccountKey := "" |}.

Definition storage (account container : string)
  : imageregistryv1.ImageRegistryConfigStorageAzure :=
  {| imageregistryv1.AccountName := account;
     imageregistryv1.Container := container;
     imageregistryv1.CloudName := "" |}.

Definition driver_of (account container : string) : azure.driver :=
  {| azure.Config := storage account container; azure.authorizer := false |}.

Definition resource (managementState account container : string)
  : imageregistryv1.Config :=
  {| imageregistryv1.Spec_Storage :=
       {| imageregistryv1.ManagementState := managementState;
          imageregistryv1.Azure := storage account container |};
     imageregistryv1.Status_Storage :=
       {| imageregistryv1.ManagementState := "";
          imageregistryv1.Azure := storage account container |};
     imageregistryv1.Conditions := [] |}.

End Sim.

(** ** What a trace shows *)

Fixpoint filter_map {A B} (f : A -> option B) (l : list A) : list B :=
  match l with
  | [] => []
  | x :: l' =>
      match f x with
      | Some y => y :: filter_map f l'
      | None => filter_map f l'
      end
  end.

(** The successful provider requests of a trace. *)
Definition requests_ok (t : list Event) : list Kind :=
  List.filter is_request (kinds_ok t).

(** The name-availability probes and their reports. *)
Definition ev_probe (e : Event) : option (string * res bool) :=
  match e with
  | Ev c r =>
      match c in Call R return R -> option (string * res bool) with
      | CheckNameAvailability n => fun r => Some (n, r)
      | _ => fun _ => None
      end r
  end.
Definition probes (t : list Event) : list (string * res bool) :=
  filter_map ev_probe t.

(** The error of a provider request that failed, at whichever stage. *)
Definition reply_error {R} (c : Call R) : R -> option error :=
  match c in Call R return R -> option error with
  | CheckNameAvailability _ => fun r => match r with Err e => Some e | Ok _ => None end
  | AccountsCreate _ _ _ _ =>
      fun f => match f with
               | CreateFailed e | WaitFailed e | ResultFailed e => Some e
               | Completed => None
               end
  | PrimaryKeyGet _ _ => fun r => match r with Err e => Some e | Ok _ => None end
  | AccountsDelete _ _ => fun r => match r with Err e => Some e | Ok _ => None end
  | PrivateEndpointsCreateOrUpdate _ _ _ _ _ _ =>
      fun p => match p with BeginFailed e | PollFailed e => Some e | Done _ => None end
  | PrivateZonesCreateOrUpdate _ _ _ _ =>
      fun p => match p with BeginFailed e | PollFailed e => Some e | Done _ => None end
  | InterfacesGet _ _ => fun r => match r with Err e => Some e | Ok _ => None end
  | RecordSetsCreateOrUpdate _ _ _ _ _ =>
      fun r => match r with Err e => Some e | Ok _ => None end
  | PrivateDNSZoneGroupsCreateOrUpdate _ _ _ _ _ =>
      fun p => match p with BeginFailed e | PollFailed e => Some e | Done _ => None end
  | VirtualNetworkLinksCreateOrUpdate _ _ _ _ _ _ =>
      fun p => match p with BeginFailed e | PollFailed e => Some e | Done _ => None end
  | ContainerGetProperties _ _ _ _ =>
      fun r => match r with Err e => Some e | Ok _ => None end
  | ContainerCreate _ _ _ _ => fun r => match r with Err e => Some e | Ok _ => None end
  | ContainerDelete _ _ _ _ => fun r => match r with Err e => Some e | Ok _ => None end
  | _ => fun _ => None
  end.

Definition ev_failure (e : Event) : option (Kind * error) :=
  match e with
  | Ev c r =>
      match reply_error c r with
      | Some err => Some (call_kind c, err)
      | None => None
      end
  end.

(** The provider requests that failed, each with its error. *)
Definition failures (t : list Event) : list (Kind * error) :=
  filter_map ev_failure t.

(** The account names that an event shows to be taken: the probe reports
    the name unavailable, or the account has just been created. *)
Definition ev_taken (e : Event) : option string :=
  match e with
  | Ev c r =>
      match c in Call R return R -> option string with
      | CheckNameAvailability n =>
          fun r => match r with Ok false => Some n | _ => None end
      | AccountsCreate _ n _ _ =>
          fun f => match f with Completed => Some n | _ => None end
      | _ => fun _ => None
      end r
  end.
Definition taken_names (t : list Event) : list string := filter_map ev_taken t.

(** The containers that an event shows to be there: found, or just
    created. *)
Definition ev_present (e : Event) : option (string * string) :=
  match e with
  | Ev c r =>
      match c in Call R return R -> option (string * string) with
      | ContainerGetProperties _ a _ cn =>
          fun r => match r with Ok _ => Some (a, cn) | Err _ => None end
      | ContainerCreate _ a _ cn =>
          fun r => match r with Ok _ => Some (a, cn) | Err _ => None end
      | _ => fun _ => None
      end r
  end.
Definition present_containers (t : list Event) : list (string * string) :=
  filter_map ev_present t.

(** The containers that an event reports missing. *)
Definition ev_missing (e : Event) : option (string * string) :=
  match e with
  | Ev c r =>
      match c in Call R return R -> option (string * string) with
      | ContainerGetProperties _ a _ cn =>
          fun r => match r with
                   | Err (StorageError code _) =>
                       if String.eqb code "ContainerNotFound" then Some (a, cn) else None
                   | _ => None
                   end
      | _ => fun _ => None
      end r
  end.
Definition missing_containers (t : list Event) : list (string * string) :=
  filter_map ev_missing t.

(** The names that [GenerateStorageName] returned. *)
Definition ev_generated (e : Event) : option string :=
  match e with
  | Ev c r =>
      match c in Call R return R -> option string with
      | GenerateStorageName _ =>
          fun r => match r with Ok n => Some n | Err _ => None end
      | _ => fun _ => None
      end r
  end.
Definition generated_names (t : list Event) : list string :=
  filter_map ev_generated t.

(** The accounts whose deletion was requested. *)
Definition ev_account_delete (e : Event) : option string :=
  match e with
  | Ev c r =>
      match c in Call R return R -> option string with
      | AccountsDelete _ n => fun _ => Some n
      | _ => fun _ => None
      end r
  end.
Definition account_deletes (t : list Event) : list string :=
  filter_map ev_account_delete t.

Definition kind_code (k : Kind) : nat :=
  match k with
  | KLocal => 0 | KCheckNameAvailability => 1 | KAccountsCreate => 2
  | KPrimaryKeyGet => 3 | KAccountsDelete => 4 | KPrivateEndpointCreate => 5
  | KPrivateZoneCreate => 6 | KInterfacesGet => 7 | KRecordSetCreate => 8
  | KZoneGroupCreate => 9 | KVirtualNetworkLinkCreate => 10
  | KContainerGetProperties => 11 | KContainerCreate => 12 | KContainerDelete => 13
  end.
Definition kind_eqb (a b : Kind) : bool := Nat.eqb (kind_code a) (kind_code b).

Fixpoint prefix_of (l full : list Kind) : bool :=
  match l, full with
  | [], _ => true
  | x :: l', y :: full' => kind_eqb x y && prefix_of l' full'
  | _ :: _, [] => false
  end.

Fixpoint kinds_eqb (l l' : list Kind) : bool :=
  match l, l' with
  | [], [] => true
  | x :: l, y :: l' => kind_eqb x y && kinds_eqb l l'
  | _, _ => false
  end.

(** The creation requests of the network-isolation subchain, in the
    order of the specification. *)
Definition subchain_order : list Kind :=
  [KPrivateEndpointCreate; KPrivateZoneCreate; KRecordSetCreate;
   KZoneGroupCreate; KVirtualNetworkLinkCreate].

Definition is_subchain (k : Kind) : bool :=
  match k with
  | KPrivateEndpointCreate | KPrivateZoneCreate | KRecordSetCreate
  | KZoneGroupCreate | KVirtualNetworkLinkCreate => true
  | _ => false
  end.

(** The subchain requests that a trace issued, and those that
    succeeded. *)
Definition subchain_issued (t : list Event) : list Kind :=
  List.filter is_subchain (requests t).
Definition subchain_done (t : list Event) : list Kind :=
  List.filter is_subchain (requests_ok t).

(** All the provider requests of [assureStorageAccount], in order; the
    network interface is read for the record set. *)
Definition assureStorageAccount_order : list Kind :=
  [KCheckNameAvailability; KAccountsCreate; KPrivateEndpointCreate;
   KPrivateZoneCreate; KInterfacesGet; KRecordSetCreate; KZoneGroupCreate;
   KVirtualNetworkLinkCreate].

Definition is_delete (k : Kind) : bool :=
  match k with KAccountsDelete | KContainerDelete => true | _ => false end.

Definition created (r : res (string * bool)) : bool :=
  match r with Ok (_, c) => c | Err _ => false end.

(** The name that the specification describes: strip the characters
    outside of [0-9A-Za-z] from the fixed prefix followed by the
    identifier, cut to leave room for the five characters of the suffix,
    append the suffix, put in lower case. *)
Definition generated_name_spec (infrastructureName suffix : string) : string :=
  let stripped := storageAccountInvalidCharRe_strip ("imageregistry" +:+ infrastructureName) in
  GoString.ToLower (GoString.take (24 - 5) stripped +:+ suffix).

(** What [rand.String(5)] promises: five characters, lower-case letters
    or digits. *)
Definition valid_suffix (s : string) : Prop :=
  String.length s = 5%nat /\ GoString.all GoString.lower_alnum s = true.

(** What the provider asks of a storage account name. *)
Definition valid_account_name (s : string) : Prop :=
  (3 <= String.length s <= 24)%nat /\ GoString.all GoString.lower_alnum s = true.

(** ** Worlds along a trace *)

Section Steps.
Context {W : Type} `{!World W}.

Definition step (w : W) (e : Event) (w' : W) : Prop :=
  match e with Ev c r => perform c w = (r, w') end.

(** [steps w t w']: answering the calls of [t] in order, with the
    replies of [t], takes the world from [w] to [w']. *)
Inductive steps : W -> list Event -> W -> Prop :=
| steps_nil w : steps w [] w
| steps_cons w e w1 t w2 : step w e w1 -> steps w1 t w2 -> steps w (e :: t) w2.

(** A computation whose trace is the calls that changed its world. *)
Definition honest {A} (m : M A) : Prop :=
  forall w, steps w (m w).2 (m w).1.2.

(** A provider whose state changes by the requests only.
    [taken w n]: the account name [n] is in use in [w].
    [present w a c]: the container [c] of the account [a] is there. *)
Record consistent (taken : W -> string -> Prop)
    (present : W -> string -> string -> Prop) : Prop := {
  probe_shows_taken : forall n w w',
    perform (CheckNameAvailability n) w = (Ok false, w') -> taken w' n;
  create_makes_taken : forall rg n l tags w w',
    perform (AccountsCreate rg n l tags) w = (Completed, w') -> taken w' n;
  taken_stays : forall R (c : Call R) r w w' n,
    perform c w = (r, w') -> call_kind c <> KAccountsDelete ->
    taken w n -> taken w' n;
  taken_is_unavailable : forall n w w',
    taken w n -> perform (CheckNameAvailability n) w <> (Ok true, w');
  found_shows_present : forall u a k c x w w',
    perform (ContainerGetProperties u a k c) w = (Ok x, w') -> present w' a c;
  create_makes_present : forall u a k c x w w',
    perform (ContainerCreate u a k c) w = (Ok x, w') -> present w' a c;
  present_stays : forall R (c : Call R) r w w' a cn,
    perform c w = (r, w') -> is_delete (call_kind c) = false ->
    present w a cn -> present w' a cn;
  present_is_found : forall u a k c text w w',
    present w a c ->
    perform (ContainerGetProperties u a k c) w
      <> (Err (StorageError "ContainerNotFound" text), w');
  generated_is_named : forall x w w',
    perform (GenerateStorageName x) w <> (Ok "", w')
}.

End Steps.

(** ** Summaries of runs *)

(** What one run of [assureStorageAccount] shows, whatever the world
    replies: the order of its requests, how its result agrees with the
    subchain, and what follows from each report of the probe. *)
Definition assureStorageAccount_summary {W : Type} (d : azure.driver)
    (infra : configv1.Infrastructure)
    (out : res (string * bool) * W * list Event) : Prop :=
  let t := out.2 in
  let r := out.1.1 in
  List.forallb (fun k => negb (is_delete k)) (kinds t) = true /\
  prefix_of (requests t) assureStorageAccount_order = true /\
  prefix_of (subchain_issued t) subchain_order = true /\
  kinds_eqb (subchain_done t) subchain_order = created r /\
  (forall name c, r = Ok (name, c) ->
     In name (taken_names t) /\ probes t = [(name, Ok c)]) /\
  match probes t with
  | [] => requests t = [] /\ is_ok r = false
  | [(n, p)] =>
      (if is_empty (imageregistryv1.AccountName (azure.Config d))
       then exists suffix,
           n = generated_name_spec (configv1.InfrastructureName infra) suffix
       else n = imageregistryv1.AccountName (azure.Config d)) /\
      match p with
      | Err e => requests t = [KCheckNameAvailability] /\ r = Err e
      | Ok false =>
          requests t = [KCheckNameAvailability] /\
          r = if is_empty (imageregistryv1.AccountName (azure.Config d))
              then Err (Errorf "create storage account failed, name not available" [])
              else Ok (n, false)
      | Ok true =>
          List.hd_error (List.tl (requests t)) = Some KAccountsCreate /\
          (subchain_issued t = [] \/
           List.hd_error (List.tl (requests_ok t)) = Some KAccountsCreate) /\
          (r = Ok (n, true) \/ is_ok r = false)
      end
  | _ => False
  end.

(** The condition updates that a call wrote: the resource it leaves has
    the conditions of [cr] followed by [us]. *)
Definition updates_written {A W : Type} (cr : imageregistryv1.Config)
    (out : res (A * imageregistryv1.Config) * W * list Event)
    (us : list imageregistryv1.ConditionUpdate) : Prop :=
  exists a cr',
    out.1.1 = Ok (a, cr') /\
    imageregistryv1.Conditions cr' = imageregistryv1.Conditions cr ++ us.

Definition writes_exactly_one {A W : Type} (cr : imageregistryv1.Config)
    (out : res (A * imageregistryv1.Config) * W * list Event) : Prop :=
  exists u, updates_written cr out [u].

(** The update that [RemoveStorage] writes once the container is
    deleted. *)
Definition container_deleted : imageregistryv1.ConditionUpdate :=
  {| imageregistryv1.Status := imageregistryv1.ConditionFalse;
     imageregistryv1.Reason := azure.storageExistsReasonContainerDeleted;
     imageregistryv1.Message := Literal "Storage container has been deleted" |}.

Definition has_kind (k : Kind) (l : list Kind) : bool :=
  List.existsb (kind_eqb k) l.

(** C2 as the specification words it: when the key fetch of the teardown
    reports not-found, the recorded container name and the recorded account
    name are both cleared, the condition is (False, ContainerNotFound),
    and no error is returned. *)
Definition RemoveStorage_clears_both_names {W : Type} `{!World W}
    (d : azure.driver) (cr : imageregistryv1.Config) (w : W) : Prop :=
  forall text,
    failures (azure.RemoveStorage d cr w).2
    = [(KPrimaryKeyGet, DetailedError 404 text)] ->
    is_empty (imageregistryv1.Container (azure.Config d)) = false ->
    exists d' cr' u,
      (azure.RemoveStorage d cr w).1.1 = Ok (false, None, d', cr') /\
      imageregistryv1.Container (azure.Config d') = "" /\
      imageregistryv1.AccountName (azure.Config d') = "" /\
      imageregistryv1.Conditions cr' = imageregistryv1.Conditions cr ++ [u] /\
      imageregistryv1.Status u = imageregistryv1.ConditionFalse /\
      imageregistryv1.Reason u = azure.storageExistsReasonContainerNotFound.

(** What one run of [RemoveStorage] shows, whatever the world replies. *)
Definition RemoveStorage_summary {W : Type} (d : azure.driver)
    (cr : imageregistryv1.Config)
    (out : res (bool * option error * azure.driver * imageregistryv1.Config)
           * W * list Event) : Prop :=
  let t := out.2 in
  let r := out.1.1 in
  let managed :=
    String.eqb (imageregistryv1.ManagementState (imageregistryv1.Spec_Storage cr))
      imageregistryv1.StorageManagementStateManaged in
  (* the key fetch reports not-found *)
  (forall text,
      failures t = [(KPrimaryKeyGet, DetailedError 404 text)] ->
      (exists err,
          r = Ok (false, None,
                  azure.with_Config
                    (imageregistryv1.set_AccountName "" (azure.Config d)) d,
                  azure.UpdateCondition (azure.clear_AccountName cr)
                    imageregistryv1.ConditionFalse
                    azure.storageExistsReasonContainerNotFound
                    (Sprintf "Container has been already deleted: %s" [ArgError err]))) /\
      requests t = [KPrimaryKeyGet] /\
      is_empty (imageregistryv1.Container (azure.Config d)) = false) /\
  (* the container is deleted and the account delete fails *)
  (forall e,
      has_kind KContainerDelete (requests_ok t) = true ->
      failures t = [(KAccountsDelete, e)] ->
      r = Ok (false, Some e,
              azure.with_Config (imageregistryv1.set_Container "" (azure.Config d)) d,
              azure.UpdateCondition
                (azure.UpdateCondition (azure.clear_Container cr)
                   imageregistryv1.ConditionFalse
                   azure.storageExistsReasonContainerDeleted
                   (Literal "Storage container has been deleted"))
                imageregistryv1.ConditionFalse azure.storageExistsReasonAzureError
                (Sprintf "Unable to delete storage account: %s" [ArgError e])) /\
      managed = true /\
      is_empty (imageregistryv1.AccountName (azure.Config d)) = false) /\
  (* no container is recorded *)
  (is_empty (imageregistryv1.Container (azure.Config d)) = true ->
   (requests t = [] \/
    requests t = [KAccountsDelete] /\
    account_deletes t = [imageregistryv1.AccountName (azure.Config d)]) /\
   (managed = true ->
    is_empty (imageregistryv1.AccountName (azure.Config d)) = false ->
    requests t = [KAccountsDelete] \/
    exists retry e d' cr', r = Ok (retry, Some e, d', cr'))) /\
  (* the condition updates *)
  (if managed then
     if has_kind KContainerDelete (requests_ok t)
     then exists u, updates_written cr out [container_deleted; u]
     else writes_exactly_one cr out
   else updates_written cr out []).

(** C3 as the specification words it: a call to any of the three entry
    points writes exactly one condition update. *)
Definition one_update_per_call {W : Type} `{!World W}
    (d : azure.driver) (cr : imageregistryv1.Config) (w : W) : Prop :=
  writes_exactly_one cr (azure.CreateStorage d cr w) /\
  writes_exactly_one cr (azure.RemoveStorage d cr w) /\
  writes_exactly_one cr (azure.StorageExists d cr w).

(** A private endpoint as the provider returns it. *)
Definition Sim_endpoint : PrivateEndpoint :=
  {| pe_Name := "imageregistrycilnx7hjklm";
     pe_NetworkInterfaces :=
       ["/subscriptions/sub/resourceGroups/rg/providers/Microsoft.Network/networkInterfaces/imageregistrycilnx7hjklm-nic"] |}.

Definition Sim_client : azureclient.Client :=
  {| azureclient.tagset := {[ "kubernetes.io_cluster.ci-ln-x7" := "owned" ]};
     azureclient.subscriptionID := "sub";
     azureclient.resourceGroupName := "rg" |}.

(** A provider in which the next creation of a virtual-network link
    meets a conflict. *)
Definition Sim_link_conflict : Sim.state :=
  Sim.with_faults
    [(KVirtualNetworkLinkCreate,
      ResponseError 409 "Conflict" "the virtual network link exists already")]
    (Sim.having ["acct1"] []).

(** A cluster whose user supplied an account key. *)
Definition Sim_user_managed : Sim.state :=
  {| Sim.accounts := []; Sim.containers := []; Sim.draws := 0;
     Sim.user_key := Some "a2V5"; Sim.faults := [] |}.

(** A provider in which the next deletion of an account fails. *)
Definition Sim_delete_fails : Sim.state :=
  Sim.with_faults [(KAccountsDelete, OtherError "the account is locked")]
    (Sim.having ["acct1"] [("acct1", "c1")]).

(** ** The provisioning path

    The part of [CreateStorage] that provisions: [assureStorageAccount],
    the account name recorded in the driver, [assureContainer], the
    container name recorded in the driver. A failure of either call ends
    the path, as it ends [CreateStorage]. *)

Record provisioned : Type := {
  account_created : bool;
  container_created : bool;
  failed : option error
}.

Definition provisioning_path {W : Type} `{!World W} (d : azure.driver)
    (cfg : azure.Azure) (infra : configv1.Infrastructure) (w : W)
  : azure.driver * provisioned * W :=
  match azure.assureStorageAccount d cfg infra w with
  | (Err err, w1, _) =>
      (d, {| account_created := false; container_created := false;
             failed := Some err |}, w1)
  | (Ok (storageAccountName, storageAccountCreated), w1, _) =>
      let d := azure.with_Config
                 (imageregistryv1.set_AccountName storageAccountName (azure.Config d)) d in
      match azure.assureContainer d cfg w1 with
      | (Err err, w2, _) =>
          (d, {| account_created := storageAccountCreated;
                 container_created := false; failed := Some err |}, w2)
      | (Ok (containerName, containerCreated), w2, _) =>
          let d := azure.with_Config
                     (imageregistryv1.set_Container containerName (azure.Config d)) d in
          (d, {| account_created := storageAccountCreated;
                 container_created := containerCreated; failed := None |}, w2)
      end
  end.

(** C8 as the specification words it: whatever the first run did, a
    second run of the path, from the driver and the world that the first
    run leaves, creates nothing. *)
Definition second_run_creates_nothing {W : Type} `{!World W} (d : azure.driver)
    (cfg : azure.Azure) (infra : configv1.Infrastructure) (w : W) : Prop :=
  let first := provisioning_path d cfg infra w in
  let second := provisioning_path first.1.1 cfg infra first.2 in
  account_created second.1.2 = false /\ container_created second.1.2 = false.

(** What one run of [assureContainer] shows, whatever the world
    replies. *)
Definition assureContainer_summary {W : Type} (d : azure.driver)
    (out : res (string * bool) * W * list Event) : Prop :=
  let t := out.2 in
  let r := out.1.1 in
  List.forallb (fun k => negb (is_delete k)) (kinds t) = true /\
  (forall containerName c, r = Ok (containerName, c) ->
     In (imageregistryv1.AccountName (azure.Config d), containerName)
       (present_containers t) /\
     (if is_empty (imageregistryv1.Container (azure.Config d))
      then In containerName (generated_names t)
      else containerName = imageregistryv1.Container (azure.Config d))) /\
  (created r = true ->
   is_empty (imageregistryv1.Container (azure.Config d)) = false ->
   is_empty (imageregistryv1.AccountName (azure.Config d)) = false ->
   In (imageregistryv1.AccountName (azure.Config d),
       imageregistryv1.Container (azure.Config d)) (missing_containers t)).

(** The provider in memory, after a failure at the private endpoint: one
    injected failure, consumed by the first run. *)
Definition Sim_endpoint_fails_once : Sim.state :=
  Sim.with_faults
    [(KPrivateEndpointCreate, OtherError "the request timed out")] Sim.empty.

Definition Sim_taken (w : Sim.state) (n : string) : Prop :=
  Sim.mem n (Sim.accounts w) = true.
Definition Sim_present (w : Sim.state) (a c : string) : Prop :=
  Sim.mem2 (a, c) (Sim.containers w) = true.

(** A trace without a delete request. *)
Definition no_delete (t : list Event) : Prop :=
  List.forallb (fun k => negb (is_delete k)) (kinds t) = true.

(** ** Further functions of package [azure] *)

Module azure_ops.
Import imageregistryv1 azure.

(** [envvar.EnvVar]. *)
Record EnvVar : Type := {
  Name : string;
  Value : string;
  Secret : bool
}.

Definition storage_equal (a b : ImageRegistryConfigStorageAzure) : bool :=
  String.eqb (AccountName a) (AccountName b)
  && String.eqb (Container a) (Container b)
  && String.eqb (CloudName a) (CloudName b).

(** [StorageChanged] checks if the storage configuration has changed:
    [!reflect.DeepEqual(cr.Status.Storage.Azure, cr.Spec.Storage.Azure)]. *)
Definition StorageChanged (cr : imageregistryv1.Config) : bool :=
  negb (storage_equal (imageregistryv1.Azure (Status_Storage cr))
          (imageregistryv1.Azure (Spec_Storage cr))).

(** [ID] return the underlying storage identificator, on this case the
    Azure container name. *)
Definition ID (d : driver) : string := Container (Config d).

Section Driver.
Context {W : Type} `{!World W}.

(** [ConfigEnv] configures the environment variables that will be used
    in the image registry deployment. *)
Definition ConfigEnv (d : driver) : M (list EnvVar) :=
  cfg <- GetConfig ;;
  environment <- getEnvironmentByName (CloudName (Config d)) ;;
  key <-
    (if is_empty (AccountKey cfg) then
       storageAccountsClient d cfg environment ;;;
       getAccountPrimaryKey (ResourceGroup cfg) (AccountName (Config d))
     else ret (AccountKey cfg)) ;;
  let envs :=
    [ {| Name := "REGISTRY_STORAGE"; Value := "azure"; Secret := false |};
      {| Name := "REGISTRY_STORAGE_AZURE_CONTAINER";
         Value := Container (Config d); Secret := false |};
      {| Name := "REGISTRY_STORAGE_AZURE_ACCOUNTNAME";
         Value := AccountName (Config d); Secret := false |};
      {| Name := "REGISTRY_STORAGE_AZURE_ACCOUNTKEY"; Value := key; Secret := true |} ] in
  if negb (is_empty (CloudName (Config d))) then
    ret (envs ++ [ {| Name := "REGISTRY_STORAGE_AZURE_REALM";
                      Value := StorageEndpointSuffix environment;
                      Secret := false |} ])
  else ret envs.

End Driver.
End azure_ops.

(** ** Further functions of package [azureclient] *)

Module azureclient_ops.

(** [strings.Join]. *)
Fixpoint Join (elems : list string) (sep : string) : string :=
  match elems with
  | [] => ""
  | [x] => x
  | x :: rest => x +:+ sep +:+ Join rest sep
  end.

(** [Options]: the environment, the identifiers, and whether [HTTPClient]
    and [Creds] are set. *)
Record Options : Type := {
  Environment_ : Environment;
  TenantID : string;
  ClientID : string;
  ClientSecret : string;
  FederatedTokenFile : string;
  SubscriptionID : string;
  ResourceGroupName : string;
  TagSet : gmap string string;
  HTTPClient : bool;
  Creds : bool
}.

(** The options that [validate] finds missing, in the order in which it
    looks for them. *)
Definition missingOpts (opts : Options) : list string :=
  (if is_empty (ResourceManagerEndpoint (Environment_ opts))
   then ["'Environment.ResourceManagerEndpoint'"] else [])
  ++ (if is_empty (ActiveDirectoryEndpoint (Environment_ opts))
      then ["'Environment.ActiveDirectoryEndpoint'"] else [])
  ++ (if is_empty (TokenAudience (Environment_ opts))
      then ["'Environment.TokenAudience'"] else [])
  ++ (if is_empty (TenantID opts) then ["'TenantID'"] else [])
  ++ (if is_empty (ClientID opts) then ["'ClientID'"] else [])
  ++ (if is_empty (ClientSecret opts) && is_empty (FederatedTokenFile opts)
         && negb (Creds opts)
      then ["'ClientSecret'"; "'FederatedTokenFile'"; "'Creds'"] else [])
  ++ (if is_empty (SubscriptionID opts) then ["'SubscriptionID'"] else [])
  ++ (if is_empty (ResourceGroupName opts) then ["'ResourceGroupName'"] else []).

(** [validate]: [None] is the nil error. *)
Definition validate (opts : Options) : option error :=
  let missingOpts := missingOpts opts in
  if (0 <? length missingOpts)%nat then
    let missing := Join missingOpts ", " in
    Some (Errorf "client misconfigured, missing %s option(s)" [ArgString missing])
  else None.

End azureclient_ops.
(** ** More of what a trace shows *)

(** The secrets that were looked up, each with the error of the
    look-up, if any. *)
Definition ev_secret (e : Event) : option (SecretName * option error) :=
  match e with
  | Ev c r =>
      match c in Call R return R -> option (SecretName * option error) with
      | SecretsGet name =>
          fun r => Some (name, match r with Ok _ => None | Err e => Some e end)
      | _ => fun _ => None
      end r
  end.
Definition secrets_read (t : list Event) : list (SecretName * option error) :=
  filter_map ev_secret t.

(** The account keys that were fetched: the account and the reply. *)
Definition ev_key (e : Event) : option (string * res string) :=
  match e with
  | Ev c r =>
      match c in Call R return R -> option (string * res string) with
      | PrimaryKeyGet _ name => fun r => Some (name, r)
      | _ => fun _ => None
      end r
  end.
Definition keys_fetched (t : list Event) : list (string * res string) :=
  filter_map ev_key t.

(** The network interfaces that were looked up. *)
Definition ev_interface (e : Event) : option string :=
  match e with
  | Ev c r =>
      match c in Call R return R -> option string with
      | InterfacesGet _ name => fun _ => Some name
      | _ => fun _ => None
      end r
  end.
Definition interface_lookups (t : list Event) : list string :=
  filter_map ev_interface t.

(** The value that the user's resource tags give to a key: the last tag
    of that key. *)
Fixpoint last_tag (k : string) (tags : list configv1.AzureResourceTag)
  : option string :=
  match tags with
  | [] => None
  | tag :: rest =>
      match last_tag k rest with
      | Some v => Some v
      | None =>
          if String.eqb (configv1.Key tag) k then Some (configv1.Value tag) else None
      end
  end.

(** The resource tags of an infrastructure, none when the platform
    status or its Azure part is missing. *)
Definition resource_tags (infra : configv1.Infrastructure)
  : list configv1.AzureResourceTag :=
  match configv1.Status_PlatformStatus infra with
  | Some ps =>
      match configv1.Azure ps with
      | Some az => configv1.ResourceTags az
      | None => []
      end
  | None => []
  end.

(** Whether every required option is there. *)
Definition complete (opts : azureclient_ops.Options) : Prop :=
  ResourceManagerEndpoint (azureclient_ops.Environment_ opts) <> "" /\
  ActiveDirectoryEndpoint (azureclient_ops.Environment_ opts) <> "" /\
  TokenAudience (azureclient_ops.Environment_ opts) <> "" /\
  azureclient_ops.TenantID opts <> "" /\
  azureclient_ops.ClientID opts <> "" /\
  (azureclient_ops.ClientSecret opts <> "" \/
   azureclient_ops.FederatedTokenFile opts <> "" \/
   azureclient_ops.Creds opts = true) /\
  azureclient_ops.SubscriptionID opts <> "" /\
  azureclient_ops.ResourceGroupName opts <> "".

Definition no_slash (s : string) : Prop :=
  GoString.all (fun c => negb (Ascii.eqb c "/")) s = true.

(** What one run of [GetConfig] shows. *)
Definition GetConfig_summary {W : Type} (out : res azure.Azure * W * list Event)
  : Prop :=
  requests out.2 = [] /\
  match secrets_read out.2 with
  | [(ImageRegistryPrivateConfigurationUser, None)] =>
      forall cfg, out.1.1 = Ok cfg ->
        is_empty (azure.AccountKey cfg) = false /\
        azure.SubscriptionID cfg = "" /\ azure.ClientID cfg = "" /\
        azure.ClientSecret cfg = "" /\ azure.TenantID cfg = "" /\
        azure.ResourceGroup cfg = "" /\ azure.Region cfg = ""
  | [(ImageRegistryPrivateConfigurationUser, Some e)] =>
      azure.IsNotFound e = false /\
      out.1.1 = Err (Errorf "unable to get user provided secrets: %s" [ArgError e])
  | [(ImageRegistryPrivateConfigurationUser, Some e); (CloudCredentialsName, None)] =>
      azure.IsNotFound e = true /\
      exists cfg, out.1.1 = Ok cfg /\ azure.AccountKey cfg = ""
  | [(ImageRegistryPrivateConfigurationUser, Some e); (CloudCredentialsName, Some e')] =>
      azure.IsNotFound e = true /\
      out.1.1
      = Err (Errorf "unable to get cluster minted credentials: %s" [ArgError e'])
  | _ => False
  end.

(** The variables that [ConfigEnv] returns for a key. *)
Definition registry_env (d : azure.driver) (key : string)
    (realm : list azure_ops.EnvVar) : list azure_ops.EnvVar :=
  [ {| azure_ops.Name := "REGISTRY_STORAGE"; azure_ops.Value := "azure";
       azure_ops.Secret := false |};
    {| azure_ops.Name := "REGISTRY_STORAGE_AZURE_CONTAINER";
       azure_ops.Value := imageregistryv1.Container (azure.Config d);
       azure_ops.Secret := false |};
    {| azure_ops.Name := "REGISTRY_STORAGE_AZURE_ACCOUNTNAME";
       azure_ops.Value := imageregistryv1.AccountName (azure.Config d);
       azure_ops.Secret := false |};
    {| azure_ops.Name := "REGISTRY_STORAGE_AZURE_ACCOUNTKEY";
       azure_ops.Value := key; azure_ops.Secret := true |} ] ++ realm.

(** What one run of [StorageExists] shows of its look-ups. *)
Definition StorageExists_summary {W : Type} (d : azure.driver)
    (out : res (bool * option error * imageregistryv1.Config) * W * list Event)
  : Prop :=
  let t := out.2 in
  let account := imageregistryv1.AccountName (azure.Config d) in
  let container := imageregistryv1.Container (azure.Config d) in
  (is_empty account || is_empty container = true -> t = []) /\
  (secrets_read t = [(ImageRegistryPrivateConfigurationUser, None)] ->
   keys_fetched t = []) /\
  (forall reply, keys_fetched t = [reply] -> reply.1 = account) /\
  (forall exists_ err cr', out.1.1 = Ok (exists_, err, cr') ->
     (exists_ = true <-> present_containers t = [(account, container)]) /\
     (missing_containers t = [(account, container)] ->
      exists_ = false /\ err = None)).

(** The last update of the conditions of a resource. *)
Definition last_update (cr : imageregistryv1.Config)
  : option imageregistryv1.ConditionUpdate :=
  List.last (List.map Some (imageregistryv1.Conditions cr)) None.

(** How the result of an assuring call agrees with its trace: a result
    says created exactly when the request of kind [k] succeeded, and no
    request of kind [other] succeeded. *)
Definition creates {W : Type} (k other : Kind)
    (out : res (string * bool) * W * list Event) : Prop :=
  (is_ok out.1.1 = true -> created out.1.1 = has_kind k (requests_ok out.2)) /\
  has_kind other (requests_ok out.2) = false.



(** The tags that the requests of a trace carry. *)
Definition ev_tags (e : Event) : option (gmap string string) :=
  match e with
  | Ev c _ =>
      match c with
      | AccountsCreate _ _ _ tags => Some tags
      | PrivateEndpointsCreateOrUpdate _ _ _ _ _ tags => Some tags
      | PrivateZonesCreateOrUpdate _ _ _ tags => Some tags
      | VirtualNetworkLinksCreateOrUpdate _ _ _ _ _ tags => Some tags
      | _ => None
      end
  end.
Definition tags_sent (t : list Event) : list (gmap string string) :=
  filter_map ev_tags t.

(** The accounts that a trace asks to create. *)
Definition ev_account_request (e : Event) : option string :=
  match e with
  | Ev c _ =>
      match c with
      | AccountsCreate _ accountName _ _ => Some accountName
      | _ => None
      end
  end.
Definition account_requests (t : list Event) : list string :=
  filter_map ev_account_request t.

(** The resources that the private endpoints of a trace are to link
    to. *)
Definition ev_endpoint_request (e : Event) : option string :=
  match e with
  | Ev c _ =>
      match c with
      | PrivateEndpointsCreateOrUpdate _ _ _ _ privateLinkServiceID _ =>
          Some privateLinkServiceID
      | _ => None
      end
  end.
Definition endpoint_requests (t : list Event) : list string :=
  filter_map ev_endpoint_request t.

(** The private endpoints that the provider returned. *)
Definition ev_endpoint (e : Event) : option PrivateEndpoint :=
  match e with
  | Ev c r =>
      match c in Call R return R -> option PrivateEndpoint with
      | PrivateEndpointsCreateOrUpdate _ _ _ _ _ _ =>
          fun r => match r with Done pe => Some pe | _ => None end
      | _ => fun _ => None
      end r
  end.
Definition endpoints (t : list Event) : list PrivateEndpoint :=
  filter_map ev_endpoint t.

(** The network interfaces that the provider returned. *)
Definition ev_interface_reply (e : Event) : option Interface :=
  match e with
  | Ev c r =>
      match c in Call R return R -> option Interface with
      | InterfacesGet _ _ =>
          fun r => match r with Ok nic => Some nic | Err _ => None end
      | _ => fun _ => None
      end r
  end.
Definition interfaces (t : list Event) : list Interface :=
  filter_map ev_interface_reply t.

(** The record sets that a trace asks to write: the zone, the name and
    the address. *)
Definition ev_record (e : Event) : option (string * string * string) :=
  match e with
  | Ev c _ =>
      match c with
      | RecordSetsCreateOrUpdate _ zone relativeName _ address =>
          Some (zone, relativeName, address)
      | _ => None
      end
  end.
Definition record_requests (t : list Event) : list (string * string * string) :=
  filter_map ev_record t.

(** The zone groups that a trace asks to write: the endpoint and the
    group. *)
Definition ev_zone_group (e : Event) : option (string * string) :=
  match e with
  | Ev c _ =>
      match c with
      | PrivateDNSZoneGroupsCreateOrUpdate _ privateEndpoint group _ _ =>
          Some (privateEndpoint, group)
      | _ => None
      end
  end.
Definition zone_group_requests (t : list Event) : list (string * string) :=
  filter_map ev_zone_group t.

(** The virtual network links that a trace asks to write: the zone and
    the link. *)
Definition ev_link (e : Event) : option (string * string) :=
  match e with
  | Ev c _ =>
      match c with
      | VirtualNetworkLinksCreateOrUpdate _ zone link _ _ _ => Some (zone, link)
      | _ => None
      end
  end.
Definition link_requests (t : list Event) : list (string * string) :=
  filter_map ev_link t.

(** At most the one element [x]. *)
Definition at_most_one {A : Type} (x : A) (l : list A) : Prop :=
  l = [] \/ l = [x].

(** How the data flows through one run of [assureStorageAccount]: the
    one name of the probe, of the account and of the record set, the
    tags, the interface of the endpoint that the provider returned and
    the address of the interface that it returned. *)
Definition assureStorageAccount_flow {W : Type} (cfg : azure.Azure)
    (infra : configv1.Infrastructure)
    (out : res (string * bool) * W * list Event) : Prop :=
  let t := out.2 in
  Forall (fun tags => tags = azure.tagset_of infra) (tags_sent t) /\
  match probes t with
  | [] => account_requests t = [] /\ endpoint_requests t = []
  | (n, _) :: _ =>
      at_most_one n (account_requests t) /\
      at_most_one
        (azure.formatPrivateLinkResourceID (azure.SubscriptionID cfg)
           (azure.ResourceGroup cfg) n)
        (endpoint_requests t) /\
      match endpoints t with
      | [] =>
          interface_lookups t = [] /\ record_requests t = [] /\
          zone_group_requests t = []
      | pe :: _ =>
          match pe_NetworkInterfaces pe with
          | [] => interface_lookups t = []
          | nicRef :: _ =>
              at_most_one (GoString.last_segment "/" nicRef) (interface_lookups t)
          end /\
          match interfaces t with
          | [] => record_requests t = []
          | nic :: _ =>
              match nic_IPConfigurations nic with
              | [] => record_requests t = []
              | nicAddress :: _ =>
                  at_most_one ("privatelink.blob.core.windows.net", n, nicAddress)
                    (record_requests t)
              end
          end /\
          at_most_one (pe_Name pe, "privatelink-blob-core-windows-net")
            (zone_group_requests t)
      end
  end.

(** [sep] does not occur in [s]. *)
Definition without (sep : ascii) (s : string) : Prop :=
  GoString.all (fun c => negb (Ascii.eqb c sep)) s = true.

(** ** The rest of package [azureclient]: reading, updating and
    removing *)

Module azureclient_rest.
Import azureclient.

(** [armstorage.Account]: [Properties.PublicNetworkAccess], each a
    pointer. *)
Record AccountProperties : Type := {
  PublicNetworkAccess : option string
}.
Record Account : Type := {
  Properties : option AccountProperties
}.

(** [armstorage]'s constants. *)
Definition PublicNetworkAccessEnabled : string := "Enabled".
Definition PublicNetworkAccessDisabled : string := "Disabled".

(** The clients that these functions build. *)
Inductive ClientKind : Type :=
| AccountsClient
| EndpointsClient
| RecordsClient
| ZoneGroupsClient
| LinksClient.

(** The calls of these functions, each with the type of its reply. *)
Inductive ClientCall : Type -> Type :=
| NewClient (kind : ClientKind) (subscriptionID : string) : ClientCall (res unit)
| AccountsGetProperties (resourceGroup accountName : string)
  : ClientCall (res Account)
| AccountsUpdate (resourceGroup accountName publicNetworkAccess : string)
  : ClientCall (res unit)
| PrivateEndpointsGet (resourceGroup name : string) : ClientCall (res unit)
| RecordSetsDelete (resourceGroup zone relativeName : string)
  : ClientCall (res unit)
| PrivateDNSZoneGroupsDelete (resourceGroup privateEndpoint group : string)
  : ClientCall (poller unit)
| VirtualNetworkLinksDelete (resourceGroup zone link : string)
  : ClientCall (poller unit).

Class ClientWorld (W : Type) : Type :=
  client_perform : forall R, ClientCall R -> W -> R * W.
Arguments client_perform {W _ R} c w.

Inductive ClientEvent : Type :=
| CEv {R : Type} (c : ClientCall R) (r : R).

Declare Scope client_scope.

Section Client.
Context {W : Type} `{!ClientWorld W}.

Definition M (A : Type) : Type := W -> res A * W * list ClientEvent.

Definition ret {A} (a : A) : M A := fun w => (Ok a, w, []).
Definition fail {A} (e : error) : M A := fun w => (Err e, w, []).

Definition bind {A B} (m : M A) (k : A -> M B) : M B :=
  fun w =>
    match m w with
    | (Ok a, w1, t1) =>
        match k a w1 with
        | (r, w2, t2) => (r, w2, t1 ++ t2)
        end
    | (Err e, w1, t1) => (Err e, w1, t1)
    end.

Definition call {R} (c : ClientCall R) : M R :=
  fun w => match client_perform c w with (r, w') => (Ok r, w', [CEv c r]) end.

Definition or_fail {A} (wrap : error -> error) (m : M (res A)) : M A :=
  bind m (fun r => match r with Ok a => ret a | Err e => fail (wrap e) end).

Definition try {A} (c : ClientCall (res A)) : M A := or_fail id (call c).

(** [BeginDelete] then [PollUntilDone], each error returned as it is. *)
Definition await {A} (c : ClientCall (poller A)) : M A :=
  bind (call c) (fun p =>
    match p with
    | BeginFailed e => fail e
    | PollFailed e => fail e
    | Done a => ret a
    end).

Definition attempt {A} (m : M A) : M (res A) :=
  fun w => match m w with (r, w', t) => (Ok r, w', t) end.

Notation "x <- m ;; k" := (bind m (fun x => k))
  (at level 100, m at next level, right associativity) : client_scope.
Notation "m ;;; k" := (bind m (fun _ => k))
  (at level 100, right associativity) : client_scope.
Local Open Scope client_scope.

Definition getStorageAccount (c : Client) (accountName : string) : M Account :=
  or_fail (fun err => Errorf "failed to create accounts client: %q" [ArgError err])
    (call (NewClient AccountsClient (subscriptionID c))) ;;;
  try (AccountsGetProperties (resourceGroupName c) accountName).

Definition UpdateStorageAccountNetworkAccess (c : Client) (accountName : string)
    (allowPublicAccess : bool) : M unit :=
  or_fail (fun err => Errorf "failed to create accounts client: %q" [ArgError err])
    (call (NewClient AccountsClient (subscriptionID c))) ;;;
  let publicNetworkAccess :=
    if allowPublicAccess then PublicNetworkAccessEnabled
    else PublicNetworkAccessDisabled in
  try (AccountsUpdate (resourceGroupName c) accountName publicNetworkAccess).

(** [IsStorageAccountPrivate] gets a storage account and returns true if
    public network access is disabled, or false if public network
    access is enabled. In case of any unexpected behaviour this function
    will return false. It has no error to return. *)
Definition IsStorageAccountPrivate (c : Client) (accountName : string)
  : W -> bool * W * list ClientEvent :=
  fun w =>
    match getStorageAccount c accountName w with
    | (Err _, w', t) => (false, w', t)
    | (Ok account, w', t) =>
        match Properties account with
        | None => (false, w', t)
        | Some properties =>
            match PublicNetworkAccess properties with
            | None => (false, w', t)
            | Some publicNetworkAccess =>
                (String.eqb publicNetworkAccess PublicNetworkAccessDisabled, w', t)
            end
        end
    end.

Definition PrivateEndpointExists (c : Client) (privateEndpointName : string)
  : M bool :=
  try (NewClient EndpointsClient (subscriptionID c)) ;;;
  r <- call (PrivateEndpointsGet (resourceGroupName c) privateEndpointName) ;;
  match r with
  | Err (ResponseError StatusCode ErrorCode text) =>
      if (StatusCode =? 404)%Z then ret false
      else fail (ResponseError StatusCode ErrorCode text)
  | Err err => fail err
  | Ok _ => ret true
  end.

Definition deleteRecordSet (c : Client)
    (privateZoneName relativeRecordSetName : string) : M unit :=
  or_fail (fun err => Errorf "failed to get record sets client: %s" [ArgError err])
    (call (NewClient RecordsClient (subscriptionID c))) ;;;
  try (RecordSetsDelete (resourceGroupName c) privateZoneName relativeRecordSetName).

Definition deletePrivateDNSZoneGroup (c : Client)
    (privateEndpointName privateZoneName : string) : M unit :=
  or_fail
    (fun err => Errorf "failed to get private dns zone groups client: %q" [ArgError err])
    (call (NewClient ZoneGroupsClient (subscriptionID c))) ;;;
  let groupName := GoString.ReplaceAll "." "-" privateZoneName in
  await (PrivateDNSZoneGroupsDelete (resourceGroupName c) privateEndpointName groupName).

Definition deleteVirtualNetworkLink (c : Client)
    (linkName privateZoneName : string) : M unit :=
  or_fail
    (fun err => Errorf "failed to get virtual network links client: %s" [ArgError err])
    (call (NewClient LinksClient (subscriptionID c))) ;;;
  await (VirtualNetworkLinksDelete (resourceGroupName c) privateZoneName linkName).

(** [DestroyPrivateDNS] unlinks the private zone from the vnet. It is
    meant to be used as a clean-up for [ConfigurePrivateDNS]. *)
Definition DestroyPrivateDNS (c : Client)
    (privateEndpointName vnetName storageAccountName : string) : M unit :=
  deleteRecordSet c privateEndpointName defaultPrivateZoneName ;;;
  deletePrivateDNSZoneGroup c privateEndpointName defaultPrivateZoneName ;;;
  deleteVirtualNetworkLink c storageAccountName defaultPrivateZoneName.

End Client.
End azureclient_rest.

(** A provider in memory for these calls: it remembers the network
    access that the accounts were given, and refuses nothing. *)
Module ClientSim.
Import azureclient_rest.

Definition state : Type := list (string * string).

Fixpoint access_of (accountName : string) (s : state) : option string :=
  match s with
  | [] => None
  | (name, access) :: rest =>
      if String.eqb name accountName then Some access else access_of accountName rest
  end.

Definition respond {R} (c : ClientCall R) (s : state) : R * state :=
  match c in ClientCall R return R * state with
  | NewClient _ _ => (Ok tt, s)
  | AccountsGetProperties _ accountName =>
      (Ok {| Properties :=
               Some {| PublicNetworkAccess := access_of accountName s |} |}, s)
  | AccountsUpdate _ accountName access => (Ok tt, (accountName, access) :: s)
  | PrivateEndpointsGet _ _ => (Ok tt, s)
  | RecordSetsDelete _ _ _ => (Ok tt, s)
  | PrivateDNSZoneGroupsDelete _ _ _ => (Done tt, s)
  | VirtualNetworkLinksDelete _ _ _ => (Done tt, s)
  end.

#[global] Instance world : ClientWorld state := fun R c s => respond c s.

End ClientSim.

(** What a trace of these calls shows. *)

(** The deletions that a trace asks for. *)
Inductive Deletion : Type :=
| DelRecordSet (resourceGroup zone relativeName : string)
| DelZoneGroup (resourceGroup privateEndpoint group : string)
| DelLink (resourceGroup zone link : string).

Definition ev_deletion (e : azureclient_rest.ClientEvent) : option Deletion :=
  match e with
  | azureclient_rest.CEv c _ =>
      match c with
      | azureclient_rest.RecordSetsDelete rg zone name =>
          Some (DelRecordSet rg zone name)
      | azureclient_rest.PrivateDNSZoneGroupsDelete rg endpoint group =>
          Some (DelZoneGroup rg endpoint group)
      | azureclient_rest.VirtualNetworkLinksDelete rg zone link =>
          Some (DelLink rg zone link)
      | _ => None
      end
  end.
Definition deletions (t : list azureclient_rest.ClientEvent) : list Deletion :=
  filter_map ev_deletion t.

(** The error of a reply, if it is one. *)
Definition client_reply_error {R} (c : azureclient_rest.ClientCall R)
  : R -> option error :=
  match c in azureclient_rest.ClientCall R return R -> option error with
  | azureclient_rest.NewClient _ _ =>
      fun r => match r with Err e => Some e | Ok _ => None end
  | azureclient_rest.AccountsGetProperties _ _ =>
      fun r => match r with Err e => Some e | Ok _ => None end
  | azureclient_rest.AccountsUpdate _ _ _ =>
      fun r => match r with Err e => Some e | Ok _ => None end
  | azureclient_rest.PrivateEndpointsGet _ _ =>
      fun r => match r with Err e => Some e | Ok _ => None end
  | azureclient_rest.RecordSetsDelete _ _ _ =>
      fun r => match r with Err e => Some e | Ok _ => None end
  | azureclient_rest.PrivateDNSZoneGroupsDelete _ _ _ =>
      fun p => match p with BeginFailed e | PollFailed e => Some e | Done _ => None end
  | azureclient_rest.VirtualNetworkLinksDelete _ _ _ =>
      fun p => match p with BeginFailed e | PollFailed e => Some e | Done _ => None end
  end.

(** The failed requests of a trace, the building of clients apart. *)
Definition ev_client_failure (e : azureclient_rest.ClientEvent) : option error :=
  match e with
  | azureclient_rest.CEv c r =>
      match c with
      | azureclient_rest.NewClient _ _ => None
      | _ => client_reply_error c r
      end
  end.
Definition client_failures (t : list azureclient_rest.ClientEvent) : list error :=
  filter_map ev_client_failure t.

(** The accounts that the provider returned. *)
Definition ev_account_read (e : azureclient_rest.ClientEvent)
  : option azureclient_rest.Account :=
  match e with
  | azureclient_rest.CEv c r =>
      match c in azureclient_rest.ClientCall R
            return R -> option azureclient_rest.Account with
      | azureclient_rest.AccountsGetProperties _ _ =>
          fun r => match r with Ok a => Some a | Err _ => None end
      | _ => fun _ => None
      end r
  end.
Definition accounts_read (t : list azureclient_rest.ClientEvent)
  : list azureclient_rest.Account :=
  filter_map ev_account_read t.

(** The network access of an account, if the provider tells it. *)
Definition network_access (a : azureclient_rest.Account) : option string :=
  match azureclient_rest.Properties a with
  | Some properties => azureclient_rest.PublicNetworkAccess properties
  | None => None
  end.

(** The updates of the network access that a trace asks for. *)
Definition ev_access_update (e : azureclient_rest.ClientEvent)
  : option (string * string) :=
  match e with
  | azureclient_rest.CEv c _ =>
      match c with
      | azureclient_rest.AccountsUpdate _ accountName access =>
          Some (accountName, access)
      | _ => None
      end
  end.
Definition access_updates (t : list azureclient_rest.ClientEvent)
  : list (string * string) :=
  filter_map ev_access_update t.

(** The private endpoints that were looked up, each with the error of
    the look-up, if any. *)
Definition ev_endpoint_lookup (e : azureclient_rest.ClientEvent)
  : option (string * option error) :=
  match e with
  | azureclient_rest.CEv c r =>
      match c in azureclient_rest.ClientCall R
            return R -> option (string * option error) with
      | azureclient_rest.PrivateEndpointsGet _ name =>
          fun r => Some (name, match r with Ok _ => None | Err e => Some e end)
      | _ => fun _ => None
      end r
  end.
Definition endpoint_lookups (t : list azureclient_rest.ClientEvent)
  : list (string * option error) :=
  filter_map ev_endpoint_lookup t.

(** The error is an [azcore.ResponseError] whose status is 404. *)
Definition is_response_not_found (err : error) : bool :=
  match err with
  | ResponseError StatusCode _ _ => (StatusCode =? 404)%Z
  | _ => false
  end.

(** The provider keeps the network access that an account was given: a
    successful update shows, the building of a client changes nothing,
    and an account that is read shows the access. *)
Record keeps_access {W : Type} `{!azureclient_rest.ClientWorld W}
    (shows : W -> string -> string -> Prop) : Prop := {
  update_shows :
    forall w rg accountName access w',
      azureclient_rest.client_perform
        (azureclient_rest.AccountsUpdate rg accountName access) w = (Ok tt, w') ->
      shows w' accountName access;
  client_keeps :
    forall w kind subscriptionID accountName access,
      shows w accountName access ->
      shows (azureclient_rest.client_perform
               (azureclient_rest.NewClient kind subscriptionID) w).2
        accountName access;
  read_shows :
    forall w rg accountName access a w',
      shows w accountName access ->
      azureclient_rest.client_perform
        (azureclient_rest.AccountsGetProperties rg accountName) w = (Ok a, w') ->
      network_access a = Some access
}.

Definition ClientSim_shows (s : ClientSim.state) (accountName access : string)
  : Prop :=
  ClientSim.access_of accountName s = Some access.

(** How the data flows through one run of [ConfigurePrivateDNS]. *)
Definition ConfigurePrivateDNS_flow {W : Type} (c : azureclient.Client)
    (privateEndpoint : PrivateEndpoint) (storageAccountName : string)
    (out : res unit * W * list Event) : Prop :=
  let t := out.2 in
  Forall (fun tags => tags = azureclient.tagset c) (tags_sent t) /\
  match pe_NetworkInterfaces privateEndpoint with
  | [] => interface_lookups t = []
  | nicRef :: _ =>
      at_most_one (GoString.last_segment "/" nicRef) (interface_lookups t)
  end /\
  match interfaces t with
  | [] => record_requests t = []
  | nic :: _ =>
      match nic_IPConfigurations nic with
      | [] => record_requests t = []
      | nicAddress :: _ =>
          at_most_one
            (azureclient.defaultPrivateZoneName, storageAccountName, nicAddress)
            (record_requests t)
      end
  end /\
  at_most_one
    (pe_Name privateEndpoint,
     GoString.ReplaceAll "." "-" azureclient.defaultPrivateZoneName)
    (zone_group_requests t) /\
  at_most_one (azureclient.defaultPrivateZoneName, storageAccountName)
    (link_requests t) /\
  (out.1.1 = Ok tt ->
   exists nicAddress,
     record_requests t
     = [(azureclient.defaultPrivateZoneName, storageAccountName, nicAddress)] /\
     zone_group_requests t
     = [(pe_Name privateEndpoint,
         GoString.ReplaceAll "." "-" azureclient.defaultPrivateZoneName)] /\
     link_requests t = [(azureclient.defaultPrivateZoneName, storageAccountName)]).

(** The deletions of [DestroyPrivateDNS], in order. *)
Definition DestroyPrivateDNS_order (c : azureclient.Client)
    (privateEndpointName storageAccountName : string) : list Deletion :=
  [ DelRecordSet (azureclient.resourceGroupName c) privateEndpointName
      azureclient.defaultPrivateZoneName;
    DelZoneGroup (azureclient.resourceGroupName c) privateEndpointName
      (GoString.ReplaceAll "." "-" azureclient.defaultPrivateZoneName);
    DelLink (azureclient.resourceGroupName c) azureclient.defaultPrivateZoneName
      storageAccountName ].

(** A private endpoint and an account that are both named as the
    zone. *)
Definition Sim_endpoint_named_as_zone : PrivateEndpoint :=
  {| pe_Name := azureclient.defaultPrivateZoneName;
     pe_NetworkInterfaces := pe_NetworkInterfaces Sim_endpoint |}.

(** The requests on containers of a trace: the kind, the account, the
    key and the container. *)
Definition ev_container_call (e : Event)
  : option (Kind * string * string * string) :=
  match e with
  | Ev c _ =>
      match c with
      | ContainerGetProperties _ accountName key container =>
          Some (KContainerGetProperties, accountName, key, container)
      | ContainerCreate _ accountName key container =>
          Some (KContainerCreate, accountName, key, container)
      | ContainerDelete _ accountName key container =>
          Some (KContainerDelete, accountName, key, container)
      | _ => None
      end
  end.
Definition container_calls (t : list Event)
  : list (Kind * string * string * string) :=
  filter_map ev_container_call t.

(** How the data flows through one run of [assureContainer]: the key
    of the recorded account, and the container that is looked up and
    created with it. *)
Definition assureContainer_flow {W : Type} (d : azure.driver)
    (out : res (string * bool) * W * list Event) : Prop :=
  let t := out.2 in
  let account := imageregistryv1.AccountName (azure.Config d) in
  let container := imageregistryv1.Container (azure.Config d) in
  match keys_fetched t with
  | [] => container_calls t = [] /\ is_ok out.1.1 = false
  | [(a, Err _)] => a = account /\ container_calls t = [] /\ is_ok out.1.1 = false
  | [(a, Ok key)] =>
      a = account /\
      if is_empty container then
        match generated_names t with
        | [] => container_calls t = [] /\ is_ok out.1.1 = false
        | name :: _ =>
            at_most_one (KContainerCreate, account, key, name) (container_calls t)
        end
      else if is_empty account then
        at_most_one (KContainerCreate, account, key, container) (container_calls t)
      else
        container_calls t = [] \/
        container_calls t = [(KContainerGetProperties, account, key, container)] \/
        container_calls t
        = [(KContainerGetProperties, account, key, container);
           (KContainerCreate, account, key, container)] /\
        missing_containers t = [(account, container)]
  | _ => False
  end.

(** The secrets that were found. *)
Definition ev_secret_found (e : Event) : option (SecretName * Secret) :=
  match e with
  | Ev c r =>
      match c in Call R return R -> option (SecretName * Secret) with
      | SecretsGet name =>
          fun r => match r with Ok sec => Some (name, sec) | Err _ => None end
      | _ => fun _ => None
      end r
  end.
Definition secrets_found (t : list Event) : list (SecretName * Secret) :=
  filter_map ev_secret_found t.

(** The values that were read from secrets: the secret, the key and the
    reply. *)
Definition ev_secret_value (e : Event) : option (Secret * string * res string) :=
  match e with
  | Ev c r =>
      match c in Call R return R -> option (Secret * string * res string) with
      | GetValueFromSecret sec key => fun r => Some (sec, key, r)
      | _ => fun _ => None
      end r
  end.
Definition secret_values (t : list Event) : list (Secret * string * res string) :=
  filter_map ev_secret_value t.

(** The environments that the library returned, each with the name it
    was asked for. *)
Definition ev_environment (e : Event) : option (string * Environment) :=
  match e with
  | Ev c r =>
      match c in Call R return R -> option (string * Environment) with
      | EnvironmentFromName name =>
          fun r => match r with Ok env => Some (name, env) | Err _ => None end
      | _ => fun _ => None
      end r
  end.
Definition environments (t : list Event) : list (string * Environment) :=
  filter_map ev_environment t.

(** What one run of [ConfigEnv] shows. *)
Definition ConfigEnv_summary {W : Type} (d : azure.driver)
    (out : res (list azure_ops.EnvVar) * W * list Event) : Prop :=
  forall envs, out.1.1 = Ok envs ->
    exists key realm,
      envs = registry_env d key realm /\
      (if is_empty (imageregistryv1.CloudName (azure.Config d))
       then realm = [] /\ environments out.2 = []
       else exists environment,
           environments out.2
           = [(imageregistryv1.CloudName (azure.Config d), environment)] /\
           realm = [ {| azure_ops.Name := "REGISTRY_STORAGE_AZURE_REALM";
                        azure_ops.Value := StorageEndpointSuffix environment;
                        azure_ops.Secret := false |} ]) /\
      ((exists sec,
           secrets_found out.2 = [(ImageRegistryPrivateConfigurationUser, sec)] /\
           secret_values out.2
           = [(sec, "REGISTRY_STORAGE_AZURE_ACCOUNTKEY", Ok key)]) /\
       keys_fetched out.2 = [] /\
       requests out.2 = [] /\ is_empty key = false \/
       secret_values out.2 = [] /\
       keys_fetched out.2
       = [(imageregistryv1.AccountName (azure.Config d), Ok key)] /\
       requests out.2 = [KPrimaryKeyGet]).


(** Whether the reply to a call of the client reports success. *)
Definition client_ev_ok (e : azureclient_rest.ClientEvent) : bool :=
  match e with
  | azureclient_rest.CEv c r =>
      match client_reply_error c r with
      | Some _ => false
      | None => true
      end
  end.

(** The deletions of a trace that succeeded. *)
Definition deletions_done (t : list azureclient_rest.ClientEvent) : list Deletion :=
  filter_map ev_deletion (List.filter client_ev_ok t).

(** The clients that could not be built, by their errors. *)
Definition ev_build_failure (e : azureclient_rest.ClientEvent) : option error :=
  match e with
  | azureclient_rest.CEv c r =>
      match c in azureclient_rest.ClientCall R return R -> option error with
      | azureclient_rest.NewClient _ _ =>
          fun r => match r with Err e => Some e | Ok _ => None end
      | _ => fun _ => None
      end r
  end.
Definition build_failures (t : list azureclient_rest.ClientEvent) : list error :=
  filter_map ev_build_failure t.

(** What one run of [DestroyPrivateDNS] shows: all of the deletions when
    nothing fails, and nothing after the first failure. *)
Definition DestroyPrivateDNS_summary {W : Type} (c : azureclient.Client)
    (privateEndpointName storageAccountName : string)
    (out : res unit * W * list azureclient_rest.ClientEvent) : Prop :=
  let t := out.2 in
  let order := DestroyPrivateDNS_order c privateEndpointName storageAccountName in
  prefix (deletions t) order /\
  match build_failures t, client_failures t with
  | [], [] =>
      deletions t = order /\ deletions_done t = order /\ out.1.1 = Ok tt
  | [e], [] =>
      deletions_done t = deletions t /\
      exists format, out.1.1 = Err (Errorf format [ArgError e])
  | [], [e] =>
      (exists failed, deletions t = deletions_done t ++ [failed]) /\
      out.1.1 = Err e
  | _, _ => False
  end.





(** ** The driver's configuration as a shared object

    [d.Config] is a pointer: the caller of [NewDriver] takes it from the
    specification or from the status of the resource, or from neither.
    The definitions of module [azure] keep the value of [d.Config] in
    the driver, apart from the resource. Here the writes of
    [CreateStorage] through [d.Config] are written out as writes to the
    one object, which the resource shows where it shares it. *)

Module azure_shared.
Import imageregistryv1 azure.

(** Where the object of [d.Config] comes from. *)
Inductive Sharing : Type :=
| Apart        (* an object of its own *)
| WithSpec     (* [d.Config == cr.Spec.Storage.Azure] *)
| WithStatus.  (* [d.Config == cr.Status.Storage.Azure] *)

(** The driver and the resource hold one value where they share the
    object. *)
Definition shared (s : Sharing) (d : driver) (cr : imageregistryv1.Config) : Prop :=
  match s with
  | Apart => True
  | WithSpec => imageregistryv1.Azure (Spec_Storage cr) = Config d
  | WithStatus => imageregistryv1.Azure (Status_Storage cr) = Config d
  end.

(** A write through [d.Config] that leaves [c] in the object: the driver
    holds [c], and so does the resource where it shares the object. *)
Definition write (s : Sharing) (c : ImageRegistryConfigStorageAzure)
    (d : driver) (cr : imageregistryv1.Config) : driver * imageregistryv1.Config :=
  (with_Config c d,
   match s with
   | Apart => cr
   | WithSpec => set_Spec_Azure c cr
   | WithStatus => set_Status_Azure c cr
   end).

(** [d.Config.CloudName] from the platform status, when neither a cloud
    nor an account is configured. *)
Definition resolve_CloudName (s : Sharing) (d : driver)
    (cr : imageregistryv1.Config) (infra : configv1.Infrastructure)
  : driver * imageregistryv1.Config :=
  if is_empty (CloudName (Config d)) && is_empty (AccountName (Config d)) then
    match configv1.Status_PlatformStatus infra with
    | Some platformStatus =>
        if String.eqb (configv1.Type_ platformStatus) configv1.AzurePlatformType then
          match configv1.Azure platformStatus with
          | Some az => write s (set_CloudName (configv1.CloudName az) (Config d)) d cr
          | None => (d, cr)
          end
        else (d, cr)
    | None => (d, cr)
    end
  else (d, cr).

Section Driver.
Context {W : Type} `{!World W}.

(** [CreateStorage], with [d.Config] shared as [s] says. The copies that
    it stores in the resource at the end are objects of their own; it
    writes nothing through [d.Config] after them, nor after the copy
    that [processUPI] stores. *)
Definition CreateStorage (s : Sharing) (d : driver) (cr : imageregistryv1.Config)
  : M (option error * driver * imageregistryv1.Config) :=
  r <- attempt GetConfig ;;
  match r with
  | Err err =>
      ret (Some err, d,
           UpdateCondition cr ConditionUnknown storageExistsReasonConfigError
             (Sprintf "Unable to get configuration: %s" [ArgError err]))
  | Ok cfg =>
  if negb (is_empty (AccountKey cfg)) then
    ret (None, d, processUPI d cr)
  else
  r <- call GetInfrastructure ;;
  match r with
  | Err err =>
      ret (Some err, d,
           UpdateCondition cr ConditionUnknown storageExistsReasonConfigError
             (Sprintf "Unable to get infrastructure: %s" [ArgError err]))
  | Ok infra =>
  let '(d, cr) := resolve_CloudName s d cr infra in
  r <- attempt (assureStorageAccount d cfg infra) ;;
  match r with
  | Err err =>
      ret (Some err, d,
           UpdateCondition cr ConditionUnknown storageExistsReasonAzureError
             (Sprintf "Unable to process storage account: %s" [ArgError err]))
  | Ok (storageAccountName, storageAccountCreated) =>
  let '(d, cr) := write s (set_AccountName storageAccountName (Config d)) d cr in
  r <- attempt (assureContainer d cfg) ;;
  match r with
  | Err err =>
      ret (Some err, d,
           UpdateCondition cr ConditionUnknown storageExistsReasonAzureError
             (Sprintf "Unable to process storage container: %s" [ArgError err]))
  | Ok (containerName, containerCreated) =>
  let '(d, cr) := write s (set_Container containerName (Config d)) d cr in
  let cr :=
    if is_empty (ManagementState (Spec_Storage cr)) then
      if storageAccountCreated || containerCreated
      then set_Spec_ManagementState StorageManagementStateManaged cr
      else set_Spec_ManagementState StorageManagementStateUnmanaged cr
    else cr in
  let cr := set_Spec_Azure (Config d) cr in
  let cr := set_Status_Storage (Config d) cr in
  ret (None, d,
       UpdateCondition cr ConditionTrue storageExistsReasonContainerExists
         (Literal "Storage container exists"))
  end end end end.

End Driver.
End azure_shared.

(** A provider in which the next fetch of an account key fails. *)
Definition Sim_key_fails : Sim.state :=
  Sim.with_faults [(KPrimaryKeyGet, OtherError "the request timed out")] Sim.empty.

(** * Properties *)

Import imageregistryv1 azure.

(** ** Strings *)

Module GoStringFacts.
Import GoString.

Lemma length_append (s1 s2 : string) :
  String.length (s1 +:+ s2) = (String.length s1 + String.length s2)%nat.
Proof. induction s1 as [|c s1 IH]; simpl; [reflexivity | now rewrite IH]. Qed.

Lemma length_map f (s : string) : String.length (map f s) = String.length s.
Proof. induction s as [|c s IH]; simpl; [reflexivity | now rewrite IH]. Qed.

Lemma length_take (n : nat) (s : string) :
  String.length (take n s) = Nat.min n (String.length s).
Proof.
  revert s; induction n as [|n IH]; intros [|c s]; simpl; try reflexivity.
  now rewrite IH.
Qed.

Lemma take_all (n : nat) (s : string) :
  (String.length s <= n)%nat -> take n s = s.
Proof.
  revert s; induction n as [|n IH]; intros [|c s]; simpl; intros Hl;
    try reflexivity; try lia.
  rewrite IH; [reflexivity | lia].
Qed.

Lemma filter_append p (s1 s2 : string) :
  filter p (s1 +:+ s2) = filter p s1 +:+ filter p s2.
Proof.
  induction s1 as [|c s1 IH]; simpl; [reflexivity|].
  destruct (p c); simpl; now rewrite IH.
Qed.

Lemma all_append p (s1 s2 : string) :
  all p (s1 +:+ s2) = all p s1 && all p s2.
Proof.
  induction s1 as [|c s1 IH]; simpl; [reflexivity|].
  rewrite IH. now rewrite andb_assoc.
Qed.

Lemma all_filter p (s : string) : all p (filter p s) = true.
Proof.
  induction s as [|c s IH]; simpl; [reflexivity|].
  destruct (p c) eqn:E; simpl; [now rewrite E | exact IH].
Qed.

Lemma all_take p (n : nat) (s : string) :
  all p s = true -> all p (take n s) = true.
Proof.
  revert s; induction n as [|n IH]; intros [|c s]; simpl; try reflexivity.
  intros [Hc Hs]%andb_prop. rewrite Hc. simpl. now apply IH.
Qed.

Lemma lower_char_alnum (c : ascii) :
  is_alnum c = true -> lower_alnum (lower_char c) = true.
Proof.
  destruct c as [[] [] [] [] [] [] [] []]; vm_compute; intros H;
    first [reflexivity | discriminate H].
Qed.

Lemma all_ToLower (s : string) :
  all is_alnum s = true -> all lower_alnum (ToLower s) = true.
Proof.
  induction s as [|c s IH]; simpl; [reflexivity|].
  intros [Hc Hs]%andb_prop. rewrite (lower_char_alnum c Hc). simpl. now apply IH.
Qed.

Lemma lower_alnum_alnum (c : ascii) : lower_alnum c = true -> is_alnum c = true.
Proof.
  unfold lower_alnum, is_alnum.
  destruct (is_digit c), (is_upper c), (is_lower c); simpl; auto.
Qed.

Lemma all_lower_alnum_alnum (s : string) :
  all lower_alnum s = true -> all is_alnum s = true.
Proof.
  induction s as [|c s IH]; simpl; [reflexivity|].
  intros [Hc Hs]%andb_prop. rewrite (lower_alnum_alnum c Hc). simpl. now apply IH.
Qed.

Lemma ToLower_nonempty (s1 s2 : string) :
  is_empty (ToLower (("imageregistry" +:+ s1) +:+ s2)) = false.
Proof. reflexivity. Qed.

End GoStringFacts.

(** ** The naming strategy *)

Section Naming.
Context {W : Type} `{!World W}.
Import GoString GoStringFacts.

(** The prefix that [generateAccountName] keeps is the one of the
    specification: stripping the identifier and then putting the fixed
    prefix in front is stripping both. *)
Lemma prefix_as_specified (infrastructureName : string) :
  let prefix := "imageregistry" +:+ storageAccountInvalidCharRe_strip infrastructureName in
  (if (24 - 5 <? String.length prefix)%nat then take (24 - 5) prefix else prefix)
  = take (24 - 5)
      (storageAccountInvalidCharRe_strip ("imageregistry" +:+ infrastructureName)).
Proof.
  intros prefix. unfold storageAccountInvalidCharRe_strip.
  rewrite filter_append.
  change (filter is_alnum "imageregistry") with "imageregistry".
  fold prefix.
  destruct (24 - 5 <? String.length prefix)%nat eqn:E; [reflexivity|].
  apply Nat.ltb_ge in E. symmetry. now apply take_all.
Qed.

Lemma generateAccountName_run (infrastructureName : string) (w : W) :
  generateAccountName infrastructureName w
  = (Ok (generated_name_spec infrastructureName (perform (RandString 5) w).1),
     (perform (RandString 5) w).2,
     [Ev (RandString 5) (perform (RandString 5) w).1]).
Proof.
  unfold generateAccountName, generated_name_spec, bind, call, ret.
  destruct (perform (RandString 5) w) as [suffix w'].
  cbv beta iota zeta. rewrite prefix_as_specified. reflexivity.
Qed.

Lemma generated_name_valid (infrastructureName suffix : string) :
  valid_suffix suffix ->
  valid_account_name (generated_name_spec infrastructureName suffix).
Proof.
  intros [Hlen Hall]. unfold valid_account_name, generated_name_spec.
  set (stripped := storageAccountInvalidCharRe_strip
                     ("imageregistry" +:+ infrastructureName)).
  assert (Hs : (13 <= String.length stripped)%nat).
  { unfold stripped, storageAccountInvalidCharRe_strip.
    rewrite filter_append, length_append.
    change (String.length (filter is_alnum "imageregistry")) with 13%nat. lia. }
  split.
  - unfold ToLower. rewrite length_map, length_append, length_take, Hlen.
    change (24 - 5)%nat with 19%nat. lia.
  - apply all_ToLower. rewrite all_append.
    apply andb_true_intro; split.
    + apply all_take. apply all_filter.
    + now apply all_lower_alnum_alnum.
Qed.

(** C7. For every infrastructure identifier, when [rand.String(5)]
    returns five characters that are lower-case letters or digits,
    [generateAccountName] returns a name of 3 to 24 characters, all of
    them lower-case letters or digits, and this name is the one the
    specification describes: the characters outside of [0-9A-Za-z]
    stripped from the fixed prefix followed by the identifier, the
    result cut to leave room for the suffix, the suffix appended, the
    whole put in lower case. *)
Theorem generateAccountName_valid (infrastructureName : string) (w : W) :
  valid_suffix (perform (RandString 5) w).1 ->
  exists name : string,
    (generateAccountName infrastructureName w).1.1 = Ok name /\
    name = generated_name_spec infrastructureName (perform (RandString 5) w).1 /\
    valid_account_name name.
Proof.
  intros Hsuffix. rewrite generateAccountName_run. simpl.
  eexists; split; [reflexivity|]. split; [reflexivity|].
  now apply generated_name_valid.
Qed.

End Naming.

Lemma generateAccountName_valid_witness :
  exists name : string,
    (generateAccountName "Ci-LN_x7" Sim.empty).1.1 = Ok name /\
    name = generated_name_spec "Ci-LN_x7" (perform (RandString 5) Sim.empty).1 /\
    valid_account_name name.
Proof.
  apply (generateAccountName_valid "Ci-LN_x7" Sim.empty).
  split; reflexivity.
Defined.

(** ** Running the driver symbolically

    [step] splits on the reply of the next call; [observe] computes what a
    trace shows, without touching the arguments of the calls. *)

Ltac unfold_driver :=
  unfold assureStorageAccount, assureContainer, getEnvironmentByName,
    storageAccountsClient, new_authorizer, accountExists,
    createStorageAccount, privateEndpointsClient, privateZonesClient,
    recordSetsClient, privateZoneGroupsClient, vnetLinksClient,
    interfacesClient, armClient, createPrivateEndpoint, createPrivateDNSZone,
    createRecordSet, createPrivateDNSZoneGroup, createVirtualNetworkLink,
    getAccountPrimaryKey, containerExists, createStorageContainer,
    deleteStorageContainer, getStorageContainer, getBlobServiceURL,
    GetConfig, getKey,
    try, or_fail, await, attempt, call, bind, ret, fail.

Ltac red1 := cbv beta iota zeta delta [negb andb orb fst snd id].

Ltac split_reply r :=
  lazymatch type of r with
  | res bool => destruct r as [[|]|]
  | res _ => destruct r
  | poller _ => destruct r
  | future => destruct r
  | _ => idtac
  end.

Ltac step :=
  match goal with
  | |- context [generateAccountName ?i ?w] =>
      rewrite (generateAccountName_run i w); red1
  | |- context [perform ?c ?w] =>
      let r := fresh "r" in
      let w' := fresh "w" in
      destruct (perform c w) as [r w']; split_reply r; red1
  | |- context [match pe_NetworkInterfaces ?x with _ => _ end] =>
      destruct (pe_NetworkInterfaces x); red1
  | |- context [match nic_IPConfigurations ?x with _ => _ end] =>
      destruct (nic_IPConfigurations x); red1
  | |- context [match ?x with _ => _ end] => is_var x; destruct x; red1
  | |- context [if IsNotFound ?x then _ else _] => destruct (IsNotFound x); red1
  | |- context [if (?x =? 404)%Z then _ else _] =>
      destruct (x =? 404)%Z eqn:?; red1
  | |- context [if String.eqb ?x ?y then _ else _] =>
      destruct (String.eqb x y) eqn:?; red1
  | |- context [if is_empty ?x then _ else _] => destruct (is_empty x) eqn:?; red1
  end.

Ltac observe :=
  lazy beta iota zeta delta
    [assureStorageAccount_summary probes requests requests_ok kinds kinds_ok
     failures taken_names present_containers missing_containers
     generated_names account_deletes subchain_issued subchain_done
     ev_kind ev_ok ev_probe ev_failure ev_taken ev_present ev_missing
     ev_generated ev_account_delete reply_error call_kind reply_ok is_ok
     List.map List.filter filter_map app fst snd is_request is_subchain
     is_delete prefix_of kinds_eqb kind_eqb kind_code Nat.eqb andb orb negb
     assureStorageAccount_order subchain_order created List.hd_error List.tl
     In returned has_kind List.existsb List.forallb
     assureContainer_summary].

Section AssureStorageAccount.
Context {W : Type} `{!World W}.

Lemma assureStorageAccount_runs (d : driver) (cfg : Azure)
    (infra : configv1.Infrastructure) (w : W) :
  assureStorageAccount_summary d infra (assureStorageAccount d cfg infra w).
Proof.
  unfold_driver.
  destruct (is_empty (CloudName (Config d)));
    destruct (authorizer d);
    destruct (is_empty (AccountName (Config d))) eqn:HA;
    red1.
  all: repeat step.
  all: observe; rewrite ?HA.
  all: repeat split; try discriminate; try reflexivity;
    try (simplify_eq; auto; fail);
    try (right; reflexivity); try (left; reflexivity);
    try (eexists; reflexivity).
Qed.

End AssureStorageAccount.

(** ** Lists of kinds *)

Lemma kind_eqb_eq (a b : Kind) : kind_eqb a b = true <-> a = b.
Proof.
  split; [|intros ->; destruct b; reflexivity].
  destruct a, b; first [reflexivity | discriminate].
Qed.



Lemma prefix_of_In (l full : list Kind) (k : Kind) :
  prefix_of l full = true -> In k l -> In k full.
Proof.
  revert full; induction l as [|x l IH]; intros full; simpl; [tauto|].
  destruct full as [|y full]; [discriminate|].
  intros [Hxy Hl]%andb_prop [-> | Hin].
  - apply kind_eqb_eq in Hxy. left. now symmetry.
  - right. now apply IH.
Qed.

Lemma In_requests (t : list Event) (k : Kind) :
  In k (kinds t) -> k <> KLocal -> In k (requests t).
Proof.
  intros Hin Hk. unfold requests. apply List.filter_In. split; [exact Hin|].
  destruct k; first [reflexivity | contradiction].
Qed.

(** ** The storage account *)

Section AssureStorageAccountClaims.
Context {W : Type} `{!World W}.

(** C1. Whatever the configuration: when the name-availability probe
    reports the name unavailable, [assureStorageAccount] issues no
    request but the probe, so it attempts no account creation; if the
    name was supplied by the user (the configured account name is not
    empty), the call returns that name with [created = false] and no
    error; if the name was generated by the naming strategy, the call
    fails with an error. *)
Theorem assureStorageAccount_name_unavailable (d : driver) (cfg : Azure)
    (infra : configv1.Infrastructure) (w : W) (n : string) :
  probes (assureStorageAccount d cfg infra w).2 = [(n, Ok false)] ->
  requests (assureStorageAccount d cfg infra w).2 = [KCheckNameAvailability] /\
  ~ In KAccountsCreate (kinds (assureStorageAccount d cfg infra w).2) /\
  (is_empty (AccountName (Config d)) = false ->
     n = AccountName (Config d) /\
     returned (assureStorageAccount d cfg infra w)
     = (AccountName (Config d), false, None)) /\
  (is_empty (AccountName (Config d)) = true ->
     (exists suffix,
         n = generated_name_spec (configv1.InfrastructureName infra) suffix) /\
     returned (assureStorageAccount d cfg infra w)
     = ("", false,
        Some (Errorf "create storage account failed, name not available" []))).
Proof.
  intros Hprobe.
  destruct (assureStorageAccount_runs d cfg infra w) as (_ & _ & _ & _ & _ & Hcase).
  rewrite Hprobe in Hcase. destruct Hcase as (Hname & Hreq & Hres).
  split; [exact Hreq|]. split.
  - intros Hin. apply In_requests in Hin; [|discriminate].
    rewrite Hreq in Hin. destruct Hin as [[=]|[]].
  - unfold returned. rewrite Hres. split; intros HA; rewrite HA in *.
    + subst n. split; reflexivity.
    + split; [exact Hname | reflexivity].
Qed.


End AssureStorageAccountClaims.

Lemma assureStorageAccount_name_unavailable_witness :
  let out :=
    assureStorageAccount (Sim.driver_of "acct1" "c1") Sim.cfg Sim.infrastructure
      (Sim.having ["acct1"] []) in
  requests out.2 = [KCheckNameAvailability] /\
  ~ In KAccountsCreate (kinds out.2) /\
  (is_empty "acct1" = false ->
     "acct1" = "acct1" /\ returned out = ("acct1", false, None)) /\
  (is_empty "acct1" = true ->
     (exists suffix, "acct1" = generated_name_spec "ci-ln-x7" suffix) /\
     returned out
     = ("", false,
        Some (Errorf "create storage account failed, name not available" []))).
Proof.
  apply (assureStorageAccount_name_unavailable
           (Sim.driver_of "acct1" "c1") Sim.cfg Sim.infrastructure
           (Sim.having ["acct1"] []) "acct1").
  reflexivity.
Defined.

(** ** Teardown *)

Ltac unfold_RemoveStorage :=
  unfold RemoveStorage, deleteAccount; unfold_driver.

Section RemoveStorageClaims.
Context {W : Type} `{!World W}.

(** C9. Whenever the management state is not [Managed], or the recorded
    account name is empty, [RemoveStorage] returns [retry = false] and no
    error, makes no call at all (so no provider delete), and leaves the
    driver's configuration and the resource's [Spec.Storage] and
    [Status.Storage], with the names in them, as they were. When the
    management state is not [Managed] the resource is untouched; when it
    is [Managed] and the account name empty, the only change is the
    condition (False, StorageNotConfigured). *)
Theorem RemoveStorage_noop (d : driver) (cr : imageregistryv1.Config) (w : W) :
  ManagementState (Spec_Storage cr) <> StorageManagementStateManaged \/
  AccountName (Config d) = "" ->
  exists cr',
    RemoveStorage d cr w = (Ok (false, None, d, cr'), w, []) /\
    Spec_Storage cr' = Spec_Storage cr /\
    Status_Storage cr' = Status_Storage cr /\
    (ManagementState (Spec_Storage cr) <> StorageManagementStateManaged -> cr' = cr) /\
    (ManagementState (Spec_Storage cr) = StorageManagementStateManaged ->
     cr' = UpdateCondition cr ConditionFalse storageExistsReasonNotConfigured
             (Literal "Storage is not configured")).
Proof.
  intros Hnoop. unfold RemoveStorage.
  destruct (String.eqb (ManagementState (Spec_Storage cr)) StorageManagementStateManaged)
    eqn:Hstate.
  - apply String.eqb_eq in Hstate.
    destruct Hnoop as [Hne | Hempty]; [contradiction|].
    rewrite Hempty. red1. unfold ret.
    eexists. split; [reflexivity|].
    split; [reflexivity|]. split; [reflexivity|].
    split; [intros Hne; contradiction | intros _; reflexivity].
  - apply String.eqb_neq in Hstate. red1. unfold ret.
    exists cr. split; [reflexivity|].
    split; [reflexivity|]. split; [reflexivity|].
    split; [intros _; reflexivity | intros He; contradiction].
Qed.

(** Every run of [RemoveStorage], by cases on the replies. *)
Lemma RemoveStorage_runs (d : driver) (cr : imageregistryv1.Config) (w : W) :
  RemoveStorage_summary d cr (RemoveStorage d cr w).
Proof.
  unfold_RemoveStorage.
  destruct (String.eqb (ManagementState (Spec_Storage cr)) StorageManagementStateManaged)
    eqn:Hstate; red1.
  2: { unfold RemoveStorage_summary. rewrite Hstate. observe.
       repeat split; try discriminate; auto.
       unfold updates_written.
       exists (false, None, d), cr. split; [reflexivity|].
       symmetry. apply app_nil_r. }
  destruct (is_empty (AccountName (Config d))) eqn:HA; red1.
  1: { unfold RemoveStorage_summary. rewrite Hstate. observe.
       repeat split; try discriminate; auto; try congruence.
       unfold writes_exactly_one, updates_written.
       eexists. eexists _, _. split; reflexivity. }
  destruct (is_empty (Container (Config d))) eqn:HC;
    destruct (is_empty (CloudName (Config d))); destruct (authorizer d); red1.
  all: repeat step.
  all: unfold RemoveStorage_summary; rewrite Hstate, ?HC, ?HA; observe.
  all: split; [intros ? Hgone; simplify_eq; eauto|].
  all: split; [intros ? Hdel Hfail; try discriminate Hdel; simplify_eq; auto|].
  all: split;
    [intros Hnone; try discriminate Hnone;
     (split; [first [left; reflexivity | right; split; reflexivity]
             |intros _ _; first [left; reflexivity | right; eauto]])|].
  all: unfold writes_exactly_one, updates_written; cbn [fst snd].
  all: eexists; eexists _, _; split; [reflexivity|].
  all: cbn [Conditions UpdateCondition clear_Container clear_AccountName
            set_Status_Azure set_Spec_Azure];
    rewrite <- ?app_assoc; reflexivity.
Qed.

(** How [RemoveStorage] goes on a driver that records no container: it
    never asks for the account key and never deletes a container; its
    only request, if it gets that far, is the deletion of the recorded
    account. *)
Lemma RemoveStorage_without_container (d : driver)
    (cr : imageregistryv1.Config) (w : W) :
  is_empty (Container (Config d)) = true ->
  let out := RemoveStorage d cr w in
  (requests out.2 = [] \/
   requests out.2 = [KAccountsDelete] /\
   account_deletes out.2 = [AccountName (Config d)]) /\
  (ManagementState (Spec_Storage cr) = StorageManagementStateManaged ->
   is_empty (AccountName (Config d)) = false ->
   requests out.2 = [KAccountsDelete] \/
   exists retry e d' cr', out.1.1 = Ok (retry, Some e, d', cr')).
Proof.
  intros Hc out. subst out.
  destruct (RemoveStorage_runs d cr w) as (_ & _ & H & _).
  destruct (H Hc) as [Hshape Hretry]. split; [exact Hshape|].
  intros Hstate. apply Hretry. now apply String.eqb_eq.
Qed.

(** C2, as the code has it. When the account-key fetch of
    [RemoveStorage] fails with a not-found error (a detailed error of
    status 404), the recorded container name is not empty, and the call
    clears the recorded account name, in the driver's configuration and
    in the resource's spec and status, leaves the recorded container name
    as it was in all three, writes the one condition
    (False, ContainerNotFound), and returns [retry = false] and no error;
    its only request is the key fetch, so it attempts no container and no
    account delete. *)
Theorem RemoveStorage_account_not_found (d : driver)
    (cr : imageregistryv1.Config) (w : W) (text : string) :
  failures (RemoveStorage d cr w).2 = [(KPrimaryKeyGet, DetailedError 404 text)] ->
  exists d' cr' u,
    (RemoveStorage d cr w).1.1 = Ok (false, None, d', cr') /\
    AccountName (Config d') = "" /\
    AccountName (imageregistryv1.Azure (Spec_Storage cr')) = "" /\
    AccountName (imageregistryv1.Azure (Status_Storage cr')) = "" /\
    Container (Config d') = Container (Config d) /\
    Container (imageregistryv1.Azure (Spec_Storage cr'))
    = Container (imageregistryv1.Azure (Spec_Storage cr)) /\
    Container (imageregistryv1.Azure (Status_Storage cr'))
    = Container (imageregistryv1.Azure (Status_Storage cr)) /\
    is_empty (Container (Config d)) = false /\
    Conditions cr' = Conditions cr ++ [u] /\
    Status u = ConditionFalse /\
    Reason u = storageExistsReasonContainerNotFound /\
    requests (RemoveStorage d cr w).2 = [KPrimaryKeyGet].
Proof.
  intros H.
  destruct (RemoveStorage_runs d cr w) as (Hgone & _).
  destruct (Hgone text H) as ([err Hres] & Hreq & HC).
  do 3 eexists. split; [exact Hres|].
  do 7 (split; [first [reflexivity | assumption]|]).
  split; [reflexivity|]. split; [reflexivity|]. split; [reflexivity | exact Hreq].
Qed.

(** The first half of C10: what the failing call returns and leaves. *)
Lemma RemoveStorage_account_delete_fails_run (d : driver)
    (cr : imageregistryv1.Config) (w : W) (e : error) :
  has_kind KContainerDelete (requests_ok (RemoveStorage d cr w).2) = true ->
  failures (RemoveStorage d cr w).2 = [(KAccountsDelete, e)] ->
  (RemoveStorage d cr w).1.1
  = Ok (false, Some e, with_Config (set_Container "" (Config d)) d,
        UpdateCondition
          (UpdateCondition (clear_Container cr) ConditionFalse
             storageExistsReasonContainerDeleted
             (Literal "Storage container has been deleted"))
          ConditionFalse storageExistsReasonAzureError
          (Sprintf "Unable to delete storage account: %s" [ArgError e])) /\
  ManagementState (Spec_Storage cr) = StorageManagementStateManaged /\
  is_empty (AccountName (Config d)) = false.
Proof.
  intros H1 H2.
  destruct (RemoveStorage_runs d cr w) as (_ & Hfails & _).
  destruct (Hfails e H1 H2) as (Hres & Hstate & HA).
  split; [exact Hres|]. split; [now apply String.eqb_eq | exact HA].
Qed.

(** C10. When, in [RemoveStorage], the container delete succeeds and
    the storage-account delete that follows fails, the call returns the
    error of the account delete, with the container name cleared in the
    driver's configuration and in the resource's spec and status, the
    condition ContainerDeleted written (and after it the condition of the
    failure), and the account name still recorded in all three: nothing
    that was cleared is put back. A later call on what this one leaves,
    in any world, skips the container branch (no key fetch, no container
    delete): either it requests the deletion of that same account and
    nothing else, or it fails, with an error, before any request. *)
Theorem RemoveStorage_account_delete_fails (d : driver)
    (cr : imageregistryv1.Config) (w : W) (e : error) :
  has_kind KContainerDelete (requests_ok (RemoveStorage d cr w).2) = true ->
  failures (RemoveStorage d cr w).2 = [(KAccountsDelete, e)] ->
  exists d' cr' u,
    (RemoveStorage d cr w).1.1 = Ok (false, Some e, d', cr') /\
    Container (Config d') = "" /\
    Container (imageregistryv1.Azure (Spec_Storage cr')) = "" /\
    Container (imageregistryv1.Azure (Status_Storage cr')) = "" /\
    AccountName (Config d') = AccountName (Config d) /\
    AccountName (imageregistryv1.Azure (Spec_Storage cr'))
    = AccountName (imageregistryv1.Azure (Spec_Storage cr)) /\
    AccountName (imageregistryv1.Azure (Status_Storage cr'))
    = AccountName (imageregistryv1.Azure (Status_Storage cr)) /\
    is_empty (AccountName (Config d)) = false /\
    Conditions cr' = Conditions cr ++ [container_deleted; u] /\
    (forall w2 : W,
        let again := RemoveStorage d' cr' w2 in
        ~ In KPrimaryKeyGet (kinds again.2) /\
        ~ In KContainerDelete (kinds again.2) /\
        (requests again.2 = [KAccountsDelete] /\
         account_deletes again.2 = [AccountName (Config d)] \/
         requests again.2 = [] /\
         exists retry e2 d2 cr2, again.1.1 = Ok (retry, Some e2, d2, cr2))).
Proof.
  intros H1 H2.
  destruct (RemoveStorage_account_delete_fails_run d cr w e H1 H2)
    as (Hres & Hstate & HA).
  do 3 eexists. split; [exact Hres|].
  do 7 (split; [first [reflexivity | assumption]|]).
  split; [simpl; rewrite <- app_assoc; reflexivity|].
  intros w2 again. subst again.
  match goal with |- context [RemoveStorage ?d' ?cr' w2] =>
    destruct (RemoveStorage_without_container d' cr' w2 eq_refl) as [Hshape Hretry]
  end.
  specialize (Hretry Hstate HA).
  set (again := RemoveStorage _ _ w2) in *.
  assert (Hnot : forall k, k <> KLocal -> k <> KAccountsDelete -> ~ In k (kinds again.2)).
  { intros k Hk1 Hk2 Hin. apply In_requests in Hin; [|exact Hk1].
    destruct Hshape as [Hr | [Hr _]]; rewrite Hr in Hin.
    - destruct Hin.
    - destruct Hin as [Heq | []]. now symmetry in Heq. }
  split; [apply Hnot; discriminate|]. split; [apply Hnot; discriminate|].
  destruct Hshape as [Hr | [Hr Hd]].
  - right. split; [exact Hr|].
    destruct Hretry as [Hr' | Herr]; [rewrite Hr in Hr'; discriminate | exact Herr].
  - left. split; [exact Hr | exact Hd].
Qed.

End RemoveStorageClaims.

(** ** Condition updates *)

Ltac step_whole :=
  match goal with
  | |- context [GetConfig ?w] =>
      destruct (GetConfig w) as [[[?|?] ?] ?]; red1
  | |- context [assureStorageAccount ?d ?c ?i ?w] =>
      destruct (assureStorageAccount d c i w) as [[[[? ?]|?] ?] ?]; red1
  | |- context [assureContainer ?d ?c ?w] =>
      destruct (assureContainer d c w) as [[[[? ?]|?] ?] ?]; red1
  | |- context [getEnvironmentByName ?n ?w] =>
      destruct (getEnvironmentByName n w) as [[[?|?] ?] ?]; red1
  | |- context [getKey ?d ?c ?e ?w] =>
      destruct (getKey d c e w) as [[[?|?] ?] ?]; red1
  | |- context [containerExists ?e ?a ?k ?c ?w] =>
      destruct (containerExists e a k c w) as [[[[|]|?] ?] ?]; red1
  | |- context [perform ?c ?w] =>
      let r := fresh "r" in
      let w' := fresh "w" in
      destruct (perform c w) as [r w']; split_reply r; red1
  | |- context [if ?b then _ else _] => destruct b eqn:?; red1
  end.

Ltac one_update :=
  unfold writes_exactly_one, updates_written; cbn [fst snd];
  eexists; eexists _, _; split; [reflexivity|];
  cbn [Conditions UpdateCondition set_Status_Storage set_Spec_Azure
       set_Spec_ManagementState];
  reflexivity.

Section ConditionUpdates.
Context {W : Type} `{!World W}.

Lemma CreateStorage_writes_one (d : driver) (cr : imageregistryv1.Config) (w : W) :
  writes_exactly_one cr (CreateStorage d cr w).
Proof.
  unfold CreateStorage, processUPI, attempt, bind, call, ret.
  repeat step_whole.
  all: one_update.
Qed.

Lemma StorageExists_writes_one (d : driver) (cr : imageregistryv1.Config) (w : W) :
  writes_exactly_one cr (StorageExists d cr w).
Proof.
  unfold StorageExists, attempt, bind, call, ret.
  repeat step_whole.
  all: one_update.
Qed.

(** C3, as the code has it. Every call to [CreateStorage] and every
    call to [StorageExists] writes exactly one condition update, whatever
    the outcome. A call to [RemoveStorage] writes none when the
    management state is not [Managed]; when it is [Managed], the call
    writes exactly one update unless its container delete succeeded, and
    then it writes two: ContainerDeleted, and after it the outcome of the
    account delete. *)
Theorem condition_updates_per_call (d : driver) (cr : imageregistryv1.Config)
    (w : W) :
  writes_exactly_one cr (CreateStorage d cr w) /\
  writes_exactly_one cr (StorageExists d cr w) /\
  (ManagementState (Spec_Storage cr) <> StorageManagementStateManaged ->
   updates_written cr (RemoveStorage d cr w) []) /\
  (ManagementState (Spec_Storage cr) = StorageManagementStateManaged ->
   has_kind KContainerDelete (requests_ok (RemoveStorage d cr w).2) = false ->
   writes_exactly_one cr (RemoveStorage d cr w)) /\
  (ManagementState (Spec_Storage cr) = StorageManagementStateManaged ->
   has_kind KContainerDelete (requests_ok (RemoveStorage d cr w).2) = true ->
   exists u, updates_written cr (RemoveStorage d cr w) [container_deleted; u]).
Proof.
  split; [apply CreateStorage_writes_one|].
  split; [apply StorageExists_writes_one|].
  destruct (RemoveStorage_runs d cr w) as (_ & _ & _ & Hwrites).
  split; [|split].
  - intros Hstate. apply String.eqb_neq in Hstate. now rewrite Hstate in Hwrites.
  - intros Hstate Hdel. apply String.eqb_eq in Hstate.
    now rewrite Hstate, Hdel in Hwrites.
  - intros Hstate Hdel. apply String.eqb_eq in Hstate.
    now rewrite Hstate, Hdel in Hwrites.
Qed.

End ConditionUpdates.

(** C3 as stated does not hold: on a resource that is not [Managed],
    [RemoveStorage] writes no update; and a teardown that deletes the
    container and the account writes two. *)
Lemma one_update_per_call_counterexample :
  ~ one_update_per_call (Sim.driver_of "acct1" "c1")
      (Sim.resource "Unmanaged" "acct1" "c1") (Sim.having ["acct1"] [("acct1", "c1")]) /\
  ~ one_update_per_call (Sim.driver_of "acct1" "c1")
      (Sim.resource "Managed" "acct1" "c1") (Sim.having ["acct1"] [("acct1", "c1")]).
Proof.
  split.
  - intros (_ & (u & a & cr' & Hres & Hc) & _).
    vm_compute in Hres. injection Hres as _ <-. discriminate Hc.
  - intros (_ & (u & a & cr' & Hres & Hc) & _).
    vm_compute in Hres. injection Hres as _ <-. discriminate Hc.
Qed.

(** ** User-managed storage *)

Section UserManaged.
Context {W : Type} `{!World W}.

Lemma GetConfig_local (w : W) : requests (GetConfig w).2 = [].
Proof. unfold_driver. repeat step; reflexivity. Qed.

(** C6. Whenever the configuration that [GetConfig] resolves holds a
    non-empty account key, [CreateStorage] makes no provider request (so
    creates neither account nor container), leaves the driver as it was
    and returns no error. If the configured account name or container
    name is empty, it writes the one condition
    (False, StorageNotConfigured) and changes nothing else. Otherwise it
    sets the management state to [Unmanaged] if it was unset, and leaves
    it as it was if not, and writes the one condition
    (True, UserManaged). *)
Theorem CreateStorage_user_managed (d : driver) (cr : imageregistryv1.Config)
    (w : W) (cfg : Azure) (w1 : W) (t1 : list Event) :
  GetConfig w = (Ok cfg, w1, t1) ->
  is_empty (AccountKey cfg) = false ->
  exists cr' u,
    CreateStorage d cr w = (Ok (None, d, cr'), w1, t1) /\
    requests t1 = [] /\
    Conditions cr' = Conditions cr ++ [u] /\
    (is_empty (AccountName (Config d)) || is_empty (Container (Config d)) = true ->
     Status u = ConditionFalse /\
     Reason u = storageExistsReasonNotConfigured /\
     Spec_Storage cr' = Spec_Storage cr /\
     Status_Storage cr' = Status_Storage cr) /\
    (is_empty (AccountName (Config d)) || is_empty (Container (Config d)) = false ->
     Status u = ConditionTrue /\
     Reason u = storageExistsReasonUserManaged /\
     ManagementState (Spec_Storage cr')
     = (if is_empty (ManagementState (Spec_Storage cr))
        then StorageManagementStateUnmanaged
        else ManagementState (Spec_Storage cr)) /\
     imageregistryv1.Azure (Spec_Storage cr') = imageregistryv1.Azure (Spec_Storage cr)).
Proof.
  intros Hcfg Hkey.
  assert (Hlocal : requests t1 = []).
  { pose proof (GetConfig_local w) as H. now rewrite Hcfg in H. }
  unfold CreateStorage, attempt, bind, ret. rewrite Hcfg. red1. rewrite Hkey. red1.
  unfold processUPI.
  destruct (is_empty (AccountName (Config d))); red1;
    [|destruct (is_empty (Container (Config d))); red1].
  1, 2: do 2 eexists; rewrite app_nil_r;
    (split; [reflexivity|]); (split; [exact Hlocal|]); (split; [reflexivity|]);
    (split; [intros _; repeat split | discriminate]).
  destruct (is_empty (ManagementState (Spec_Storage cr))).
  all: do 2 eexists; rewrite app_nil_r;
    (split; [reflexivity|]); (split; [exact Hlocal|]); (split; [reflexivity|]);
    (split; [discriminate|]); intros _; repeat split.
Qed.

End UserManaged.

Lemma CreateStorage_user_managed_witness :
  exists cr' u,
    CreateStorage (Sim.driver_of "acct1" "c1") (Sim.resource "" "acct1" "c1")
      Sim_user_managed
    = (Ok (None, Sim.driver_of "acct1" "c1", cr'), Sim_user_managed,
       [Ev (SecretsGet ImageRegistryPrivateConfigurationUser) (Ok (Sim.user_secret "a2V5"));
        Ev (GetValueFromSecret (Sim.user_secret "a2V5") "REGISTRY_STORAGE_AZURE_ACCOUNTKEY")
          (Ok "a2V5")]) /\
    Status u = ConditionTrue /\ Reason u = storageExistsReasonUserManaged /\
    ManagementState (Spec_Storage cr') = StorageManagementStateUnmanaged.
Proof.
  assert (Hcfg : GetConfig Sim_user_managed
                 = (Ok {| SubscriptionID := ""; ClientID := ""; ClientSecret := "";
                          TenantID := ""; ResourceGroup := ""; Region := "";
                          AccountKey := "a2V5" |},
                    Sim_user_managed,
                    [Ev (SecretsGet ImageRegistryPrivateConfigurationUser)
                       (Ok (Sim.user_secret "a2V5"));
                     Ev (GetValueFromSecret (Sim.user_secret "a2V5")
                           "REGISTRY_STORAGE_AZURE_ACCOUNTKEY") (Ok "a2V5")]))
    by (vm_compute; reflexivity).
  destruct (CreateStorage_user_managed
              (Sim.driver_of "acct1" "c1") (Sim.resource "" "acct1" "c1")
              _ _ _ _ Hcfg eq_refl)
    as (cr' & u & Hrun & _ & _ & _ & Hmanaged).
  exists cr', u. split; [exact Hrun|].
  destruct (Hmanaged eq_refl) as (Hs & Hr & Hm & _).
  split; [exact Hs|]. split; [exact Hr | exact Hm].
Defined.

(** ** Teardown on the provider in memory *)

(** C2 as stated does not hold: the account [acct1] is gone, the key fetch
    reports not-found, and the container name [c1] stays recorded, in the
    driver's configuration (so the claim fails) and in the resource's
    spec and status. *)
Lemma RemoveStorage_clears_both_names_counterexample :
  ~ RemoveStorage_clears_both_names (Sim.driver_of "acct1" "c1")
      (Sim.resource "Managed" "acct1" "c1") Sim.empty /\
  match (RemoveStorage (Sim.driver_of "acct1" "c1")
           (Sim.resource "Managed" "acct1" "c1") Sim.empty).1.1 with
  | Ok (_, _, d', cr') =>
      Container (Config d') = "c1" /\
      Container (imageregistryv1.Azure (Spec_Storage cr')) = "c1" /\
      Container (imageregistryv1.Azure (Status_Storage cr')) = "c1"
  | Err _ => False
  end.
Proof.
  split.
  - intros H.
    assert (Hf : failures (RemoveStorage (Sim.driver_of "acct1" "c1")
                             (Sim.resource "Managed" "acct1" "c1") Sim.empty).2
                 = [(KPrimaryKeyGet, DetailedError 404 "ResourceNotFound")])
      by (vm_compute; reflexivity).
    destruct (H _ Hf eq_refl) as (d' & cr' & u & Hres & Hc & _).
    vm_compute in Hres. injection Hres as <- _. discriminate Hc.
  - vm_compute. repeat split.
Qed.

Lemma RemoveStorage_account_not_found_witness :
  exists d' cr' u,
    (RemoveStorage (Sim.driver_of "acct1" "c1")
       (Sim.resource "Managed" "acct1" "c1") Sim.empty).1.1
    = Ok (false, None, d', cr') /\
    AccountName (Config d') = "" /\
    AccountName (imageregistryv1.Azure (Spec_Storage cr')) = "" /\
    AccountName (imageregistryv1.Azure (Status_Storage cr')) = "" /\
    Container (Config d') = "c1" /\
    Container (imageregistryv1.Azure (Spec_Storage cr')) = "c1" /\
    Container (imageregistryv1.Azure (Status_Storage cr')) = "c1" /\
    is_empty "c1" = false /\
    Conditions cr' = [] ++ [u] /\
    Status u = ConditionFalse /\
    Reason u = storageExistsReasonContainerNotFound /\
    requests (RemoveStorage (Sim.driver_of "acct1" "c1")
                (Sim.resource "Managed" "acct1" "c1") Sim.empty).2
    = [KPrimaryKeyGet].
Proof.
  apply (RemoveStorage_account_not_found (Sim.driver_of "acct1" "c1")
           (Sim.resource "Managed" "acct1" "c1") Sim.empty "ResourceNotFound").
  vm_compute. reflexivity.
Defined.

Lemma RemoveStorage_noop_witness :
  exists cr',
    RemoveStorage (Sim.driver_of "acct1" "c1") (Sim.resource "Unmanaged" "acct1" "c1")
      (Sim.having ["acct1"] [("acct1", "c1")])
    = (Ok (false, None, Sim.driver_of "acct1" "c1", cr'),
       Sim.having ["acct1"] [("acct1", "c1")], []) /\
    Spec_Storage cr' = Spec_Storage (Sim.resource "Unmanaged" "acct1" "c1") /\
    Status_Storage cr' = Status_Storage (Sim.resource "Unmanaged" "acct1" "c1") /\
    ("Unmanaged" <> StorageManagementStateManaged ->
     cr' = Sim.resource "Unmanaged" "acct1" "c1") /\
    ("Unmanaged" = StorageManagementStateManaged ->
     cr' = UpdateCondition (Sim.resource "Unmanaged" "acct1" "c1") ConditionFalse
             storageExistsReasonNotConfigured (Literal "Storage is not configured")).
Proof.
  apply (RemoveStorage_noop (Sim.driver_of "acct1" "c1")
           (Sim.resource "Unmanaged" "acct1" "c1")
           (Sim.having ["acct1"] [("acct1", "c1")])).
  left. simpl. discriminate.
Defined.

Lemma RemoveStorage_account_delete_fails_witness :
  exists d' cr' u,
    (RemoveStorage (Sim.driver_of "acct1" "c1")
       (Sim.resource "Managed" "acct1" "c1") Sim_delete_fails).1.1
    = Ok (false, Some (OtherError "the account is locked"), d', cr') /\
    Container (Config d') = "" /\
    AccountName (Config d') = "acct1" /\
    Conditions cr' = [container_deleted; u] /\
    (forall w2 : Sim.state,
        ~ In KPrimaryKeyGet (kinds (RemoveStorage d' cr' w2).2) /\
        ~ In KContainerDelete (kinds (RemoveStorage d' cr' w2).2)).
Proof.
  destruct (RemoveStorage_account_delete_fails (Sim.driver_of "acct1" "c1")
              (Sim.resource "Managed" "acct1" "c1") Sim_delete_fails
              (OtherError "the account is locked"))
    as (d' & cr' & u & Hres & Hc & _ & _ & Ha & _ & _ & _ & Hcond & Hagain).
  - vm_compute. reflexivity.
  - vm_compute. reflexivity.
  - exists d', cr', u. split; [exact Hres|]. split; [exact Hc|].
    split; [exact Ha|]. split; [exact Hcond|].
    intros w2. destruct (Hagain w2) as (H1 & H2 & _). split; assumption.
Defined.

(** ** Private DNS *)

Ltac unfold_client :=
  unfold azureclient.ConfigurePrivateDNS, azureclient.createPrivateDNSZone,
    azureclient.createRecordSet, azureclient.getNICAddress,
    azureclient.createPrivateDNSZoneGroup, azureclient.createVirtualNetworkLink,
    try, or_fail, await, attempt, call, bind, ret, fail.


Section PrivateDNS.
Context {W : Type} `{!World W}.


(** X17. Without a failed request, [ConfigurePrivateDNS] fails only for a
    client that cannot be built or a reply that lacks the interface or
    its address; when it succeeds, its requests are the five of the
    chain, in order. *)
Lemma ConfigurePrivateDNS_success (c : azureclient.Client)
    (privateEndpoint : PrivateEndpoint) (vnetName storageAccountName : string)
    (w : W) :
  let out := azureclient.ConfigurePrivateDNS c privateEndpoint vnetName
               storageAccountName w in
  out.1.1 = Ok tt ->
  requests out.2
  = [KPrivateZoneCreate; KInterfacesGet; KRecordSetCreate; KZoneGroupCreate;
     KVirtualNetworkLinkCreate] /\
  (failures out.2 = [] \/
   exists e, failures out.2 = [(KVirtualNetworkLinkCreate, e)] /\
             azureclient.is_conflict e = true).
Proof.
  intros out. subst out. unfold_client.
  repeat step.
  all: cbn [azureclient.is_conflict]; red1.
  all: try match goal with
       | |- context [azureclient.is_conflict ?e] =>
           destruct (azureclient.is_conflict e) eqn:Hconflict
       end.
  all: red1; observe.
  all: intros H; try discriminate H.
  all: split; [reflexivity|]; first [left; reflexivity | right; eauto].
Qed.

End PrivateDNS.


(** ** Worlds along the runs of the driver *)

Section Honest.
Context {W : Type} `{!World W}.

Lemma steps_app (w w1 w2 : W) (t1 t2 : list Event) :
  steps w t1 w1 -> steps w1 t2 w2 -> steps w (t1 ++ t2) w2.
Proof.
  induction 1 as [|w e w' t w1 Hstep Hsteps IH]; intros H2; simpl; [exact H2|].
  econstructor; [exact Hstep | now apply IH].
Qed.

Lemma honest_ret {A} (a : A) : honest (ret a).
Proof. intros w. constructor. Qed.

Lemma honest_fail {A} (e : error) : honest (@fail W A e).
Proof. intros w. constructor. Qed.

Lemma honest_call {R} (c : Call R) : honest (call c).
Proof.
  intros w. unfold call. destruct (perform c w) as [r w'] eqn:E. simpl.
  econstructor; [exact E | constructor].
Qed.

Lemma honest_bind {A B} (m : M A) (k : A -> M B) :
  honest m -> (forall a, honest (k a)) -> honest (bind m k).
Proof.
  intros Hm Hk w. unfold bind. specialize (Hm w).
  destruct (m w) as [[[a|e] w1] t1]; simpl in *; [|exact Hm].
  specialize (Hk a w1). destruct (k a w1) as [[r w2] t2]. simpl in *.
  eapply steps_app; eassumption.
Qed.

Lemma honest_attempt {A} (m : M A) : honest m -> honest (attempt m).
Proof.
  intros Hm w. unfold attempt. specialize (Hm w).
  destruct (m w) as [[r w1] t1]. exact Hm.
Qed.

End Honest.

Ltac honesty :=
  repeat first
    [ apply honest_ret
    | apply honest_fail
    | apply honest_call
    | apply honest_attempt
    | apply honest_bind; [|intros ?]
    | progress cbv beta zeta
    | match goal with
      | |- honest (match ?x with _ => _ end) => destruct x
      end ].

Ltac unfold_functions :=
  unfold assureStorageAccount, assureContainer, getEnvironmentByName,
    storageAccountsClient, new_authorizer, accountExists, generateAccountName,
    createStorageAccount, privateEndpointsClient, privateZonesClient,
    recordSetsClient, privateZoneGroupsClient, vnetLinksClient,
    interfacesClient, armClient, createPrivateEndpoint, createPrivateDNSZone,
    createRecordSet, createPrivateDNSZoneGroup, createVirtualNetworkLink,
    getAccountPrimaryKey, containerExists, createStorageContainer,
    deleteStorageContainer, getStorageContainer, getBlobServiceURL,
    try, or_fail, await.

Section HonestDriver.
Context {W : Type} `{!World W}.

Lemma honest_assureStorageAccount (d : driver) (cfg : Azure)
    (infra : configv1.Infrastructure) :
  honest (assureStorageAccount d cfg infra).
Proof. unfold_functions. honesty. Qed.

Lemma honest_assureContainer (d : driver) (cfg : Azure) :
  honest (assureContainer d cfg).
Proof. unfold_functions. honesty. Qed.

(** Every run of [assureContainer], by cases on the replies. *)
Lemma assureContainer_runs (d : driver) (cfg : Azure) (w : W) :
  assureContainer_summary d (assureContainer d cfg w).
Proof.
  unfold_driver.
  destruct (is_empty (CloudName (Config d)));
    destruct (authorizer d);
    destruct (is_empty (Container (Config d))) eqn:HC;
    destruct (is_empty (AccountName (Config d))) eqn:HA;
    red1.
  all: repeat step.
  all: unfold assureContainer_summary; rewrite ?HC, ?HA; observe.
  all: repeat match goal with
         | H : String.eqb _ _ = _ |- _ => rewrite H; clear H
         end.
  all: split; [reflexivity|].
  all: split;
    [intros ? ? Hres; try discriminate Hres; simplify_eq; split;
     cbn [In]; auto
    |intros Hcreated Hc Ha;
     try discriminate Hcreated; try discriminate Hc; try discriminate Ha;
     cbn [In]; auto].
Qed.

End HonestDriver.

(** ** Idempotent re-entry *)

Lemma generated_name_spec_nonempty (infrastructureName suffix : string) :
  is_empty (generated_name_spec infrastructureName suffix) = false.
Proof.
  unfold generated_name_spec, storageAccountInvalidCharRe_strip.
  rewrite GoStringFacts.filter_append.
  change (GoString.filter GoString.is_alnum "imageregistry") with "imageregistry".
  reflexivity.
Qed.

Lemma In_filter_map {A B} (f : A -> option B) (l : list A) (y : B) :
  In y (filter_map f l) <-> exists x, In x l /\ f x = Some y.
Proof.
  induction l as [|x l IH]; simpl.
  - split; [tauto | intros (x & [] & _)].
  - destruct (f x) eqn:E; simpl; rewrite IH; split.
    + intros [<- | (x' & Hin & Hf)]; eauto.
    + intros (x' & [<- | Hin] & Hf); [left; congruence | right; eauto].
    + intros (x' & Hin & Hf); eauto.
    + intros (x' & [<- | Hin] & Hf); [congruence | eauto].
Qed.

Section Consistent.
Context {W : Type} `{!World W}.
Variable taken : W -> string -> Prop.
Variable present : W -> string -> string -> Prop.
Hypothesis provider : consistent taken present.

Lemma no_delete_cons (e : Event) (t : list Event) :
  no_delete (e :: t) -> is_delete (ev_kind e) = false /\ no_delete t.
Proof.
  unfold no_delete. simpl. intros [He Ht]%andb_prop. split; [|exact Ht].
  now destruct (is_delete (ev_kind e)).
Qed.

Lemma step_shows_taken (w w' : W) (e : Event) (n : string) :
  step w e w' -> ev_taken e = Some n -> taken w' n.
Proof.
  destruct e as [R c r]. simpl. revert r.
  destruct c; intros r Hp Hn; try discriminate Hn.
  - destruct r as [[|]|]; try discriminate Hn. injection Hn as <-.
    eapply probe_shows_taken; eassumption.
  - destruct r; try discriminate Hn. injection Hn as <-.
    eapply create_makes_taken; eassumption.
Qed.

Lemma step_keeps_taken (w w' : W) (e : Event) (n : string) :
  step w e w' -> is_delete (ev_kind e) = false -> taken w n -> taken w' n.
Proof.
  destruct e as [R c r]. simpl. intros Hp Hk Ht.
  eapply taken_stays; [exact provider | exact Hp | | exact Ht].
  intros Heq. rewrite Heq in Hk. discriminate Hk.
Qed.

Lemma steps_keep_taken (w w' : W) (t : list Event) (n : string) :
  steps w t w' -> no_delete t -> taken w n -> taken w' n.
Proof.
  induction 1 as [|w e w1 t w2 Hstep Hsteps IH]; intros Hnd Ht; [exact Ht|].
  apply no_delete_cons in Hnd as [He Hnd].
  apply IH; [exact Hnd|]. eapply step_keeps_taken; eassumption.
Qed.

Lemma steps_show_taken (w w' : W) (t : list Event) (n : string) :
  steps w t w' -> no_delete t -> In n (taken_names t) -> taken w' n.
Proof.
  induction 1 as [|w e w1 t w2 Hstep Hsteps IH]; intros Hnd Hin; [destruct Hin|].
  apply no_delete_cons in Hnd as [He Hnd].
  unfold taken_names in Hin. simpl in Hin.
  destruct (ev_taken e) as [n'|] eqn:En.
  - destruct Hin as [<- | Hin].
    + eapply steps_keep_taken; [exact Hsteps | exact Hnd|].
      eapply step_shows_taken; eassumption.
    + now apply IH.
  - now apply IH.
Qed.

Lemma step_probe_of_taken (w w' : W) (e : Event) (n : string) :
  step w e w' -> taken w n -> ev_probe e <> Some (n, Ok true).
Proof.
  destruct e as [R c r]. simpl. revert r.
  destruct c; intros r Hp Ht Hn; try discriminate Hn.
  injection Hn as -> ->.
  eapply taken_is_unavailable; eassumption.
Qed.

(** A name that is taken is not reported available, as long as nothing
    is deleted. *)
Lemma steps_probe_of_taken (w w' : W) (t : list Event) (n : string) :
  steps w t w' -> no_delete t -> taken w n -> ~ In (n, Ok true) (probes t).
Proof.
  induction 1 as [|w e w1 t w2 Hstep Hsteps IH]; intros Hnd Ht Hin; [destruct Hin|].
  apply no_delete_cons in Hnd as [He Hnd].
  unfold probes in Hin. simpl in Hin.
  assert (Ht1 : taken w1 n) by (eapply step_keeps_taken; eassumption).
  destruct (ev_probe e) as [p|] eqn:Ep.
  - destruct Hin as [-> | Hin].
    + eapply step_probe_of_taken; eassumption.
    + now apply IH.
  - now apply IH.
Qed.

Lemma step_shows_present (w w' : W) (e : Event) (a cn : string) :
  step w e w' -> ev_present e = Some (a, cn) -> present w' a cn.
Proof.
  destruct e as [R c r]. simpl. revert r.
  destruct c; intros r Hp Hn; try discriminate Hn.
  - destruct r; try discriminate Hn. injection Hn as <- <-.
    eapply found_shows_present; eassumption.
  - destruct r; try discriminate Hn. injection Hn as <- <-.
    eapply create_makes_present; eassumption.
Qed.

Lemma steps_keep_present (w w' : W) (t : list Event) (a cn : string) :
  steps w t w' -> no_delete t -> present w a cn -> present w' a cn.
Proof.
  induction 1 as [|w e w1 t w2 Hstep Hsteps IH]; intros Hnd Ht; [exact Ht|].
  apply no_delete_cons in Hnd as [He Hnd].
  apply IH; [exact Hnd|]. destruct e as [R c r].
  eapply present_stays; [exact provider | exact Hstep | exact He | exact Ht].
Qed.

Lemma steps_show_present (w w' : W) (t : list Event) (a cn : string) :
  steps w t w' -> no_delete t -> In (a, cn) (present_containers t) ->
  present w' a cn.
Proof.
  induction 1 as [|w e w1 t w2 Hstep Hsteps IH]; intros Hnd Hin; [destruct Hin|].
  apply no_delete_cons in Hnd as [He Hnd].
  unfold present_containers in Hin. simpl in Hin.
  destruct (ev_present e) as [[a' cn']|] eqn:En.
  - destruct Hin as [[= <- <-] | Hin].
    + eapply steps_keep_present; [exact Hsteps | exact Hnd|].
      eapply step_shows_present; eassumption.
    + now apply IH.
  - now apply IH.
Qed.

Lemma step_missing_of_present (w w' : W) (e : Event) (a cn : string) :
  step w e w' -> present w a cn -> ev_missing e <> Some (a, cn).
Proof.
  destruct e as [R c r]. simpl. revert r.
  destruct c; intros r Hp Ht Hn; try discriminate Hn.
  destruct r as [|[]]; try discriminate Hn.
  destruct (String.eqb ServiceCode "ContainerNotFound") eqn:Ecode;
    [|discriminate Hn].
  apply String.eqb_eq in Ecode. subst ServiceCode. injection Hn as -> ->.
  eapply present_is_found; eassumption.
Qed.

(** A container that is there is not reported missing, as long as
    nothing is deleted. *)
Lemma steps_missing_of_present (w w' : W) (t : list Event) (a cn : string) :
  steps w t w' -> no_delete t -> present w a cn ->
  ~ In (a, cn) (missing_containers t).
Proof.
  induction 1 as [|w e w1 t w2 Hstep Hsteps IH]; intros Hnd Ht Hin; [destruct Hin|].
  apply no_delete_cons in Hnd as [He Hnd].
  unfold missing_containers in Hin. simpl in Hin.
  assert (Ht1 : present w1 a cn).
  { destruct e as [R c r].
    eapply present_stays; [exact provider | exact Hstep | exact He | exact Ht]. }
  destruct (ev_missing e) as [p|] eqn:Ep.
  - destruct Hin as [-> | Hin].
    + eapply step_missing_of_present; eassumption.
    + now apply IH.
  - now apply IH.
Qed.

Lemma steps_generated_named (w w' : W) (t : list Event) :
  steps w t w' -> ~ In "" (generated_names t).
Proof.
  induction 1 as [|w e w1 t w2 Hstep Hsteps IH]; intros Hin; [destruct Hin|].
  unfold generated_names in Hin. simpl in Hin.
  destruct (ev_generated e) as [n|] eqn:En; [|now apply IH].
  destruct Hin as [-> | Hin]; [|now apply IH].
  destruct e as [R c r]. simpl in *. revert r Hstep En.
  destruct c; intros r Hstep En; try discriminate En.
  destruct r; try discriminate En. injection En as ->.
  eapply generated_is_named; eassumption.
Qed.

End Consistent.

Section Idempotence.
Context {W : Type} `{!World W}.
Variable taken : W -> string -> Prop.
Variable present : W -> string -> string -> Prop.
Hypothesis provider : consistent taken present.

(** After [assureStorageAccount] succeeds, the name it returns is not
    empty and is taken in the world it leaves. *)
Lemma assureStorageAccount_leaves_taken (d : driver) (cfg : Azure)
    (infra : configv1.Infrastructure) (w w1 : W) (t1 : list Event)
    (name : string) (c : bool) :
  assureStorageAccount d cfg infra w = (Ok (name, c), w1, t1) ->
  is_empty name = false /\ taken w1 name /\ no_delete t1 /\ steps w t1 w1.
Proof.
  intros Hrun.
  pose proof (assureStorageAccount_runs d cfg infra w) as Hsum.
  pose proof (honest_assureStorageAccount d cfg infra w) as Hsteps.
  rewrite Hrun in Hsum, Hsteps. simpl in Hsteps.
  destruct Hsum as (Hnd & _ & _ & _ & Hok & Hcase). cbn [fst snd] in *.
  destruct (Hok name c eq_refl) as [Htaken Hprobe].
  rewrite Hprobe in Hcase. destruct Hcase as [Hname _].
  split; [|split; [|split]]; [| |exact Hnd|exact Hsteps].
  - destruct (is_empty (AccountName (Config d))) eqn:HA.
    + destruct Hname as [suffix ->]. apply generated_name_spec_nonempty.
    + now rewrite Hname.
  - eapply steps_show_taken; eassumption.
Qed.

(** After [assureContainer] succeeds, the name it returns is not empty
    and the container is there in the world it leaves. *)
Lemma assureContainer_leaves_present (d : driver) (cfg : Azure)
    (w w1 : W) (t1 : list Event) (containerName : string) (c : bool) :
  assureContainer d cfg w = (Ok (containerName, c), w1, t1) ->
  is_empty containerName = false /\
  present w1 (AccountName (Config d)) containerName /\
  no_delete t1 /\ steps w t1 w1.
Proof.
  intros Hrun.
  pose proof (assureContainer_runs d cfg w) as Hsum.
  pose proof (honest_assureContainer d cfg w) as Hsteps.
  rewrite Hrun in Hsum, Hsteps. simpl in Hsteps.
  destruct Hsum as (Hnd & Hok & _). cbn [fst snd] in *.
  destruct (Hok containerName c eq_refl) as [Hpresent Hname].
  split; [|split; [|split]]; [| |exact Hnd|exact Hsteps].
  - destruct (is_empty (Container (Config d))) eqn:HC.
    + destruct containerName; [|reflexivity]. exfalso.
      eapply steps_generated_named; eassumption.
    + now rewrite Hname.
  - eapply steps_show_present; eassumption.
Qed.

(** [assureStorageAccount] does not create an account whose recorded
    name is taken. *)
Lemma assureStorageAccount_of_taken (d : driver) (cfg : Azure)
    (infra : configv1.Infrastructure) (w : W) :
  is_empty (AccountName (Config d)) = false ->
  taken w (AccountName (Config d)) ->
  created (assureStorageAccount d cfg infra w).1.1 = false /\
  (forall name c, (assureStorageAccount d cfg infra w).1.1 = Ok (name, c) ->
     name = AccountName (Config d)).
Proof.
  intros HA Htaken.
  pose proof (assureStorageAccount_runs d cfg infra w) as Hsum.
  pose proof (honest_assureStorageAccount d cfg infra w) as Hsteps.
  destruct (assureStorageAccount d cfg infra w) as [[r w1] t1].
  destruct Hsum as (Hnd & _ & _ & _ & Hok & Hcase). cbn [fst snd] in *.
  assert (Hname : forall name c, r = Ok (name, c) -> name = AccountName (Config d)).
  { intros name c ->. destruct (Hok name c eq_refl) as [_ Hprobe].
    rewrite Hprobe, HA in Hcase. now destruct Hcase as [-> _]. }
  split; [|exact Hname].
  destruct r as [[name [|]]|e]; try reflexivity. exfalso.
  destruct (Hok name true eq_refl) as [_ Hprobe].
  rewrite (Hname name true eq_refl) in Hprobe.
  eapply steps_probe_of_taken;
    [exact provider | exact Hsteps | exact Hnd | exact Htaken|].
  rewrite Hprobe. left. reflexivity.
Qed.

(** [assureContainer] does not create a container that is recorded and
    there. *)
Lemma assureContainer_of_present (d : driver) (cfg : Azure) (w : W) :
  is_empty (AccountName (Config d)) = false ->
  is_empty (Container (Config d)) = false ->
  present w (AccountName (Config d)) (Container (Config d)) ->
  created (assureContainer d cfg w).1.1 = false.
Proof.
  intros HA HC Hpresent.
  pose proof (assureContainer_runs d cfg w) as Hsum.
  pose proof (honest_assureContainer d cfg w) as Hsteps.
  destruct (assureContainer d cfg w) as [[r w1] t1].
  destruct Hsum as (Hnd & _ & Hcreated). cbn [fst snd] in *.
  destruct (created r) eqn:Hc; [|reflexivity]. exfalso.
  eapply steps_missing_of_present;
    [exact provider | exact Hsteps | exact Hnd | exact Hpresent|].
  now apply Hcreated.
Qed.

Lemma provisioning_path_succeeds (d : driver) (cfg : Azure)
    (infra : configv1.Infrastructure) (w : W) :
  failed (provisioning_path d cfg infra w).1.2 = None ->
  exists name c1 w1 t1 cn c2 w2 t2,
    assureStorageAccount d cfg infra w = (Ok (name, c1), w1, t1) /\
    assureContainer (with_Config (set_AccountName name (Config d)) d) cfg w1
    = (Ok (cn, c2), w2, t2) /\
    provisioning_path d cfg infra w
    = (with_Config
         (set_Container cn (Config (with_Config (set_AccountName name (Config d)) d)))
         (with_Config (set_AccountName name (Config d)) d),
       {| account_created := c1; container_created := c2; failed := None |}, w2).
Proof.
  unfold provisioning_path.
  destruct (assureStorageAccount d cfg infra w) as [[[[name c1]|e1] w1] t1] eqn:E1;
    [|discriminate].
  destruct (assureContainer _ cfg w1) as [[[[cn c2]|e2] w2] t2] eqn:E2;
    [|discriminate].
  intros _. exists name, c1, w1, t1, cn, c2, w2, t2.
  split; [reflexivity|]. split; [exact E2 | reflexivity].
Qed.

(** C8, as the code has it. On a provider whose state changes by the
    requests only: if a first run of the provisioning path ends without
    an error, so that the names it resolved are recorded in the driver,
    then a second run, from the driver and the world that the first run
    leaves, creates neither the account nor the container, whatever the
    configuration and the infrastructure it is given and whatever the
    provider replies. *)
Theorem provisioning_path_idempotent (d : driver) (cfg : Azure)
    (infra : configv1.Infrastructure) (w : W) :
  failed (provisioning_path d cfg infra w).1.2 = None ->
  forall (cfg' : Azure) (infra' : configv1.Infrastructure),
    let first := provisioning_path d cfg infra w in
    let second := provisioning_path first.1.1 cfg' infra' first.2 in
    account_created second.1.2 = false /\ container_created second.1.2 = false.
Proof.
  intros Hfirst cfg' infra' first second. subst second first.
  destruct (provisioning_path_succeeds d cfg infra w Hfirst)
    as (name & c1 & w1 & t1 & cn & c2 & w2 & t2 & E1 & E2 & ->).
  cbn [fst snd].
  set (d1 := with_Config (set_AccountName name (Config d)) d) in *.
  set (d2 := with_Config (set_Container cn (Config d1)) d1).
  destruct (assureStorageAccount_leaves_taken _ _ _ _ _ _ _ _ E1)
    as (Hname & Htaken1 & _ & _).
  destruct (assureContainer_leaves_present _ _ _ _ _ _ _ E2)
    as (Hcn & Hpresent2 & Hnd2 & Hsteps2).
  assert (Htaken2 : taken w2 name)
    by (eapply steps_keep_taken; eassumption).
  (* the second run *)
  unfold provisioning_path.
  destruct (assureStorageAccount_of_taken d2 cfg' infra' w2 Hname Htaken2)
    as [Hcreated3 Hname3].
  pose proof (assureStorageAccount_runs d2 cfg' infra' w2) as Hsum3.
  pose proof (honest_assureStorageAccount d2 cfg' infra' w2) as Hsteps3.
  destruct (assureStorageAccount d2 cfg' infra' w2) as [[[[name3 c3]|e3] w3] t3];
    cbn [fst snd] in *; [|split; reflexivity].
  rewrite (Hname3 name3 c3 eq_refl). simpl in Hcreated3. subst c3.
  destruct Hsum3 as (Hnd3 & _).
  assert (Hpresent3 : present w3 name cn)
    by (eapply steps_keep_present; eassumption).
  match goal with
  | |- context [assureContainer ?d' cfg' w3] =>
      pose proof (assureContainer_of_present d' cfg' w3 Hname Hcn Hpresent3)
        as Hcreated4;
      destruct (assureContainer d' cfg' w3) as [[[[cn4 c4]|e4] w4] t4]
  end.
  all: cbn [fst snd account_created container_created] in *.
  all: split; first [reflexivity | exact Hcreated4].
Qed.

(** The provisioning path is the one of [CreateStorage]: once the
    configuration, without an account key, and the infrastructure are
    read, [CreateStorage] leaves the driver that the path leaves and
    returns the error of the path. *)
Lemma CreateStorage_provisions (d : driver) (cr : imageregistryv1.Config)
    (w w1 w2 : W) (cfg : Azure) (infra : configv1.Infrastructure)
    (t1 : list Event) :
  GetConfig w = (Ok cfg, w1, t1) ->
  is_empty (AccountKey cfg) = true ->
  perform GetInfrastructure w1 = (Ok infra, w2) ->
  exists cr' t,
    CreateStorage d cr w
    = (Ok (failed (provisioning_path (resolve_CloudName d infra) cfg infra w2).1.2,
           (provisioning_path (resolve_CloudName d infra) cfg infra w2).1.1, cr'),
       (provisioning_path (resolve_CloudName d infra) cfg infra w2).2, t).
Proof.
  intros Hcfg Hkey Hinfra.
  unfold CreateStorage, provisioning_path, attempt, bind, call, ret.
  rewrite Hcfg. red1. rewrite Hkey. red1. rewrite Hinfra. red1.
  destruct (assureStorageAccount _ cfg infra w2) as [[[[name c1]|e1] w3] t3]; red1;
    [|eauto].
  destruct (assureContainer _ cfg w3) as [[[[cn c2]|e2] w4] t4]; red1; eauto.
Qed.

End Idempotence.

(** ** The provider in memory is consistent *)

Lemma Sim_mem_cons (n : string) (l : list string) : Sim.mem n (n :: l) = true.
Proof. unfold Sim.mem. simpl. now rewrite String.eqb_refl. Qed.

Lemma Sim_mem2_cons (a c : string) (l : list (string * string)) :
  Sim.mem2 (a, c) ((a, c) :: l) = true.
Proof. unfold Sim.mem2. simpl. now rewrite !String.eqb_refl. Qed.

Lemma Sim_mem_keep (n x : string) (l : list string) :
  Sim.mem n l = true -> Sim.mem n (x :: l) = true.
Proof. unfold Sim.mem. simpl. intros ->. apply orb_true_r. Qed.

Lemma Sim_mem2_keep (p x : string * string) (l : list (string * string)) :
  Sim.mem2 p l = true -> Sim.mem2 p (x :: l) = true.
Proof. unfold Sim.mem2. simpl. intros ->. apply orb_true_r. Qed.

Ltac sim_cases :=
  repeat match goal with
    | H : context [match ?x with _ => _ end] |- _ => destruct x eqn:?
    end;
  simplify_eq; simpl in *.

Ltac sim_close :=
  unfold Sim_taken, Sim_present, Sim.mem, Sim.mem2 in *; simpl in *;
  repeat match goal with
    | H : negb ?b = false |- _ => destruct b eqn:?; simpl in H; try discriminate H
    | H : negb ?b = true, H' : ?b = true |- _ => rewrite H' in H; discriminate H
    | H : ?b = true |- context [?b] => rewrite H
    end;
  rewrite ?String.eqb_refl, ?orb_true_r; simpl; auto; try congruence.

Lemma Sim_consistent : consistent Sim_taken Sim_present.
Proof.
  split.
  - intros n w w' H. cbn in H. unfold Sim.respond in H. simpl in H.
    sim_cases. sim_close.
  - intros rg n l tags w w' H. cbn in H. unfold Sim.respond in H. simpl in H.
    sim_cases; sim_close.
  - intros R c r w w' n H Hk Ht. cbn in H. unfold Sim.respond in H.
    destruct c; simpl in *; try contradiction; sim_cases; sim_close.
  - intros n w w' Ht H. cbn in H. unfold Sim.respond in H. simpl in H.
    sim_cases; sim_close.
  - intros u a k c x w w' H. cbn in H. unfold Sim.respond in H. simpl in H.
    sim_cases; sim_close.
  - intros u a k c x w w' H. cbn in H. unfold Sim.respond in H. simpl in H.
    sim_cases; sim_close.
  - intros R c r w w' a cn H Hk Ht. cbn in H. unfold Sim.respond in H.
    destruct c; simpl in *; try discriminate Hk; sim_cases; sim_close.
  - intros u a k c text w w' Ht H. cbn in H. unfold Sim.respond in H. simpl in H.
    sim_cases; sim_close.
  - intros x w w' H. cbn in H. unfold Sim.respond in H. simpl in H.
    sim_cases; sim_close.
Qed.

Lemma provisioning_path_idempotent_witness :
  let first :=
    provisioning_path (Sim.driver_of "" "") Sim.cfg Sim.infrastructure Sim.empty in
  let second := provisioning_path first.1.1 Sim.cfg Sim.infrastructure first.2 in
  account_created second.1.2 = false /\ container_created second.1.2 = false.
Proof.
  apply (provisioning_path_idempotent Sim_taken Sim_present Sim_consistent
           (Sim.driver_of "" "") Sim.cfg Sim.infrastructure Sim.empty).
  vm_compute. reflexivity.
Defined.

(** C8 as stated does not hold, on a provider that is consistent. The
    first run generates a name, creates the account and fails at the
    private endpoint, so that no name is recorded; the second run
    generates another name and creates a second account. *)
Lemma second_run_creates_nothing_counterexample :
  ~ second_run_creates_nothing (Sim.driver_of "" "") Sim.cfg Sim.infrastructure
      Sim_endpoint_fails_once /\
  failed (provisioning_path (Sim.driver_of "" "") Sim.cfg Sim.infrastructure
            Sim_endpoint_fails_once).1.2
  = Some (Errorf "failed to start creating private endpoint: %s"
            [ArgError (OtherError "the request timed out")]) /\
  Sim.accounts
    (provisioning_path
       (provisioning_path (Sim.driver_of "" "") Sim.cfg Sim.infrastructure
          Sim_endpoint_fails_once).1.1
       Sim.cfg Sim.infrastructure
       (provisioning_path (Sim.driver_of "" "") Sim.cfg Sim.infrastructure
          Sim_endpoint_fails_once).2).2
  = ["imageregistrycilnx7npqrs"; "imageregistrycilnx7bcdfg"].
Proof.
  split; [|split].
  - unfold second_run_creates_nothing. intros [H _].
    vm_compute in H. discriminate H.
  - vm_compute. reflexivity.
  - vm_compute. reflexivity.
Qed.

(** ** Reading the configuration *)

Ltac observe_more :=
  observe;
  lazy beta iota zeta delta
    [GetConfig_summary ConfigEnv_summary secrets_read keys_fetched
     interface_lookups ev_secret ev_key ev_interface filter_map fst snd].

Ltac step_more :=
  first
    [ match goal with
      | |- context [if IsNotFound ?x then _ else _] =>
          destruct (IsNotFound x) eqn:?; red1
      | |- context [is_empty (AccountKey ?c)] =>
          let v := eval cbn [AccountKey] in (AccountKey c) in
          progress change (AccountKey c) with v;
          try change (is_empty "") with true;
          repeat match goal with
            | H : is_empty v = _ |- _ => rewrite H
            end;
          red1
      end
    | step ].

Section Configuration.
Context {W : Type} `{!World W}.

(** X1. [GetConfig] makes no provider request. It reads the cluster's
    credentials exactly when the look-up of the user's secret reports
    not-found; any other error of that look-up is returned, wrapped,
    without reading them. A configuration read from the user's secret
    holds a non-empty account key and nothing else; one read from the
    cluster's credentials holds no account key. *)
Theorem GetConfig_lookups (w : W) : GetConfig_summary (GetConfig w).
Proof.
  unfold_driver. repeat step_more.
  all: observe_more.
  all: repeat split; auto; try discriminate.
  all: try (simplify_eq; cbn; auto; fail).
  all: eexists; split; reflexivity.
Qed.

(** X2. Of the errors of the key listing, [getAccountPrimaryKey] recodes as
    does-not-exist the detailed error of status 404 and no other; every
    error comes back wrapped in the same message, and a key comes back as
    it is. *)
Theorem getAccountPrimaryKey_not_found (resourceGroupName accountName : string)
    (w : W) :
  let reply := (perform (PrimaryKeyGet resourceGroupName accountName) w).1 in
  let r := (getAccountPrimaryKey resourceGroupName accountName w).1.1 in
  let wrapped err :=
    Errorf "failed to get keys for the storage account %s: %s"
      [ArgString accountName; ArgError err] in
  (forall key, r = Ok key <-> reply = Ok key) /\
  (forall text, reply = Err (DetailedError 404 text) ->
     r = Err (errDoesNotExist (wrapped (DetailedError 404 text)))) /\
  (forall err, reply = Err err ->
     (forall text, err <> DetailedError 404 text) -> r = Err (wrapped err)).
Proof.
  unfold getAccountPrimaryKey, bind, call, ret, fail.
  destruct (perform (PrimaryKeyGet resourceGroupName accountName) w) as [[key|err] w'];
    cbn [fst snd]; red1.
  - split; [intros k; split; intros [= ->]; reflexivity|].
    split; [discriminate|discriminate].
  - split.
    { intros k. split; [|discriminate].
      destruct err; try discriminate.
      destruct (StatusCode =? 404)%Z; discriminate. }
    split.
    + intros text [= ->]. reflexivity.
    + intros err' [= <-] Hnot. destruct err; try reflexivity.
      destruct (StatusCode =? 404)%Z eqn:E; [|reflexivity].
      apply Z.eqb_eq in E. subst StatusCode. now destruct (Hnot text).
Qed.

(** X3. [containerExists] answers without a call, and says no, when the
    account name or the container name is empty. Otherwise it says no
    only when the provider reports the container not found, yes only
    when the provider finds it, and returns every other failure of the
    look-up as an error. *)
Theorem containerExists_answers (environment : Environment)
    (accountName key containerName : string) (w : W) :
  let out := containerExists environment accountName key containerName w in
  (is_empty accountName || is_empty containerName = true ->
   out = (Ok false, w, [])) /\
  (is_empty accountName || is_empty containerName = false ->
   (out.1.1 = Ok false <->
    missing_containers out.2 = [(accountName, containerName)]) /\
   (out.1.1 = Ok true <->
    present_containers out.2 = [(accountName, containerName)]) /\
   (forall e, failures out.2 = [(KContainerGetProperties, e)] ->
      missing_containers out.2 = [] ->
      out.1.1
      = Err (Errorf "unable to get the storage container %s: %s"
               [ArgString containerName; ArgError e]))).
Proof.
  intros out. subst out. unfold_driver.
  destruct (is_empty accountName || is_empty containerName) eqn:Hnames; red1;
    rewrite ?Hnames; red1.
  { split; [reflexivity | discriminate]. }
  split; [discriminate|]. intros _.
  repeat step.
  all: observe; repeat match goal with
         | H : String.eqb _ _ = _ |- _ => rewrite H
         end.
  all: split; [split; intros H; first [reflexivity | discriminate H]|].
  all: split; [split; intros H; first [reflexivity | discriminate H]|].
  all: intros ? Hf Hm; try discriminate Hf; try discriminate Hm;
    simplify_eq; reflexivity.
Qed.

End Configuration.

(** ** The storage check and the registry's environment *)

Ltac outcome :=
  cbn [fst snd];
  eexists _, _, _, _; split; [reflexivity|];
  cbn [Conditions UpdateCondition set_Status_Storage set_Spec_Azure
       set_Spec_ManagementState Spec_Storage Status_Storage
       imageregistryv1.Status imageregistryv1.Reason];
  split; [reflexivity|];
  cbn [imageregistryv1.Status imageregistryv1.Reason].

Section StorageCheck.
Context {W : Type} `{!World W}.

(** X4. [StorageExists] always returns, and writes one condition update
    that tells its outcome: the status is Unknown exactly when an error
    is returned, and True, with the reason ContainerExists, exactly when
    it reports that the storage exists. It changes nothing else of the
    resource. *)
Theorem StorageExists_outcome (d : driver) (cr : imageregistryv1.Config) (w : W) :
  exists exists_ err cr' u,
    (StorageExists d cr w).1.1 = Ok (exists_, err, cr') /\
    Conditions cr' = Conditions cr ++ [u] /\
    Spec_Storage cr' = Spec_Storage cr /\
    Status_Storage cr' = Status_Storage cr /\
    (err <> None <-> imageregistryv1.Status u = ConditionUnknown) /\
    (exists_ = true <-> imageregistryv1.Status u = ConditionTrue) /\
    (exists_ = true -> imageregistryv1.Reason u = storageExistsReasonContainerExists).
Proof.
  unfold StorageExists, attempt, bind, call, ret.
  repeat step_whole.
  all: outcome.
  all: repeat split; try reflexivity; try discriminate; try congruence.
Qed.

(** X5. The look-ups of [StorageExists]. With no account or no container
    recorded it does nothing at all, not even read a secret. With an
    account key from the user's secret it never fetches a key; a key it
    fetches is the one of the recorded account. It reports that the
    storage exists exactly when the provider found the recorded
    container in the recorded account, and a container that the provider
    reports not found is no error. *)
Theorem StorageExists_lookups (d : driver) (cr : imageregistryv1.Config) (w : W) :
  StorageExists_summary d (StorageExists d cr w).
Proof.
  unfold StorageExists; unfold_driver; unfold_driver.
  destruct (is_empty (AccountName (Config d))) eqn:HA; red1.
  { unfold StorageExists_summary. rewrite HA. observe_more.
    repeat split; try discriminate; auto; intros; simplify_eq. }
  destruct (is_empty (Container (Config d))) eqn:HC; red1.
  { unfold StorageExists_summary. rewrite HA, HC. observe_more.
    repeat split; try discriminate; auto; intros; simplify_eq. }
  destruct (is_empty (CloudName (Config d))); destruct (authorizer d); red1.
  all: repeat step_more.
  all: unfold StorageExists_summary; rewrite HA, HC; observe_more.
  all: repeat match goal with
         | H : String.eqb _ _ = _ |- _ => rewrite H; clear H
         end.
  all: split; [discriminate|].
  all: split; [intros Hs; first [reflexivity | discriminate Hs]|].
  all: split; [intros ? Hk; try discriminate Hk; simplify_eq; reflexivity|].
  all: intros ? ? ? Hr; simplify_eq.
  all: split; [split; intros Hx; first [reflexivity | discriminate Hx]|].
  all: intros Hm; first [discriminate Hm | split; reflexivity].
Qed.

Ltac observe_env :=
  observe;
  lazy beta iota zeta delta
    [ConfigEnv_summary secrets_read keys_fetched secrets_found secret_values
     environments ev_secret ev_key ev_secret_found ev_secret_value
     ev_environment filter_map fst snd].

(** Every run of [ConfigEnv], by cases on the replies. *)
Lemma ConfigEnv_runs (d : driver) (w : W) :
  ConfigEnv_summary d (azure_ops.ConfigEnv d w).
Proof.
  unfold azure_ops.ConfigEnv; unfold_driver.
  destruct (is_empty (CloudName (Config d))) eqn:HN; destruct (authorizer d); red1.
  all: repeat step_more.
  all: unfold ConfigEnv_summary; rewrite ?HN; observe_env.
  all: intros ? Hr; try discriminate Hr; simplify_eq.
  all: eexists _, _; split; [reflexivity|].
  all: split; [first [split; reflexivity | eexists; split; reflexivity]|].
  all: first [left; split; [eexists; split; reflexivity|];
              repeat split; first [reflexivity | assumption]
             | right; repeat split; reflexivity].
Qed.

(** X6. When [ConfigEnv] returns the variables, they are the storage
    kind, the recorded container, the recorded account and the account
    key, in this order, followed by the realm exactly when a cloud name
    is recorded; the key is the only secret one. The realm is the
    storage endpoint suffix of the environment that the library returned
    for the recorded cloud name. The key is the value that was read,
    under REGISTRY_STORAGE_AZURE_ACCOUNTKEY, from the user's secret that
    was found, not empty, and then no key was fetched and no provider
    request was made; or no value was read from a secret, and the key is
    the one that the provider returned for the recorded account, the
    only request. *)
Theorem ConfigEnv_variables (d : driver) (w : W) (envs : list azure_ops.EnvVar) :
  (azure_ops.ConfigEnv d w).1.1 = Ok envs ->
  exists key realm,
    envs = registry_env d key realm /\
    (if is_empty (CloudName (Config d))
     then realm = [] /\ environments (azure_ops.ConfigEnv d w).2 = []
     else exists environment,
         environments (azure_ops.ConfigEnv d w).2
         = [(CloudName (Config d), environment)] /\
         realm = [ {| azure_ops.Name := "REGISTRY_STORAGE_AZURE_REALM";
                      azure_ops.Value := StorageEndpointSuffix environment;
                      azure_ops.Secret := false |} ]) /\
    ((exists sec,
         secrets_found (azure_ops.ConfigEnv d w).2
         = [(ImageRegistryPrivateConfigurationUser, sec)] /\
         secret_values (azure_ops.ConfigEnv d w).2
         = [(sec, "REGISTRY_STORAGE_AZURE_ACCOUNTKEY", Ok key)]) /\
     keys_fetched (azure_ops.ConfigEnv d w).2 = [] /\
     requests (azure_ops.ConfigEnv d w).2 = [] /\ is_empty key = false \/
     secret_values (azure_ops.ConfigEnv d w).2 = [] /\
     keys_fetched (azure_ops.ConfigEnv d w).2 = [(AccountName (Config d), Ok key)] /\
     requests (azure_ops.ConfigEnv d w).2 = [KPrimaryKeyGet]).
Proof. intros Hok. exact (ConfigEnv_runs d w envs Hok). Qed.

End StorageCheck.

Lemma ConfigEnv_variables_witness :
  exists key realm,
    registry_env (Sim.driver_of "acct1" "c1") "a2V5" []
    = registry_env (Sim.driver_of "acct1" "c1") key realm /\
    (if is_empty (CloudName (Config (Sim.driver_of "acct1" "c1")))
     then realm = [] /\
          environments
            (azure_ops.ConfigEnv (Sim.driver_of "acct1" "c1") Sim_user_managed).2 = []
     else exists environment,
         environments
           (azure_ops.ConfigEnv (Sim.driver_of "acct1" "c1") Sim_user_managed).2
         = [(CloudName (Config (Sim.driver_of "acct1" "c1")), environment)] /\
         realm = [ {| azure_ops.Name := "REGISTRY_STORAGE_AZURE_REALM";
                      azure_ops.Value := StorageEndpointSuffix environment;
                      azure_ops.Secret := false |} ]) /\
    ((exists sec,
         secrets_found
           (azure_ops.ConfigEnv (Sim.driver_of "acct1" "c1") Sim_user_managed).2
         = [(ImageRegistryPrivateConfigurationUser, sec)] /\
         secret_values
           (azure_ops.ConfigEnv (Sim.driver_of "acct1" "c1") Sim_user_managed).2
         = [(sec, "REGISTRY_STORAGE_AZURE_ACCOUNTKEY", Ok key)]) /\
     keys_fetched
       (azure_ops.ConfigEnv (Sim.driver_of "acct1" "c1") Sim_user_managed).2 = [] /\
     requests
       (azure_ops.ConfigEnv (Sim.driver_of "acct1" "c1") Sim_user_managed).2 = [] /\
     is_empty key = false \/
     secret_values
       (azure_ops.ConfigEnv (Sim.driver_of "acct1" "c1") Sim_user_managed).2 = [] /\
     keys_fetched
       (azure_ops.ConfigEnv (Sim.driver_of "acct1" "c1") Sim_user_managed).2
     = [(AccountName (Config (Sim.driver_of "acct1" "c1")), Ok key)] /\
     requests
       (azure_ops.ConfigEnv (Sim.driver_of "acct1" "c1") Sim_user_managed).2
     = [KPrimaryKeyGet]).
Proof.
  apply (ConfigEnv_variables (Sim.driver_of "acct1" "c1") Sim_user_managed).
  vm_compute. reflexivity.
Defined.

(** ** What the entry points record *)

Lemma requests_ok_app (a b : list Event) :
  requests_ok (a ++ b) = requests_ok a ++ requests_ok b.
Proof.
  unfold requests_ok, kinds_ok.
  now rewrite List.filter_app, List.map_app, List.filter_app.
Qed.

Lemma kinds_app (a b : list Event) : kinds (a ++ b) = kinds a ++ kinds b.
Proof. apply List.map_app. Qed.

Lemma has_kind_app (k : Kind) (a b : list Kind) :
  has_kind k (a ++ b) = has_kind k a || has_kind k b.
Proof. apply List.existsb_app. Qed.

Section Records.
Context {W : Type} `{!World W}.

Lemma GetConfig_quiet (w : W) :
  requests_ok (GetConfig w).2 = [] /\
  List.forallb (fun k => negb (is_delete k)) (kinds (GetConfig w).2) = true.
Proof. unfold_driver. repeat step; split; reflexivity. Qed.

Lemma assureStorageAccount_creates (d : driver) (cfg : Azure)
    (infra : configv1.Infrastructure) (w : W) :
  creates KAccountsCreate KContainerCreate (assureStorageAccount d cfg infra w).
Proof.
  unfold_driver.
  destruct (is_empty (CloudName (Config d)));
    destruct (authorizer d);
    destruct (is_empty (AccountName (Config d))) eqn:HA;
    red1.
  all: repeat step.
  all: unfold creates; observe.
  all: split; [intros Hok; first [reflexivity | discriminate Hok] | reflexivity].
Qed.

Lemma assureContainer_creates (d : driver) (cfg : Azure) (w : W) :
  creates KContainerCreate KAccountsCreate (assureContainer d cfg w).
Proof.
  unfold_driver.
  destruct (is_empty (CloudName (Config d)));
    destruct (authorizer d);
    destruct (is_empty (Container (Config d))) eqn:HC;
    destruct (is_empty (AccountName (Config d))) eqn:HA;
    red1.
  all: repeat step.
  all: unfold creates; observe.
  all: split; [intros Hok; first [reflexivity | discriminate Hok] | reflexivity].
Qed.

(** X8. When [CreateStorage] ends with the reason ContainerExists, it
    returns no error, and the specification and the status of the
    resource both record the driver's configuration, so that
    [StorageChanged] says no and [ID] is the container of the
    specification. A management state that was unset is then
    [Managed] exactly when a request to create the account or the
    container succeeded in this call, and [Unmanaged] otherwise. *)
Theorem CreateStorage_records (d : driver) (cr : imageregistryv1.Config) (w : W) :
  exists err d' cr' u,
    (CreateStorage d cr w).1.1 = Ok (err, d', cr') /\
    Conditions cr' = Conditions cr ++ [u] /\
    (imageregistryv1.Reason u = storageExistsReasonContainerExists ->
     err = None /\
     imageregistryv1.Azure (Spec_Storage cr') = Config d' /\
     imageregistryv1.Azure (Status_Storage cr') = Config d' /\
     azure_ops.StorageChanged cr' = false /\
     azure_ops.ID d' = Container (imageregistryv1.Azure (Spec_Storage cr')) /\
     ManagementState (Spec_Storage cr')
     = if is_empty (ManagementState (Spec_Storage cr))
       then if has_kind KAccountsCreate (requests_ok (CreateStorage d cr w).2)
               || has_kind KContainerCreate (requests_ok (CreateStorage d cr w).2)
            then StorageManagementStateManaged
            else StorageManagementStateUnmanaged
       else ManagementState (Spec_Storage cr)).
Proof.
  unfold CreateStorage, processUPI, attempt, bind, call, ret.
  destruct (GetConfig_quiet w) as [Hquiet _].
  destruct (GetConfig w) as [[[cfg|e] w1] t1]; red1; cbn [snd] in Hquiet.
  2: { outcome. discriminate. }
  destruct (is_empty (AccountKey cfg)); red1.
  2: { repeat step_whole; outcome; discriminate. }
  destruct (perform GetInfrastructure w1) as [[infra|e] w2]; red1.
  2: { outcome. discriminate. }
  match goal with
  | |- context [assureStorageAccount ?d' cfg infra w2] =>
      destruct (assureStorageAccount_creates d' cfg infra w2) as [Ha Ha'];
      destruct (assureStorageAccount d' cfg infra w2) as [[[[name c1]|e] w3] t3]
  end; red1.
  2: { outcome. discriminate. }
  match goal with
  | |- context [assureContainer ?d' cfg w3] =>
      destruct (assureContainer_creates d' cfg w3) as [Hc Hc'];
      destruct (assureContainer d' cfg w3) as [[[[cn c2]|e] w4] t4]
  end; red1.
  2: { outcome. discriminate. }
  cbn [fst snd created is_ok] in Ha, Ha', Hc, Hc'.
  specialize (Ha eq_refl). specialize (Hc eq_refl).
  cbn [fst snd]. eexists _, _, _, _. split; [reflexivity|].
  rewrite !requests_ok_app, !has_kind_app, Hquiet, <- Ha, <- Hc, Ha', Hc'.
  change (requests_ok [Ev GetInfrastructure (Ok infra)]) with (@nil Kind).
  change (requests_ok []) with (@nil Kind).
  cbn [has_kind List.existsb orb].
  rewrite !orb_false_r.
  destruct (is_empty (ManagementState (Spec_Storage cr))) eqn:Hstate;
    [destruct c1, c2|].
  all: cbn [Conditions UpdateCondition set_Status_Storage set_Spec_Azure
            set_Spec_ManagementState Spec_Storage Status_Storage
            imageregistryv1.Azure ManagementState orb].
  all: split; [reflexivity|].
  all: intros _; repeat split.
  all: unfold azure_ops.StorageChanged, azure_ops.storage_equal;
    cbn [Spec_Storage Status_Storage imageregistryv1.Azure];
    now rewrite !String.eqb_refl.
Qed.

(** X9. [CreateStorage] never asks the provider to delete anything: whatever
    it created before a later step failed stays. *)
Theorem CreateStorage_never_deletes (d : driver) (cr : imageregistryv1.Config)
    (w : W) :
  no_delete (CreateStorage d cr w).2.
Proof.
  unfold no_delete, CreateStorage, processUPI, attempt, bind, call, ret.
  destruct (GetConfig_quiet w) as [_ Hquiet].
  destruct (GetConfig w) as [[[cfg|e] w1] t1]; red1;
    cbv beta iota zeta delta [negb snd] in Hquiet.
  2: { now rewrite app_nil_r. }
  destruct (is_empty (AccountKey cfg)); red1.
  2: { now rewrite app_nil_r. }
  destruct (perform GetInfrastructure w1) as [[infra|e] w2]; red1.
  2: { rewrite kinds_app, List.forallb_app, Hquiet. reflexivity. }
  match goal with
  | |- context [assureStorageAccount ?d' cfg infra w2] =>
      destruct (assureStorageAccount_runs d' cfg infra w2) as [Ha _];
      destruct (assureStorageAccount d' cfg infra w2) as [[[[name c1]|e] w3] t3]
  end; red1; cbv beta iota zeta delta [negb snd] in Ha.
  2: { rewrite !kinds_app, !List.forallb_app, Hquiet, Ha. reflexivity. }
  match goal with
  | |- context [assureContainer ?d' cfg w3] =>
      destruct (assureContainer_runs d' cfg w3) as [Hc _];
      destruct (assureContainer d' cfg w3) as [[[[cn c2]|e] w4] t4]
  end; red1; cbv beta iota zeta delta [negb snd] in Hc.
  all: rewrite !kinds_app, !List.forallb_app, Hquiet, Ha, Hc; reflexivity.
Qed.

End Records.

(** ** The outcome of [CreateStorage] on a shared configuration *)

(** What [resolve_CloudName] leaves: the driver of the definition that
    keeps the configuration apart, and a resource that shows the
    driver's configuration where it shares it. *)
Lemma resolve_CloudName_shared (s : azure_shared.Sharing) (d : driver)
    (cr : imageregistryv1.Config) (infra : configv1.Infrastructure) :
  azure_shared.shared s d cr ->
  azure_shared.resolve_CloudName s d cr infra
  = (resolve_CloudName d infra,
     (azure_shared.write s (Config (resolve_CloudName d infra)) d cr).2).
Proof.
  intros Hs.
  assert (Hsame : (d, cr) = (d, (azure_shared.write s (Config d) d cr).2)).
  { destruct s; cbn in *; [reflexivity| |];
      destruct cr as [[? ?] [? ?] ?]; cbn in *; now subst. }
  unfold azure_shared.resolve_CloudName, resolve_CloudName.
  destruct (is_empty (CloudName (Config d)) && is_empty (AccountName (Config d)));
    [|exact Hsame].
  destruct (configv1.Status_PlatformStatus infra) as [ps|]; [|exact Hsame].
  destruct (String.eqb (configv1.Type_ ps) configv1.AzurePlatformType);
    [|exact Hsame].
  destruct (configv1.Azure ps) as [az|]; [|exact Hsame].
  reflexivity.
Qed.

Section SharedOutcome.
Context {W : Type} `{!World W}.

(** With the configuration in an object of its own, [CreateStorage] is
    the one of module [azure]. *)
Lemma CreateStorage_apart (d : driver) (cr : imageregistryv1.Config) (w : W) :
  azure_shared.CreateStorage azure_shared.Apart d cr w = CreateStorage d cr w.
Proof.
  unfold azure_shared.CreateStorage, CreateStorage, attempt, bind, call, ret.
  destruct (GetConfig w) as [[[cfg|e] w1] t1]; red1; [|reflexivity].
  destruct (is_empty (AccountKey cfg)); red1; [|reflexivity].
  destruct (perform GetInfrastructure w1) as [[infra|e] w2]; red1; [|reflexivity].
  rewrite (resolve_CloudName_shared azure_shared.Apart d cr infra I).
  cbn [azure_shared.write fst snd]. reflexivity.
Qed.

(** X7. Whether the driver's configuration is an object of its own or
    the one of the specification or of the status of the resource,
    [CreateStorage] always returns, and writes one condition update that
    tells its outcome: the status is Unknown exactly when an error is
    returned. Unless the status is True, the management states of the
    resource are as they were, the container of the driver's
    configuration is as it was, and the storage of the specification
    and of the status of the resource hold what they held, except that
    the one that shares the driver's configuration holds what the
    driver holds at the end: a cloud name or an account name that was
    written on the way shows there, whatever failed afterwards. When the
    status is True, the status of the resource records the driver's
    configuration, and the management state is set: to the value it
    had, if it had one. *)
Theorem CreateStorage_outcome (s : azure_shared.Sharing) (d : driver)
    (cr : imageregistryv1.Config) (w : W) :
  azure_shared.shared s d cr ->
  exists err d' cr' u,
    (azure_shared.CreateStorage s d cr w).1.1 = Ok (err, d', cr') /\
    Conditions cr' = Conditions cr ++ [u] /\
    (err <> None <-> imageregistryv1.Status u = ConditionUnknown) /\
    (imageregistryv1.Status u <> ConditionTrue ->
     ManagementState (Spec_Storage cr') = ManagementState (Spec_Storage cr) /\
     ManagementState (Status_Storage cr') = ManagementState (Status_Storage cr) /\
     imageregistryv1.Azure (Spec_Storage cr')
     = match s with
       | azure_shared.WithSpec => Config d'
       | _ => imageregistryv1.Azure (Spec_Storage cr)
       end /\
     imageregistryv1.Azure (Status_Storage cr')
     = match s with
       | azure_shared.WithStatus => Config d'
       | _ => imageregistryv1.Azure (Status_Storage cr)
       end /\
     Container (Config d') = Container (Config d)) /\
    (imageregistryv1.Status u = ConditionTrue ->
     imageregistryv1.Azure (Status_Storage cr') = Config d' /\
     is_empty (ManagementState (Spec_Storage cr')) = false /\
     (is_empty (ManagementState (Spec_Storage cr)) = false ->
      ManagementState (Spec_Storage cr') = ManagementState (Spec_Storage cr))).
Proof.
  intros Hs.
  assert (Hresolve : forall infra,
             Container (Config (resolve_CloudName d infra)) = Container (Config d)).
  { intros infra. unfold resolve_CloudName.
    repeat match goal with
           | |- context [if ?b then _ else _] => destruct b
           | |- context [match ?x with _ => _ end] => destruct x
           end; reflexivity. }
  unfold azure_shared.CreateStorage, processUPI, attempt, bind, call, ret.
  destruct (GetConfig w) as [[[cfg|e] w1] t1]; red1.
  2: { outcome. destruct s; cbn in Hs |- *; repeat split; congruence. }
  destruct (is_empty (AccountKey cfg)); red1.
  2: { repeat step_whole; outcome.
       all: destruct s; cbn in Hs |- *; repeat split;
         first [reflexivity | assumption | congruence]. }
  destruct (perform GetInfrastructure w1) as [[infra|e] w2]; red1.
  2: { outcome. destruct s; cbn in Hs |- *; repeat split; congruence. }
  rewrite (resolve_CloudName_shared s d cr infra Hs).
  specialize (Hresolve infra).
  set (d1 := resolve_CloudName d infra) in *.
  destruct s; cbn [azure_shared.write azure_shared.shared fst snd] in Hs |- *.
  all: repeat step_whole.
  all: outcome.
  all: cbn [Spec_Storage Status_Storage ManagementState imageregistryv1.Azure
            set_Spec_Azure set_Status_Azure set_Status_Storage
            set_Spec_ManagementState with_Config Config set_AccountName
            set_Container Container] in *.
  all: split; [split; intros Hx; first [discriminate Hx | congruence]|].
  all: split; [intros Hx; first [now destruct Hx | repeat split; congruence]|].
  all: intros Hx; try discriminate Hx.
  all: repeat split; first [reflexivity | assumption | congruence].
Qed.

End SharedOutcome.

Lemma CreateStorage_outcome_witness :
  exists err d' cr' u,
    (azure_shared.CreateStorage azure_shared.WithSpec (Sim.driver_of "" "")
       (Sim.resource "" "" "") Sim_key_fails).1.1 = Ok (err, d', cr') /\
    Conditions cr' = Conditions (Sim.resource "" "" "") ++ [u] /\
    (err <> None <-> imageregistryv1.Status u = ConditionUnknown) /\
    (imageregistryv1.Status u <> ConditionTrue ->
     ManagementState (Spec_Storage cr')
     = ManagementState (Spec_Storage (Sim.resource "" "" "")) /\
     ManagementState (Status_Storage cr')
     = ManagementState (Status_Storage (Sim.resource "" "" "")) /\
     imageregistryv1.Azure (Spec_Storage cr') = Config d' /\
     imageregistryv1.Azure (Status_Storage cr')
     = imageregistryv1.Azure (Status_Storage (Sim.resource "" "" "")) /\
     Container (Config d') = Container (Config (Sim.driver_of "" ""))) /\
    (imageregistryv1.Status u = ConditionTrue ->
     imageregistryv1.Azure (Status_Storage cr') = Config d' /\
     is_empty (ManagementState (Spec_Storage cr')) = false /\
     (is_empty (ManagementState (Spec_Storage (Sim.resource "" "" ""))) = false ->
      ManagementState (Spec_Storage cr')
      = ManagementState (Spec_Storage (Sim.resource "" "" "")))).
Proof.
  apply (CreateStorage_outcome azure_shared.WithSpec (Sim.driver_of "" "")
           (Sim.resource "" "" "") Sim_key_fails).
  reflexivity.
Defined.

(** With the driver's configuration shared with the specification, a
    call that fails after the account is created leaves the name of the
    account in the specification. *)
Lemma CreateStorage_shared_writes_spec :
  exists err d' cr',
    (azure_shared.CreateStorage azure_shared.WithSpec (Sim.driver_of "" "")
       (Sim.resource "" "" "") Sim_key_fails).1.1 = Ok (Some err, d', cr') /\
    AccountName (imageregistryv1.Azure (Spec_Storage cr'))
    = "imageregistrycilnx7bcdfg" /\
    AccountName (imageregistryv1.Azure (Spec_Storage (Sim.resource "" "" ""))) = "".
Proof. vm_compute. eexists _, _, _. repeat split. Qed.

(** ** What the teardown leaves *)


Section Teardown.
Context {W : Type} `{!World W}.


End Teardown.


Section TeardownProgress.
Context {W : Type} `{!World W}.



End TeardownProgress.

(** ** Tags, names and addresses *)

Lemma foldl_tags_lookup (tags : list configv1.AzureResourceTag)
    (m : gmap string string) (k : string) :
  foldl (fun m tag => <[configv1.Key tag := configv1.Value tag]> m) m tags !! k
  = match last_tag k tags with
    | Some v => Some v
    | None => m !! k
    end.
Proof.
  revert m. induction tags as [|tag rest IH]; intros m; [reflexivity|].
  cbn [foldl last_tag]. rewrite IH.
  destruct (last_tag k rest); [reflexivity|].
  destruct (String.eqb (configv1.Key tag) k) eqn:E.
  - apply String.eqb_eq in E. subst k. apply lookup_insert_eq.
  - apply String.eqb_neq in E. now apply lookup_insert_ne.
Qed.

(** X11. The tags of the storage account: a key has the value of the last
    of the user's resource tags of that key; only a key without such a
    tag falls back to the cluster's ownership tag, so that a user's tag
    of that key replaces the ownership. *)
Theorem tagset_of_lookup (infra : configv1.Infrastructure) (k : string) :
  tagset_of infra !! k
  = match last_tag k (resource_tags infra) with
    | Some v => Some v
    | None =>
        if String.eqb k ("kubernetes.io_cluster." +:+ configv1.InfrastructureName infra)
        then Some "owned"
        else None
    end.
Proof.
  assert (Hown : ({[ "kubernetes.io_cluster." +:+ configv1.InfrastructureName infra
                     := "owned" ]} : gmap string string) !! k
                 = if String.eqb k ("kubernetes.io_cluster."
                                    +:+ configv1.InfrastructureName infra)
                   then Some "owned" else None).
  { destruct (String.eqb k _) eqn:E.
    - apply String.eqb_eq in E. subst k. apply lookup_singleton_eq.
    - apply String.eqb_neq in E. apply lookup_singleton_ne. congruence. }
  unfold tagset_of, resource_tags.
  destruct (configv1.Status_PlatformStatus infra) as [ps|]; [|exact Hown].
  destruct (configv1.Azure ps) as [az|]; [|exact Hown].
  rewrite foldl_tags_lookup, Hown. reflexivity.
Qed.

Lemma append_nil_l (s : string) : "" +:+ s = s.
Proof. reflexivity. Qed.

Lemma append_cons (c : ascii) (s1 s2 : string) :
  String c s1 +:+ s2 = String c (s1 +:+ s2).
Proof. reflexivity. Qed.

Lemma append_nil_r (s : string) : s +:+ "" = s.
Proof.
  induction s as [|c s IH]; [reflexivity|]. now rewrite append_cons, IH.
Qed.

Lemma append_assoc (s1 s2 s3 : string) : (s1 +:+ s2) +:+ s3 = s1 +:+ (s2 +:+ s3).
Proof.
  induction s1 as [|c s1 IH]; [reflexivity|]. now rewrite !append_cons, IH.
Qed.

Lemma without_append (sep : ascii) (s1 s2 : string) :
  without sep s1 -> without sep s2 -> without sep (s1 +:+ s2).
Proof.
  unfold without. intros H1 H2. rewrite GoStringFacts.all_append, H1, H2.
  reflexivity.
Qed.

Lemma last_segment_from_spec (sep : ascii) (s u : string) :
  without sep u ->
  exists pre,
    u +:+ s = pre +:+ GoString.last_segment_from sep (u +:+ s) s /\
    without sep (GoString.last_segment_from sep (u +:+ s) s) /\
    (pre = "" \/ exists p, pre = p +:+ String sep "").
Proof.
  revert u. induction s as [|c s IH]; intros u Hu.
  - exists "". cbn [GoString.last_segment_from]. rewrite append_nil_r.
    split; [reflexivity|]. split; [exact Hu | now left].
  - cbn [GoString.last_segment_from].
    destruct (Ascii.eqb c sep) eqn:E.
    + apply Ascii.eqb_eq in E. subst c.
      destruct (IH "" eq_refl) as (pre & Heq & Hno & Hpre).
      rewrite append_nil_l in Heq, Hno.
      exists (u +:+ String sep pre). split; [|split].
      * rewrite append_assoc, append_cons. now rewrite <- Heq.
      * exact Hno.
      * right. destruct Hpre as [-> | [p ->]].
        -- now exists u.
        -- exists (u +:+ String sep p).
           now rewrite append_assoc, append_cons.
    + assert (Hu' : without sep (u +:+ String c "")).
      { apply without_append; [exact Hu|]. unfold without. simpl. now rewrite E. }
      destruct (IH (u +:+ String c "") Hu') as (pre & Heq & Hno & Hpre).
      rewrite append_assoc, append_cons, append_nil_l in Heq, Hno.
      exists pre. auto.
Qed.

(** X15. The last element of [strings.Split(s, sep)], as [getNICAddress] and
    the driver's [createRecordSet] take it from the identifier of a
    network interface: it holds no separator, and it is all of [s] or
    what follows a separator of [s]. *)
Theorem last_segment_spec (sep : ascii) (s : string) :
  exists pre,
    s = pre +:+ GoString.last_segment sep s /\
    without sep (GoString.last_segment sep s) /\
    (pre = "" \/ exists p, pre = p +:+ String sep "").
Proof. apply (last_segment_from_spec sep s ""). reflexivity. Qed.

Ltac step_flow :=
  first
    [ match goal with
      | |- context [match pe_NetworkInterfaces ?x with _ => _ end] =>
          destruct (pe_NetworkInterfaces x) eqn:?; red1
      | |- context [match nic_IPConfigurations ?x with _ => _ end] =>
          destruct (nic_IPConfigurations x) eqn:?; red1
      end
    | step ].

Ltac observe_flow :=
  observe;
  lazy beta iota zeta delta
    [assureStorageAccount_flow tags_sent account_requests endpoint_requests
     endpoints interfaces record_requests zone_group_requests link_requests
     interface_lookups ev_tags ev_account_request ev_endpoint_request
     ev_endpoint ev_interface_reply ev_record ev_zone_group ev_link
     ev_interface filter_map fst snd];
  repeat match goal with
    | H : pe_NetworkInterfaces _ = _ |- _ => rewrite H
    | H : nic_IPConfigurations _ = _ |- _ => rewrite H
    end;
  cbv beta iota.

Section Flow.
Context {W : Type} `{!World W}.

(** X12. The data of one run of [assureStorageAccount]. Every request that
    carries tags carries the tags of [tagset_of]. The account that is
    asked for, the resource that the private endpoint links to and the
    name of the record set are those of the one name that was probed.
    The interface that is looked up is named by the last segment of
    the first interface identifier of the endpoint that the provider
    returned, the address of the record set is the first address of the
    interface that it returned, and the zone group is written on the
    endpoint by the name that the provider returned. *)
Theorem assureStorageAccount_data (d : driver) (cfg : Azure)
    (infra : configv1.Infrastructure) (w : W) :
  assureStorageAccount_flow cfg infra (assureStorageAccount d cfg infra w).
Proof.
  unfold_driver.
  destruct (is_empty (CloudName (Config d)));
    destruct (authorizer d);
    destruct (is_empty (AccountName (Config d))) eqn:HA;
    red1.
  all: repeat step_flow.
  all: observe_flow.
  all: unfold at_most_one.
  all: split; [repeat constructor|].
  all: repeat split; auto.
Qed.

End Flow.

(** ** The container and the generated names *)

Ltac observe_container :=
  observe;
  lazy beta iota zeta delta
    [assureContainer_flow keys_fetched container_calls ev_key
     ev_container_call generated_names ev_generated missing_containers
     ev_missing filter_map fst snd].

Section Container.
Context {W : Type} `{!World W}.

(** X13. The data of one run of [assureContainer]. It fetches the key of
    the recorded account, once, and stops there if the fetch fails.
    Every request on a container is made for the recorded account with
    the key that was fetched. With no container recorded, the only
    request creates a container by the name that was generated. With a
    container recorded, the container is looked up, and it is created,
    by the recorded name, only after the provider reported it not
    found; with no account recorded there is no look-up. *)
Theorem assureContainer_data (d : driver) (cfg : Azure) (w : W) :
  assureContainer_flow d (assureContainer d cfg w).
Proof.
  unfold_driver.
  destruct (is_empty (CloudName (Config d)));
    destruct (authorizer d);
    destruct (is_empty (Container (Config d))) eqn:HC;
    destruct (is_empty (AccountName (Config d))) eqn:HA;
    red1.
  all: repeat step.
  all: unfold assureContainer_flow; rewrite ?HC, ?HA; observe_container.
  all: repeat match goal with
         | H : String.eqb _ _ = _ |- _ => rewrite H; clear H
         end.
  all: unfold at_most_one.
  all: repeat split; auto.
  all: try (right; left; reflexivity).
  all: right; right; split; reflexivity.
Qed.

End Container.

Lemma map_append (f : ascii -> ascii) (s1 s2 : string) :
  GoString.map f (s1 +:+ s2) = GoString.map f s1 +:+ GoString.map f s2.
Proof.
  induction s1 as [|c s1 IH]; [reflexivity|].
  rewrite append_cons. cbn [GoString.map]. now rewrite append_cons, IH.
Qed.

Lemma generated_name_shape (infrastructureName suffix : string) :
  generated_name_spec infrastructureName suffix
  = "imageregistry"
    +:+ GoString.ToLower
          (GoString.take 6 (storageAccountInvalidCharRe_strip infrastructureName))
    +:+ GoString.ToLower suffix.
Proof.
  unfold generated_name_spec, storageAccountInvalidCharRe_strip.
  rewrite GoStringFacts.filter_append.
  change (GoString.filter GoString.is_alnum "imageregistry") with "imageregistry".
  change (GoString.take (24 - 5) ("imageregistry" +:+ ?x))
    with ("imageregistry" +:+ GoString.take 6 x).
  unfold GoString.ToLower. rewrite append_assoc, !map_append. reflexivity.
Qed.

Section Shape.
Context {W : Type} `{!World W}.

(** X14. The shape of the name that [generateAccountName] returns: the fixed
    prefix, then at most the first six characters of the infrastructure
    name that are letters or digits, then the suffix that was drawn, all
    in lower case. Whatever follows these six characters has no part in
    the name. The one call is the draw of the suffix. *)
Theorem generateAccountName_shape (infrastructureName : string) (w : W) :
  let suffix := (perform (RandString 5) w).1 in
  generateAccountName infrastructureName w
  = (Ok ("imageregistry"
         +:+ GoString.ToLower
               (GoString.take 6
                  (storageAccountInvalidCharRe_strip infrastructureName))
         +:+ GoString.ToLower suffix),
     (perform (RandString 5) w).2,
     [Ev (RandString 5) suffix]).
Proof.
  intros suffix. rewrite generateAccountName_run, generated_name_shape.
  reflexivity.
Qed.

End Shape.


(** ** The client: private DNS, private endpoints and network access *)

Ltac unfold_rest :=
  unfold azureclient_rest.DestroyPrivateDNS, azureclient_rest.deleteRecordSet,
    azureclient_rest.deletePrivateDNSZoneGroup,
    azureclient_rest.deleteVirtualNetworkLink,
    azureclient_rest.PrivateEndpointExists,
    azureclient_rest.IsStorageAccountPrivate,
    azureclient_rest.UpdateStorageAccountNetworkAccess,
    azureclient_rest.getStorageAccount,
    azureclient_rest.try, azureclient_rest.or_fail, azureclient_rest.await,
    azureclient_rest.attempt, azureclient_rest.call, azureclient_rest.bind,
    azureclient_rest.ret, azureclient_rest.fail.

Ltac step_rest :=
  match goal with
  | |- context [azureclient_rest.client_perform ?c ?w] =>
      let r := fresh "r" in
      let w' := fresh "w" in
      destruct (azureclient_rest.client_perform c w) as [r w'];
      split_reply r; red1
  | |- context [match ?x with _ => _ end] => is_var x; destruct x; red1
  | |- context [if (?x =? 404)%Z then _ else _] =>
      destruct (x =? 404)%Z eqn:?; red1
  end.

Ltac observe_rest :=
  repeat match goal with
    | u : unit |- _ => destruct u
    end;
  lazy beta iota zeta delta
    [deletions client_failures accounts_read access_updates endpoint_lookups
     ev_deletion ev_client_failure ev_account_read ev_access_update
     ev_endpoint_lookup client_reply_error filter_map app fst snd
     is_response_not_found DestroyPrivateDNS_order].

Section ClientData.
Context {W : Type} `{!World W}.

(** Every run of [ConfigurePrivateDNS], by cases on the replies. *)
Lemma ConfigurePrivateDNS_flows (c : azureclient.Client)
    (privateEndpoint : PrivateEndpoint) (vnetName storageAccountName : string)
    (w : W) :
  ConfigurePrivateDNS_flow c privateEndpoint storageAccountName
    (azureclient.ConfigurePrivateDNS c privateEndpoint vnetName storageAccountName w).
Proof.
  unfold_client.
  repeat step_flow.
  all: cbn [azureclient.is_conflict]; red1.
  all: try match goal with
       | |- context [azureclient.is_conflict ?e] =>
           destruct (azureclient.is_conflict e) eqn:Hconflict
       end.
  all: red1; unfold ConfigurePrivateDNS_flow; observe_flow.
  all: unfold at_most_one.
  all: split; [repeat constructor|].
  all: repeat split; auto.
  all: intros Hok; try discriminate Hok; eexists; repeat split.
Qed.

(** X16. What [ConfigurePrivateDNS] writes. Every request that carries tags
    carries the client's. The interface that is looked up is named by
    the last segment of the endpoint's first interface identifier. The
    record set is written in the default zone by the name of the storage
    account, with the first address of the interface that the provider
    returned; the zone group is written on the endpoint; the link is
    written in the default zone by the name of the storage account.
    When the call succeeds, each of the three was asked for once. *)
Theorem ConfigurePrivateDNS_data (c : azureclient.Client)
    (privateEndpoint : PrivateEndpoint) (vnetName storageAccountName : string)
    (w : W) :
  ConfigurePrivateDNS_flow c privateEndpoint storageAccountName
    (azureclient.ConfigurePrivateDNS c privateEndpoint vnetName storageAccountName w).
Proof. apply ConfigurePrivateDNS_flows. Qed.

End ClientData.

Section ClientRest.
Context {W : Type} `{!azureclient_rest.ClientWorld W}.

(** Every run of [DestroyPrivateDNS], by cases on the replies. *)
Lemma DestroyPrivateDNS_runs (c : azureclient.Client)
    (privateEndpointName vnetName storageAccountName : string) (w : W) :
  let out := azureclient_rest.DestroyPrivateDNS c privateEndpointName vnetName
               storageAccountName w in
  prefix (deletions out.2)
    (DestroyPrivateDNS_order c privateEndpointName storageAccountName) /\
  (out.1.1 = Ok tt <->
   deletions out.2 = DestroyPrivateDNS_order c privateEndpointName storageAccountName /\
   client_failures out.2 = []) /\
  (forall err, client_failures out.2 = [err] -> out.1.1 = Err err).
Proof.
  intros out. subst out. unfold_rest.
  repeat step_rest.
  all: observe_rest.
  all: split; [eexists; reflexivity|].
  all: split;
    [split; [intros Hok; first [discriminate Hok | split; reflexivity]
            |intros [Hd Hf]; first [discriminate Hd | discriminate Hf | reflexivity]]
    |intros ? Hf; first [discriminate Hf | simplify_eq; reflexivity]].
Qed.

(** X20. [PrivateEndpointExists] looks the endpoint up once, by its name,
    unless the client cannot be built. It says yes when the look-up
    succeeds, no when it fails with a response error of status 404, and
    returns every other error of the look-up as it is. *)
Theorem PrivateEndpointExists_answers (c : azureclient.Client)
    (privateEndpointName : string) (w : W) :
  let out := azureclient_rest.PrivateEndpointExists c privateEndpointName w in
  match endpoint_lookups out.2 with
  | [] => exists e, out.1.1 = Err e
  | [(name, None)] => name = privateEndpointName /\ out.1.1 = Ok true
  | [(name, Some e)] =>
      name = privateEndpointName /\
      out.1.1 = if is_response_not_found e then Ok false else Err e
  | _ => False
  end.
Proof.
  intros out. subst out. unfold_rest.
  repeat step_rest.
  all: observe_rest.
  all: repeat match goal with
         | H : (_ =? 404)%Z = _ |- _ => rewrite H
         end.
  all: first [split; reflexivity | eexists; reflexivity].
Qed.

(** X21. [IsStorageAccountPrivate] says yes exactly when the provider
    returned the account and the account tells that its public network
    access is disabled; every failure, and an account that does not
    tell, is a no. *)
Theorem IsStorageAccountPrivate_iff (c : azureclient.Client)
    (accountName : string) (w : W) :
  let out := azureclient_rest.IsStorageAccountPrivate c accountName w in
  out.1.1 = true <->
  exists a,
    accounts_read out.2 = [a] /\
    network_access a = Some azureclient_rest.PublicNetworkAccessDisabled.
Proof.
  intros out. subst out. unfold_rest.
  repeat step_rest.
  all: try match goal with
       | |- context [azureclient_rest.Properties ?a] =>
           destruct a as [[[[access|]]|]]
       end.
  all: cbn [azureclient_rest.Properties azureclient_rest.PublicNetworkAccess];
    observe_rest.
  all: split; [intros Hyes | intros (a & Hread & Haccess)].
  all: try discriminate Hyes; try discriminate Hread.
  - apply String.eqb_eq in Hyes. subst access. eexists. split; reflexivity.
  - simplify_eq. cbn in Haccess. simplify_eq. reflexivity.
  - simplify_eq.
  - simplify_eq.
Qed.

(** X22. On a provider that keeps the network access that an account was
    given: once [UpdateStorageAccountNetworkAccess] has succeeded,
    [IsStorageAccountPrivate], if it gets to read the account, says yes
    exactly when public access was not allowed. *)
Theorem network_access_round_trip (shows : W -> string -> string -> Prop)
    (c : azureclient.Client) (accountName : string) (allowPublicAccess : bool)
    (w w' : W) (t : list azureclient_rest.ClientEvent) :
  keeps_access shows ->
  azureclient_rest.UpdateStorageAccountNetworkAccess c accountName
    allowPublicAccess w = (Ok tt, w', t) ->
  accounts_read (azureclient_rest.IsStorageAccountPrivate c accountName w').2 <> [] ->
  (azureclient_rest.IsStorageAccountPrivate c accountName w').1.1
  = negb allowPublicAccess.
Proof.
  intros Hkeeps Hupdate.
  assert (Hshows : shows w' accountName
                     (if allowPublicAccess
                      then azureclient_rest.PublicNetworkAccessEnabled
                      else azureclient_rest.PublicNetworkAccessDisabled)).
  { revert Hupdate. unfold_rest.
    destruct (azureclient_rest.client_perform _ w) as [[[]|e] w1]; red1;
      [|discriminate].
    destruct (azureclient_rest.client_perform _ w1) as [[[]|e] w2] eqn:Hu; red1;
      [|discriminate].
    intros [= <- _]. exact (update_shows shows Hkeeps _ _ _ _ _ Hu). }
  unfold_rest.
  pose proof (client_keeps shows Hkeeps w' azureclient_rest.AccountsClient
                (azureclient.subscriptionID c) _ _ Hshows) as Hkept.
  destruct (azureclient_rest.client_perform
              (azureclient_rest.NewClient _ _) w') as [[[]|e] w1]; red1;
    [|intros Hread; now destruct Hread].
  cbn [snd] in Hkept.
  destruct (azureclient_rest.client_perform
              (azureclient_rest.AccountsGetProperties _ _) w1) as [[a|e] w2] eqn:Hget;
    red1; [|intros Hread; now destruct Hread].
  intros _.
  pose proof (read_shows shows Hkeeps _ _ _ _ _ _ Hkept Hget) as Haccess.
  unfold network_access in Haccess.
  destruct (azureclient_rest.Properties a) as [properties|]; [|discriminate].
  rewrite Haccess. cbn [fst]. now destruct allowPublicAccess.
Qed.

End ClientRest.

Ltac observe_destroy :=
  repeat match goal with
    | u : unit |- _ => destruct u
    end;
  lazy beta iota zeta delta
    [DestroyPrivateDNS_summary deletions deletions_done client_failures
     build_failures client_ev_ok ev_deletion ev_client_failure ev_build_failure
     client_reply_error filter_map List.filter app fst snd].

Section Destroy.
Context {W : Type} `{!azureclient_rest.ClientWorld W}.

(** X18. The deletions of [DestroyPrivateDNS] are, in this order: the
    record set named as the default zone in the zone named as the
    private endpoint, the zone group of the default zone on the private
    endpoint, and the link named as the storage account in the default
    zone. When no client fails to be built and no deletion fails, the
    three are asked for, the three succeed and the call returns no
    error. Otherwise exactly one thing failed and nothing is asked for
    after it: a client that cannot be built, with every deletion before
    it done and its error returned in a message; or a deletion, the last
    one asked for, with its error returned as it is. *)
Theorem DestroyPrivateDNS_deletions (c : azureclient.Client)
    (privateEndpointName vnetName storageAccountName : string) (w : W) :
  DestroyPrivateDNS_summary c privateEndpointName storageAccountName
    (azureclient_rest.DestroyPrivateDNS c privateEndpointName vnetName
       storageAccountName w).
Proof.
  unfold_rest.
  repeat step_rest.
  all: observe_destroy.
  all: split; [eexists; reflexivity|].
  all: repeat split; try reflexivity.
  all: eexists; reflexivity.
Qed.

End Destroy.

(** X19. [DestroyPrivateDNS] misses the record set of [ConfigurePrivateDNS]:
    a record set that [ConfigurePrivateDNS] asks to write for an
    endpoint and a storage account is among the deletions of
    [DestroyPrivateDNS] for them only if the endpoint and the account
    are both named as the default zone. *)
Theorem DestroyPrivateDNS_misses_record_set {W W' : Type} `{!World W}
    `{!azureclient_rest.ClientWorld W'} (c : azureclient.Client)
    (privateEndpoint : PrivateEndpoint) (vnetName storageAccountName : string)
    (w : W) (w' : W') (zone name address : string) :
  In (zone, name, address)
    (record_requests
       (azureclient.ConfigurePrivateDNS c privateEndpoint vnetName
          storageAccountName w).2) ->
  In (DelRecordSet (azureclient.resourceGroupName c) zone name)
    (deletions
       (azureclient_rest.DestroyPrivateDNS c (pe_Name privateEndpoint) vnetName
          storageAccountName w').2) ->
  pe_Name privateEndpoint = azureclient.defaultPrivateZoneName /\
  storageAccountName = azureclient.defaultPrivateZoneName.
Proof.
  intros Hwritten Hdeleted.
  destruct (ConfigurePrivateDNS_flows c privateEndpoint vnetName storageAccountName w)
    as (_ & _ & Hrecords & _).
  destruct (DestroyPrivateDNS_runs c (pe_Name privateEndpoint) vnetName
              storageAccountName w') as ([rest Hprefix] & _).
  assert (Hin : In (DelRecordSet (azureclient.resourceGroupName c) zone name)
                  (DestroyPrivateDNS_order c (pe_Name privateEndpoint)
                     storageAccountName)).
  { rewrite Hprefix. apply List.in_or_app. now left. }
  assert (Hnames : zone = azureclient.defaultPrivateZoneName /\
                   name = storageAccountName).
  { destruct (interfaces _) as [|nic ?].
    - rewrite Hrecords in Hwritten. destruct Hwritten.
    - destruct (nic_IPConfigurations nic) as [|nicAddress ?].
      + rewrite Hrecords in Hwritten. destruct Hwritten.
      + destruct Hrecords as [Hnone | Hone]; rewrite ?Hnone, ?Hone in Hwritten.
        * destruct Hwritten.
        * destruct Hwritten as [[= <- <- _] | []]. split; reflexivity. }
  destruct Hnames as [-> ->].
  destruct Hin as [[= Hname Hzone] | [[=] | [[=] | []]]].
  split; [exact Hname | symmetry; exact Hzone].
Qed.

(** The provider in memory keeps the network access that an account
    was given. *)
Lemma ClientSim_keeps_access : keeps_access ClientSim_shows.
Proof.
  split.
  - intros w rg accountName access w' [= <-].
    unfold ClientSim_shows. cbn. now rewrite String.eqb_refl.
  - intros w kind subscriptionID accountName access Hs. exact Hs.
  - intros w rg accountName access a w' Hs [= <- _]. exact Hs.
Qed.

Lemma network_access_round_trip_witness :
  (azureclient_rest.IsStorageAccountPrivate Sim_client "acct1"
     ([("acct1", "Disabled")] : ClientSim.state)).1.1
  = negb false.
Proof.
  apply (network_access_round_trip ClientSim_shows Sim_client "acct1" false
           ([] : ClientSim.state) [("acct1", "Disabled")]
           [azureclient_rest.CEv
              (azureclient_rest.NewClient azureclient_rest.AccountsClient "sub")
              (Ok tt);
            azureclient_rest.CEv
              (azureclient_rest.AccountsUpdate "rg" "acct1" "Disabled") (Ok tt)]
           ClientSim_keeps_access).
  - reflexivity.
  - vm_compute. discriminate.
Defined.

Lemma DestroyPrivateDNS_misses_record_set_witness :
  pe_Name Sim_endpoint_named_as_zone = azureclient.defaultPrivateZoneName /\
  azureclient.defaultPrivateZoneName = azureclient.defaultPrivateZoneName.
Proof.
  apply (DestroyPrivateDNS_misses_record_set Sim_client Sim_endpoint_named_as_zone
           "vnet" azureclient.defaultPrivateZoneName Sim.empty
           ([] : ClientSim.state) azureclient.defaultPrivateZoneName
           azureclient.defaultPrivateZoneName "10.0.0.4").
  - vm_compute. left. reflexivity.
  - vm_compute. left. reflexivity.
Defined.

Lemma ConfigurePrivateDNS_success_witness :
  requests
    (azureclient.ConfigurePrivateDNS Sim_client Sim_endpoint "vnet" "acct1"
       Sim_link_conflict).2
  = [KPrivateZoneCreate; KInterfacesGet; KRecordSetCreate; KZoneGroupCreate;
     KVirtualNetworkLinkCreate] /\
  (failures
     (azureclient.ConfigurePrivateDNS Sim_client Sim_endpoint "vnet" "acct1"
        Sim_link_conflict).2 = [] \/
   exists e,
     failures
       (azureclient.ConfigurePrivateDNS Sim_client Sim_endpoint "vnet" "acct1"
          Sim_link_conflict).2 = [(KVirtualNetworkLinkCreate, e)] /\
     azureclient.is_conflict e = true).
Proof.
  apply (ConfigurePrivateDNS_success Sim_client Sim_endpoint "vnet" "acct1"
           Sim_link_conflict).
  vm_compute. reflexivity.
Defined.


(** ** Options of the client *)

Lemma is_empty_true (s : string) : is_empty s = true <-> s = "".
Proof. destruct s; simpl; split; congruence. Qed.

Lemma is_empty_false (s : string) : is_empty s = false <-> s <> "".
Proof. destruct s; simpl; split; congruence. Qed.

Lemma In_strings (x : string) (l : list string) :
  In x l <-> List.existsb (String.eqb x) l = true.
Proof.
  rewrite List.existsb_exists. split.
  - intros H. exists x. split; [exact H | apply String.eqb_refl].
  - intros (y & Hy & Heq). apply String.eqb_eq in Heq. now subst y.
Qed.

Lemma In_if (x : string) (b : bool) (l : list string) :
  In x (if b then l else []) <-> b && List.existsb (String.eqb x) l = true.
Proof.
  destruct b; simpl; [apply In_strings|]. split; [tauto | discriminate].
Qed.

Lemma if_nil {A} (b : bool) (x : A) (l : list A) :
  (if b then x :: l else []) = [] -> b = false.
Proof. destruct b; [discriminate | reflexivity]. Qed.

(** X23. [validate] returns the nil error exactly when every required option
    is set: the three endpoints of the environment, the tenant, the
    client, the subscription, the resource group, and one way at least to
    authenticate (a client secret, a federated token file or ready
    credentials). *)
Theorem validate_nil_iff_complete (opts : azureclient_ops.Options) :
  azureclient_ops.validate opts = None <-> complete opts.
Proof.
  unfold azureclient_ops.validate, complete. cbv zeta.
  rewrite <- !is_empty_false. split.
  - intros H.
    assert (Hm : azureclient_ops.missingOpts opts = []).
    { destruct (azureclient_ops.missingOpts opts); [reflexivity | discriminate H]. }
    unfold azureclient_ops.missingOpts in Hm.
    repeat match type of Hm with
           | _ ++ _ = [] => apply app_eq_nil in Hm as [?%if_nil Hm]
           end.
    apply if_nil in Hm.
    repeat split; try assumption.
    destruct (is_empty (azureclient_ops.ClientSecret opts)); [|left; reflexivity].
    destruct (is_empty (azureclient_ops.FederatedTokenFile opts));
      [|right; left; reflexivity].
    right; right. now destruct (azureclient_ops.Creds opts).
  - intros (H1 & H2 & H3 & H4 & H5 & H6 & H7 & H8).
    unfold azureclient_ops.missingOpts. rewrite H1, H2, H3, H4, H5, H7, H8.
    destruct H6 as [H6 | [H6 | H6]]; rewrite H6; simpl;
      rewrite ?andb_false_r; reflexivity.
Qed.

Lemma existsb_if {A} (f : A -> bool) (b : bool) (l : list A) :
  List.existsb f (if b then l else []) = b && List.existsb f l.
Proof. now destruct b. Qed.

(** Whether [validate] names the option [x]. *)
Lemma named_iff (x : string) (opts : azureclient_ops.Options) :
  In x (azureclient_ops.missingOpts opts) <->
  List.existsb (String.eqb x) (azureclient_ops.missingOpts opts) = true.
Proof. apply In_strings. Qed.

Ltac named_option :=
  unfold azureclient_ops.missingOpts;
  rewrite !List.existsb_app, !existsb_if;
  cbn [List.existsb String.eqb Ascii.eqb Bool.eqb];
  repeat first [rewrite andb_false_r | rewrite andb_true_r
               | rewrite orb_false_r | rewrite orb_false_l].

(** X24. The error of [validate] lists the names of the missing options,
    joined by commas. It names an option exactly when that option is
    missing; the three ways to authenticate are named together, when none
    of them is there. *)
Theorem validate_names_the_missing (opts : azureclient_ops.Options) :
  let named := azureclient_ops.missingOpts opts in
  azureclient_ops.validate opts
  = match named with
    | [] => None
    | _ :: _ =>
        Some (Errorf "client misconfigured, missing %s option(s)"
                [ArgString (azureclient_ops.Join named ", ")])
    end /\
  (In "'TenantID'" named <-> azureclient_ops.TenantID opts = "") /\
  (In "'ClientID'" named <-> azureclient_ops.ClientID opts = "") /\
  (In "'SubscriptionID'" named <-> azureclient_ops.SubscriptionID opts = "") /\
  (In "'ResourceGroupName'" named <-> azureclient_ops.ResourceGroupName opts = "") /\
  (In "'Environment.ResourceManagerEndpoint'" named <->
   ResourceManagerEndpoint (azureclient_ops.Environment_ opts) = "") /\
  (In "'Environment.ActiveDirectoryEndpoint'" named <->
   ActiveDirectoryEndpoint (azureclient_ops.Environment_ opts) = "") /\
  (In "'Environment.TokenAudience'" named <->
   TokenAudience (azureclient_ops.Environment_ opts) = "") /\
  (In "'ClientSecret'" named <->
   azureclient_ops.ClientSecret opts = "" /\
   azureclient_ops.FederatedTokenFile opts = "" /\
   azureclient_ops.Creds opts = false) /\
  (In "'ClientSecret'" named <-> In "'FederatedTokenFile'" named) /\
  (In "'ClientSecret'" named <-> In "'Creds'" named).
Proof.
  intros named. subst named.
  split.
  { unfold azureclient_ops.validate.
    now destruct (azureclient_ops.missingOpts opts). }
  repeat match goal with |- _ /\ _ => split end.
  1-7: etransitivity; [apply named_iff|]; named_option; apply is_empty_true.
  - etransitivity; [apply named_iff|]. named_option.
    rewrite !andb_true_iff, !is_empty_true.
    destruct (azureclient_ops.Creds opts); simpl; intuition discriminate.
  - etransitivity; [apply named_iff|]. symmetry.
    etransitivity; [apply named_iff|]. now named_option.
  - etransitivity; [apply named_iff|]. symmetry.
    etransitivity; [apply named_iff|]. now named_option.
Qed.

(** ** How far [assureStorageAccount] goes *)


Section Progress.
Context {W : Type} `{!World W}.



End Progress.
